(** * The financial assistant of [src/main.py]: extraction, calculators, routing

    A shallow embedding of [ImprovedFinancialAgent]: the numeric extractor
    [extrair_valores_numericos], the calculators [imposto_renda_melhorado] and
    [calculadora_financeira_geral], and the fallback chain of [chat].

    Python values are modelled as the interpreter has them:
    - a [str] is a list of Unicode code points ([text]);
    - a [float] is an IEEE 754 binary64 number (the kernel's [float]), parsed
      and printed by exact rational arithmetic with round-half-even;
    - a [dict] with string keys is a [gmap string _];
    - a call that may raise returns a [res]; [try/except] is a match on it;
    - the collaborators that live outside the repository (the ReAct agent,
      the language model, the arXiv search, the C library's [pow], the part
      of the Unicode character database beyond ASCII) are parameters. *)

From Stdlib Require Import ZArith NArith PArith List String Ascii Bool Lia Floats.
From stdpp Require Import base gmap strings.
Import ListNotations.

#[global] Set Warnings "-inexact-float".
#[global] Open Scope Z_scope.

(* ===================================================================== *)
(** * Text: Python [str] as a list of code points                         *)
(* ===================================================================== *)

Module Text.

Definition text := list N.

(** [cps] reads a literal of this file (UTF-8 bytes) as code points. *)
Fixpoint utf8_decode (s : string) (pending : nat) (acc : N) : text :=
  match s with
  | EmptyString => []
  | String a s' =>
      let b := N_of_ascii a in
      match pending with
      | O =>
          if (b <? 128)%N then b :: utf8_decode s' 0 0%N
          else if (b <? 224)%N then utf8_decode s' 1 (b mod 32)%N
          else if (b <? 240)%N then utf8_decode s' 2 (b mod 16)%N
          else utf8_decode s' 3 (b mod 8)%N
      | S O => (acc * 64 + b mod 64)%N :: utf8_decode s' 0 0%N
      | S p => utf8_decode s' p (acc * 64 + b mod 64)%N
      end
  end.

Definition cps (s : string) : text := utf8_decode s 0 0%N.

(** The double quote, which a literal of this file cannot hold. *)
Definition dq : text := [34%N].

Definition text_eqb (a b : text) : bool := bool_decide (a = b).

Fixpoint is_prefix (p s : text) : bool :=
  match p, s with
  | [], _ => true
  | _ :: _, [] => false
  | a :: p', b :: s' => (a =? b)%N && is_prefix p' s'
  end.

(** [needle in hay] *)
Fixpoint py_in (needle hay : text) : bool :=
  is_prefix needle hay ||
  match hay with
  | [] => false
  | _ :: hay' => py_in needle hay'
  end.

(** [any(term in s for term in terms)] *)
Definition any_in (terms : list text) (s : text) : bool :=
  existsb (fun term => py_in term s) terms.

(** [str.isspace] of one character ([Py_UNICODE_ISSPACE]); the regular
    expression class [\s] is the same set. *)
Definition is_space (c : N) : bool :=
  ((9 <=? c) && (c <=? 13) || (28 <=? c) && (c <=? 32) ||
   (c =? 133) || (c =? 160) || (c =? 5760) ||
   (8192 <=? c) && (c <=? 8202) ||
   (c =? 8232) || (c =? 8233) || (c =? 8239) || (c =? 8287) ||
   (c =? 12288))%N.

Fixpoint lstrip (s : text) : text :=
  match s with
  | c :: s' => if is_space c then lstrip s' else s
  | [] => []
  end.

Definition rstrip (s : text) : text := rev (lstrip (rev s)).

(** [s.strip()] *)
Definition py_strip (s : text) : text := rstrip (lstrip s).

(** [s.replace(old, new)] for a one-character [old]. *)
Definition replace_char (old : N) (new : text) (s : text) : text :=
  flat_map (fun c => if (c =? old)%N then new else [c]) s.

(** [s[:n]] *)
Definition take_chars (n : nat) (s : text) : text := firstn n s.

Definition ascii_lower (c : N) : N :=
  if ((65 <=? c) && (c <=? 90))%N then (c + 32)%N else c.

Definition is_ascii (c : N) : bool := (c <? 128)%N.

Definition ascii_digit (c : N) : option N :=
  if ((48 <=? c) && (c <=? 57))%N then Some (c - 48)%N else None.

(** The part of the Unicode character database beyond ASCII that the
    program's string operations consult.  It belongs to the Python runtime
    and changes with its Unicode version, so it is a parameter; what the
    runtime does on ASCII characters is fixed below. *)
Record unicode_db := {
  (** value of a decimal digit (category Nd), for [\d] and [float()] *)
  udb_decimal : N -> option N;
  (** full lower-casing of a character in its context (text before it,
      reversed, and text after it: the final-sigma rule reads both) *)
  udb_lower : text -> N -> text -> text;
  (** whether, under [re.IGNORECASE], a text character matches the given
      lower-case ASCII letter of a pattern *)
  udb_caseless : N -> N -> bool
}.

(** A database with nothing beyond ASCII: no other digit, no other cased
    letter. Every database agrees with it on ASCII text. *)
Definition ascii_db : unicode_db :=
  {| udb_decimal := fun _ => None;
     udb_lower := fun _ c _ => [c];
     udb_caseless := fun _ _ => false |}.

Section WithUnicode.
Variable U : unicode_db.

Definition decimal_value (c : N) : option N :=
  if is_ascii c then ascii_digit c else udb_decimal U c.

(** [\d] *)
Definition is_decimal (c : N) : bool :=
  match decimal_value c with Some _ => true | None => false end.

Fixpoint lower_from (before : text) (s : text) : text :=
  match s with
  | [] => []
  | c :: after =>
      (if is_ascii c then [ascii_lower c] else udb_lower U before c after)
        ++ lower_from (c :: before) after
  end.

(** [s.lower()] *)
Definition py_lower (s : text) : text := lower_from [] s.

(** a pattern letter [p] (lower-case ASCII) against a text character
    under [re.IGNORECASE] *)
Definition caseless_eq (p c : N) : bool :=
  if is_ascii c then (ascii_lower c =? p)%N else udb_caseless U p c.
End WithUnicode.

End Text.
Export Text.

(* ===================================================================== *)
(** * Exceptions: a call either returns or raises                        *)
(* ===================================================================== *)

Module Py.

Inductive exn_class :=
  | ValueError | ZeroDivisionError | OverflowError | AttributeError
  | OtherError.

(** An exception, with what [str(e)] gives. *)
Record pyexn := PyExn { exn_cls : exn_class; exn_str : text }.

Inductive res (A : Type) :=
  | Ret (a : A)
  | Raise (e : pyexn).
Arguments Ret {A} a.
Arguments Raise {A} e.

Definition bind {A B} (m : res A) (k : A -> res B) : res B :=
  match m with
  | Ret a => k a
  | Raise e => Raise e
  end.

(** [try: m  except Exception as e: h e] *)
Definition try_except {A} (m : res A) (h : pyexn -> A) : A :=
  match m with
  | Ret a => a
  | Raise e => h e
  end.

End Py.
Export Py.

Notation "'let*' x ':=' m 'in' k" := (bind m (fun x => k))
  (at level 10, x name, m at level 100, k at level 200).

(* ===================================================================== *)
(** * Numbers: binary64 floats, their parsing and printing               *)
(* ===================================================================== *)

Module Num.

(** ** Decimal digits of an integer *)

Fixpoint dec_digits (fuel : nat) (n : N) (acc : text) : text :=
  match fuel with
  | O => acc
  | S fuel' =>
      let acc' := (48 + n mod 10)%N :: acc in
      if (n <? 10)%N then acc' else dec_digits fuel' (n / 10)%N acc'
  end.

(** [str(n)] for a natural number. *)
Definition N_to_text (n : N) : text :=
  dec_digits (S (N.to_nat (N.log2 n))) n [].

(** [str(z)] for an [int]. *)
Definition Z_to_text (z : Z) : text :=
  match z with
  | Zneg p => 45%N :: N_to_text (Npos p)
  | _ => N_to_text (Z.to_N z)
  end.

(** ** Rounding a rational to binary64 *)

(** Nearest binary64 (ties to even) of [p/q], for [0 <= p] and [0 < q].
    The quotient is taken with at least three bits more than the format
    keeps, the last of them sticky, and handed to the library's rounding. *)
Definition round_ratio (neg : bool) (p q : Z) : spec_float :=
  if p =? 0 then S754_zero neg
  else
    let k := Z.max 0 (56 + Z.log2 q - Z.log2 p) in
    let n := p * 2 ^ k in
    let m := 2 * (n / q) + (if n mod q =? 0 then 0 else 1) in
    binary_normalize prec emax (if neg then - m else m) (- k - 1) neg.

(** Nearest binary64 of [d * 10^e], [0 <= d]. *)
Definition round_decimal (neg : bool) (d e : Z) : float :=
  SF2Prim (if 0 <=? e then round_ratio neg (d * 10 ^ e) 1
           else round_ratio neg d (10 ^ (- e))).

(** [float(n)] for an [int] within range. *)
Definition float_of_Z (z : Z) : float :=
  SF2Prim (binary_normalize prec emax z 0 false).

(** ** Python's float operations that can raise *)

Definition msg_div_zero : text := cps "float division by zero".

(** [x / y] *)
Definition float_div (x y : float) : res float :=
  if (y =? 0)%float then Raise (PyExn ZeroDivisionError msg_div_zero)
  else Ret (x / y)%float.

(** [max(0, x)]: the first argument stays unless the second is greater. *)
Definition max0 (x : float) : float :=
  if (0 <? x)%float then x else 0%float.

(** Truth value of a float: false exactly for a zero. *)
Definition truthy (x : float) : bool := negb (x =? 0)%float.

(** ** [format(x, '.Nf')] and [format(x, ',.Nf')] *)

(** Round-half-even of [m * 2^e * 10^p] to an integer, [m] positive. *)
Definition scaled_round (m : positive) (e : Z) (p : nat) : Z :=
  let num := Zpos m * 10 ^ Z.of_nat p in
  if 0 <=? e then num * 2 ^ e
  else
    let den := 2 ^ (- e) in
    let q := num / den in
    let r := num mod den in
    match 2 * r ?= den with
    | Lt => q
    | Gt => q + 1
    | Eq => if Z.even q then q else q + 1
    end.

Fixpoint group3_rev (r : text) : text :=
  match r with
  | a :: b :: c :: (_ :: _) as rest => a :: b :: c :: 44%N :: group3_rev rest
  | _ => r
  end.

(** Thousands separators, as the [,] option inserts them. *)
Definition group_thousands (digits : text) : text :=
  rev (group3_rev (rev digits)).

Definition pad_zeros (width : nat) (digits : text) : text :=
  repeat 48%N (width - length digits) ++ digits.

Definition fixed_digits (comma : bool) (p : nat) (n : Z) : text :=
  let ds := pad_zeros (S p) (N_to_text (Z.to_N n)) in
  let ip := firstn (length ds - p) ds in
  let fp := skipn (length ds - p) ds in
  (if comma then group_thousands ip else ip) ++
  (match p with O => [] | _ => 46%N :: fp end).

Definition sign_text (s : bool) : text := if s then [45%N] else [].

Definition format_f (comma : bool) (p : nat) (x : float) : text :=
  match Prim2SF x with
  | S754_nan => cps "nan"
  | S754_infinity s => sign_text s ++ cps "inf"
  | S754_zero s => sign_text s ++ fixed_digits comma p 0
  | S754_finite s m e => sign_text s ++ fixed_digits comma p (scaled_round m e p)
  end.

(** ** [repr(x)]: the shortest decimal string that reads back as [x] *)

(** Number of decimal digits before the point of [p/q] (zero or negative
    when the value is below 1): [10^(k-1) <= p/q < 10^k]. *)
Fixpoint decpt_below (fuel : nat) (p q : Z) (j : Z) : Z :=
  match fuel with
  | O => j
  | S fuel' => if q <=? p * 10 then j else decpt_below fuel' (p * 10) q (j - 1)
  end.

Definition decpt (p q : Z) : Z :=
  if q <=? p then Z.of_nat (length (N_to_text (Z.to_N (p / q))))
  else decpt_below 400 p q 0.

(** [d * 10^sc] compared with [p/q]. *)
Definition cmp_decimal (d sc p q : Z) : comparison :=
  if 0 <=? sc then (d * 10 ^ sc * q ?= p) else (d * q ?= p * 10 ^ (- sc)).

(** Twice [p/q] compared with [(d1 + d2) * 10^sc]: which of two decimals
    is nearer. *)
Definition cmp_midpoint (d1 d2 sc p q : Z) : comparison :=
  if 0 <=? sc then (2 * p ?= (d1 + d2) * 10 ^ sc * q)
  else (2 * p * 10 ^ (- sc) ?= (d1 + d2) * q).

(** The [n]-digit decimal next to [x = p/q] that reads back as [x], if one
    does; of two, the nearer (the even one on a tie). *)
Definition shortest_at (x : float) (p q k : Z) (n : nat) : option (Z * Z) :=
  let sc := k - Z.of_nat n in
  let lo := if 0 <=? sc then p / (q * 10 ^ sc) else (p * 10 ^ (- sc)) / q in
  let hi := lo + 1 in
  let ok d := PrimFloat.Leibniz.eqb (round_decimal false d sc) x in
  match ok lo, ok hi with
  | true, true =>
      match cmp_midpoint lo hi sc p q with
      | Lt => Some (lo, sc)
      | Gt => Some (hi, sc)
      | Eq => Some (if Z.even lo then lo else hi, sc)
      end
  | true, false => Some (lo, sc)
  | false, true => Some (hi, sc)
  | false, false => None
  end.

Fixpoint shortest_from (x : float) (p q k : Z) (fuel : nat) (n : nat) : Z * Z :=
  match fuel with
  | O => (0, 0)
  | S fuel' =>
      match shortest_at x p q k n with
      | Some r => r
      | None => shortest_from x p q k fuel' (S n)
      end
  end.

Fixpoint strip_zeros (fuel : nat) (d sc : Z) : Z * Z :=
  match fuel with
  | O => (d, sc)
  | S fuel' => if d mod 10 =? 0 then strip_zeros fuel' (d / 10) (sc + 1) else (d, sc)
  end.

(** Digits and decimal-point position of the shortest representation of
    the positive float [m * 2^e]: the value is [0.DIGITS * 10^point]. *)
Definition shortest_digits (m : positive) (e : Z) : text * Z :=
  let x := SF2Prim (S754_finite false m e) in
  let p := if 0 <=? e then Zpos m * 2 ^ e else Zpos m in
  let q := if 0 <=? e then 1 else 2 ^ (- e) in
  let k := decpt p q in
  let '(d, sc) := shortest_from x p q k 17 1 in
  let '(d, sc) := strip_zeros 20 d sc in
  let ds := N_to_text (Z.to_N d) in
  (ds, sc + Z.of_nat (length ds)).

(** The layout of [repr]: plain when the point position is in [-3, 16],
    exponent notation otherwise. *)
Definition repr_layout (ds : text) (point : Z) : text :=
  if (-4 <? point) && (point <=? 16) then
    if point <=? 0 then
      cps "0." ++ repeat 48%N (Z.to_nat (- point)) ++ ds
    else if Z.of_nat (length ds) <=? point then
      ds ++ repeat 48%N (Z.to_nat point - length ds) ++ cps ".0"
    else
      firstn (Z.to_nat point) ds ++ 46%N :: skipn (Z.to_nat point) ds
  else
    let ex := point - 1 in
    firstn 1 ds ++
    (match skipn 1 ds with [] => [] | tl => 46%N :: tl end) ++
    cps "e" ++ (if ex <? 0 then cps "-" else cps "+") ++
    pad_zeros 2 (N_to_text (Z.abs_N ex)).

(** [repr(x)], also [str(x)] and the empty format [f"{x}"]. *)
Definition float_repr (x : float) : text :=
  match Prim2SF x with
  | S754_nan => cps "nan"
  | S754_infinity s => sign_text s ++ cps "inf"
  | S754_zero s => sign_text s ++ cps "0.0"
  | S754_finite s m e =>
      let '(ds, point) := shortest_digits m e in
      sign_text s ++ repr_layout ds point
  end.

(** ** The numbers the calculators receive *)

(** A keyword argument is a float; a missing one defaults to the [int] 0. *)
Inductive pynum :=
  | PInt (z : Z)
  | PFloat (f : float).

(** The float an arithmetic operator with a float operand converts to. *)
Definition as_float (v : pynum) : float :=
  match v with
  | PInt z => float_of_Z z
  | PFloat f => f
  end.

(** [v <= 0] *)
Definition num_le0 (v : pynum) : bool :=
  match v with
  | PInt z => z <=? 0
  | PFloat f => (f <=? 0)%float
  end.

(** [f"{v}"] *)
Definition num_str (v : pynum) : text :=
  match v with
  | PInt z => Z_to_text z
  | PFloat f => float_repr f
  end.

(** [f"{v:,.2f}"]: an [int] is converted to float first. *)
Definition num_format_f (comma : bool) (p : nat) (v : pynum) : text :=
  format_f comma p (as_float v).

End Num.
Export Num.

(* ===================================================================== *)
(** * The built-in [float(str)]                                          *)
(* ===================================================================== *)

Module Parse.

(** What [float] strips around the number: ASCII blanks and any
    non-ASCII Unicode space. *)
Definition float_space (c : N) : bool :=
  ((9 <=? c) && (c <=? 13) || (c =? 32) || (128 <=? c) && is_space c)%N.

Fixpoint float_lstrip (s : text) : text :=
  match s with
  | c :: s' => if float_space c then float_lstrip s' else s
  | [] => []
  end.

Definition float_strip (s : text) : text :=
  rev (float_lstrip (rev (float_lstrip s))).

(** [repr] of a string that holds no quote, backslash or unprintable
    character; the strings this program hands to [float] are made of
    decimal digits and points only. *)
Definition str_repr (s : text) : text := cps "'" ++ s ++ cps "'".

Definition float_error (s : text) : pyexn :=
  PyExn ValueError (cps "could not convert string to float: " ++ str_repr s).

Definition digits_value (ds : list N) : Z :=
  fold_left (fun acc d => acc * 10 + Z.of_N d) ds 0.

Section WithUnicode.
Variable U : unicode_db.

(** digit (["_"] digit)*, after its first digit was seen; the digits
    come back in reverse *)
Fixpoint digit_run (s : text) (acc : list N) : list N * text :=
  match s with
  | [] => (acc, [])
  | c :: s' =>
      match decimal_value U c with
      | Some d => digit_run s' (d :: acc)
      | None =>
          if (c =? 95)%N then
            match s' with
            | c2 :: _ => if is_decimal U c2 then digit_run s' acc else (acc, s)
            | [] => (acc, s)
            end
          else (acc, s)
      end
  end.

Definition digitpart (s : text) : option (list N * text) :=
  match s with
  | c :: _ =>
      if is_decimal U c then
        let '(r, rest) := digit_run s [] in Some (rev r, rest)
      else None
  | [] => None
  end.

(** number ::= [digitpart] "." digitpart | digitpart ["."] *)
Definition number (s : text) : option (list N * list N * text) :=
  match digitpart s with
  | Some (ip, rest) =>
      match rest with
      | 46%N :: rest' =>
          match digitpart rest' with
          | Some (fp, rest'') => Some (ip, fp, rest'')
          | None => Some (ip, [], rest')
          end
      | _ => Some (ip, [], rest)
      end
  | None =>
      match s with
      | 46%N :: rest' =>
          match digitpart rest' with
          | Some (fp, rest'') => Some ([], fp, rest'')
          | None => None
          end
      | _ => None
      end
  end.

Definition take_sign (s : text) : bool * text :=
  match s with
  | 45%N :: s' => (true, s')
  | 43%N :: s' => (false, s')
  | _ => (false, s)
  end.

(** exponent ::= ("e" | "E") [sign] digitpart; [None] when malformed *)
Definition exponent (s : text) : option (Z * text) :=
  match s with
  | [] => Some (0, [])
  | c :: s' =>
      if ((c =? 101) || (c =? 69))%N then
        let '(neg, s'') := take_sign s' in
        match digitpart s'' with
        | Some (ds, rest) =>
            Some (if neg then - digits_value ds else digits_value ds, rest)
        | None => None
        end
      else Some (0, s)
  end.

Definition abs_float_value (neg : bool) (s : text) : option float :=
  let w := map ascii_lower s in
  if text_eqb w (cps "inf") || text_eqb w (cps "infinity") then
    Some (if neg then neg_infinity else infinity)
  else if text_eqb w (cps "nan") then Some nan
  else
    match number s with
    | Some (ip, fp, rest) =>
        match exponent rest with
        | Some (ex, []) =>
            Some (round_decimal neg (digits_value (ip ++ fp))
                    (ex - Z.of_nat (length fp)))
        | _ => None
        end
    | None => None
    end.

(** [float(s)] *)
Definition py_float (s : text) : res float :=
  let '(neg, body) := take_sign (float_strip s) in
  match abs_float_value neg body with
  | Some x => Ret x
  | None => Raise (float_error s)
  end.
End WithUnicode.

End Parse.
Export Parse.

(* ===================================================================== *)
(** * Regular expressions: the fragment of [re] the program uses         *)
(* ===================================================================== *)

Module Re.

(** Patterns with greedy quantifiers and one capturing group, matched by
    backtracking in the order [re] tries the alternatives. *)
Inductive regex :=
  | RChar (p : N -> bool)      (** a literal, a class, [\d], [\s] *)
  | RSeq (r1 r2 : regex)
  | RAlt (r1 r2 : regex)       (** [r1|r2] *)
  | ROpt (r : regex)           (** [r?] *)
  | RStar (r : regex)          (** [r*] *)
  | RPlus (r : regex)          (** [r+] *)
  | RGroup (r : regex).        (** [(r)] *)

Section Matcher.
Context {A : Type}.

(** A matcher reads the text left of it, the group captured so far, and
    the continuation that matches the rest of the pattern. *)
Definition matcher := text -> option text -> (text -> option text -> option A) -> option A.

(** Greedy repetition: another round first, provided it consumes. *)
Fixpoint star (m : matcher) (fuel : nat) : matcher :=
  fun s g k =>
    match fuel with
    | O => k s g
    | S fuel' =>
        match m s g (fun s1 g1 =>
                       if (length s1 <? length s)%nat then star m fuel' s1 g1 k
                       else None) with
        | Some a => Some a
        | None => k s g
        end
    end.

Fixpoint rmatch (r : regex) : matcher :=
  fun s g k =>
    match r with
    | RChar p =>
        match s with
        | c :: s' => if p c then k s' g else None
        | [] => None
        end
    | RSeq r1 r2 => rmatch r1 s g (fun s1 g1 => rmatch r2 s1 g1 k)
    | RAlt r1 r2 =>
        match rmatch r1 s g k with
        | Some a => Some a
        | None => rmatch r2 s g k
        end
    | ROpt r1 =>
        match rmatch r1 s g k with
        | Some a => Some a
        | None => k s g
        end
    | RStar r1 => star (rmatch r1) (length s) s g k
    | RPlus r1 =>
        rmatch r1 s g (fun s1 g1 => star (rmatch r1) (length s1) s1 g1 k)
    | RGroup r1 =>
        rmatch r1 s g (fun s1 _ => k s1 (Some (firstn (length s - length s1) s)))
    end.
End Matcher.

(** A match of [r] at the start of [s]: the text left after it and the
    captured group. *)
Definition match_here (r : regex) (s : text) : option (text * option text) :=
  rmatch r s None (fun s' g => Some (s', g)).

Fixpoint has_group (r : regex) : bool :=
  match r with
  | RChar _ => false
  | RSeq r1 r2 | RAlt r1 r2 => has_group r1 || has_group r2
  | ROpt r1 | RStar r1 | RPlus r1 => has_group r1
  | RGroup _ => true
  end.

(** What [findall] lists for one match: the group when the pattern has
    one, the whole match otherwise. *)
Definition match_item (grouped : bool) (whole : text) (g : option text) : text :=
  if grouped then match g with Some t => t | None => [] end else whole.

Fixpoint findall_from (r : regex) (grouped : bool) (fuel : nat) (s : text) : list text :=
  match fuel with
  | O => []
  | S fuel' =>
      match match_here r s with
      | Some (s', g) =>
          let whole := firstn (length s - length s') s in
          match_item grouped whole g ::
            match whole, s with
            | [], _ :: t => findall_from r grouped fuel' t
            | [], [] => []
            | _ :: _, _ => findall_from r grouped fuel' s'
            end
      | None =>
          match s with
          | [] => []
          | _ :: t => findall_from r grouped fuel' t
          end
      end
  end.

(** [re.findall(r, s)] *)
Definition findall (r : regex) (s : text) : list text :=
  findall_from r (has_group r) (S (length s)) s.

Definition ch (a : ascii) : N := N_of_ascii a.

Definition rlit (c : N) : regex := RChar (N.eqb c).

Section Patterns.
Variable U : unicode_db.

(** a word of lower-case ASCII letters under [re.IGNORECASE] *)
Fixpoint rword_ci (first : N) (rest : text) : regex :=
  match rest with
  | [] => RChar (caseless_eq U first)
  | c :: rest' => RSeq (RChar (caseless_eq U first)) (rword_ci c rest')
  end.

(** [[\d.,]] *)
Definition digit_dot_comma (c : N) : bool :=
  is_decimal U c || (c =? ch ".")%N || (c =? ch ",")%N.

(** [R?\$?\s*([\d.,]+)] *)
Definition re_monetario : regex :=
  RSeq (ROpt (rlit (ch "R")))
    (RSeq (ROpt (rlit (ch "$")))
       (RSeq (RStar (RChar is_space))
          (RGroup (RPlus (RChar digit_dot_comma))))).

(** [([\d.,]+)\s*%] *)
Definition re_percentual : regex :=
  RSeq (RGroup (RPlus (RChar digit_dot_comma)))
    (RSeq (RStar (RChar is_space)) (rlit (ch "%"))).

(** [(\d+)\s*(?:anos?|meses?|dias?)] with [re.IGNORECASE] *)
Definition re_periodo : regex :=
  RSeq (RGroup (RPlus (RChar (is_decimal U))))
    (RSeq (RStar (RChar is_space))
       (RAlt (RSeq (rword_ci (ch "a") (cps "no")) (ROpt (RChar (caseless_eq U (ch "s")))))
          (RAlt (RSeq (rword_ci (ch "m") (cps "ese")) (ROpt (RChar (caseless_eq U (ch "s")))))
             (RSeq (rword_ci (ch "d") (cps "ia")) (ROpt (RChar (caseless_eq U (ch "s")))))))).

(** [\d+] *)
Definition re_digitos : regex := RPlus (RChar (is_decimal U)).

(** [[\d.,]+] *)
Definition re_numeros : regex := RPlus (RChar digit_dot_comma).
End Patterns.

End Re.
Export Re.

(* ===================================================================== *)
(** * The agent: [ImprovedFinancialAgent]                                *)
(* ===================================================================== *)

Module Agent.

Definition nl : text := [10%N].

Fixpoint join_nl (ls : list text) : text :=
  match ls with
  | [] => []
  | [l] => l
  | l :: ls' => l ++ nl ++ join_nl ls'
  end.

(** A triple-quoted literal that opens with a line break and whose closing
    quotes sit on a line of their own, indented by [indent] blanks. *)
Definition triple_quoted (ls : list text) (indent : nat) : text :=
  nl ++ join_nl ls ++ nl ++ repeat 32%N indent.

(** ** [imposto_renda_melhorado] *)

(** One row of a tax table: [(limite, aliquota, deducao, faixa_nome)].
    The integers of the tables ([0], [28000], ...) are written as the
    floats they convert to in every operation applied to them. *)
Definition faixa : Type := float * float * float * text.

Definition faixas_2024 : list faixa :=
  [ (28559.70, 0.0, 0, cps "Isento");
    (42253.25, 0.075, 2141.98, cps "7,5%");
    (56717.56, 0.15, 5304.90, cps "15%");
    (74414.84, 0.225, 9756.12, cps "22,5%");
    (infinity, 0.275, 14067.51, cps "27,5%") ]%float.

Definition faixas_outros_anos : list faixa :=
  [ (28000, 0.0, 0, cps "Isento");
    (42000, 0.075, 2100, cps "7,5%");
    (56000, 0.15, 5300, cps "15%");
    (74000, 0.225, 9700, cps "22,5%");
    (infinity, 0.275, 14000, cps "27,5%") ]%float.

Definition msg_rendimento_negativo : text :=
  cps "❌ Rendimento não pode ser negativo.".

Definition linha_isento : text := nl ++ cps "✅ **ISENTO DE IMPOSTO DE RENDA!**".

Definition linha_aliquota_efetiva (percentual_efetivo : float) : text :=
  nl ++ cps "📊 **Alíquota Efetiva**: " ++ format_f false 2 percentual_efetivo ++ cps "%".

Definition ir_lines (ano : Z) (rendimento aliquota deducao imposto_devido : float) (faixa_nome : text) : list text :=
  [ cps "🧮 **CÁLCULO DO IMPOSTO DE RENDA " ++ Z_to_text ano ++ cps "**";
    repeat 61%N 45;
    cps "💰 **Rendimento Bruto**: R$ " ++ format_f true 2 rendimento;
    cps "📊 **Faixa**: " ++ faixa_nome;
    cps "📈 **Alíquota**: " ++ format_f false 1 (aliquota * 100) ++ cps "%";
    cps "➖ **Dedução**: R$ " ++ format_f true 2 deducao;
    cps "💸 **Imposto Devido**: R$ " ++ format_f true 2 imposto_devido;
    cps "💵 **Renda Líquida**: R$ " ++ format_f true 2 (rendimento - imposto_devido);
    repeat 61%N 45 ].

(** The body of the [for] loop for the row that applies. *)
Definition ir_faixa (rendimento : float) (ano : Z) (f : faixa) : res text :=
  let '(_, aliquota, deducao, faixa_nome) := f in
  let imposto_bruto := (rendimento * aliquota)%float in
  let imposto_devido := max0 (imposto_bruto - deducao) in
  let resultado :=
    triple_quoted (ir_lines ano rendimento aliquota deducao imposto_devido faixa_nome) 20 in
  if (imposto_devido =? 0)%float then
    Ret (py_strip (resultado ++ linha_isento))
  else
    let* q := float_div imposto_devido rendimento in
    let percentual_efetivo := (q * 100)%float in
    Ret (py_strip (resultado ++ linha_aliquota_efetiva percentual_efetivo)).

(** [for limite, aliquota, deducao, faixa_nome in faixas: if rendimento <= limite: ...];
    when no row applies the function ends without a [return]: [None]. *)
Fixpoint ir_loop (rendimento : float) (ano : Z) (faixas : list faixa) : res (option text) :=
  match faixas with
  | [] => Ret None
  | f :: rest =>
      if (rendimento <=? fst (fst (fst f)))%float then
        let* r := ir_faixa rendimento ano f in Ret (Some r)
      else ir_loop rendimento ano rest
  end.

Definition imposto_renda_melhorado (rendimento : float) (ano : Z) : option text :=
  try_except
    (if (rendimento <? 0)%float then Ret (Some msg_rendimento_negativo)
     else
       let faixas := if ano =? 2024 then faixas_2024 else faixas_outros_anos in
       ir_loop rendimento ano faixas)
    (fun e => Some (cps "❌ Erro no cálculo: " ++ exn_str e)).

(** ** [calculadora_financeira_geral] *)

(** [kwargs.get(k, 0)] *)
Definition kwargs_get (kwargs : gmap string float) (k : string) : pynum :=
  match kwargs !! k with
  | Some f => PFloat f
  | None => PInt 0
  end.

Definition msg_porcentagem_positivos : text :=
  cps "❌ Valores devem ser positivos para cálculo de porcentagem".

Definition msg_compostos_positivos : text :=
  cps "❌ Valores devem ser positivos para juros compostos".

Definition msg_tipo_nao_suportado (tipo : text) : text :=
  cps "❌ Tipo '" ++ tipo ++ cps "' não suportado. Use: juros_compostos, juros_simples".

Definition porcentagem_lines (valor percentual : pynum) (resultado : float) : list text :=
  [ cps "📊 **CÁLCULO DE PORCENTAGEM**";
    repeat 61%N 30;
    cps "💰 **Valor Base**: " ++ num_format_f true 2 valor;
    cps "📈 **Percentual**: " ++ num_str percentual ++ cps "%";
    cps "💵 **Resultado**: " ++ format_f true 2 resultado;
    cps "📋 **Fórmula**: " ++ num_format_f true 2 valor ++ cps " × " ++ num_str percentual ++ cps "% = " ++ format_f true 2 resultado ].

Definition compostos_lines (principal periodo : pynum) (taxa montante juros rendimento : float) : list text :=
  [ cps "📈 **JUROS COMPOSTOS**";
    repeat 61%N 30;
    cps "💰 **Capital Inicial**: R$ " ++ num_format_f true 2 principal;
    cps "📊 **Taxa**: " ++ format_f false 2 (taxa * 100) ++ cps "% ao período";
    cps "⏱️ **Período**: " ++ num_str periodo ++ cps " períodos";
    cps "💸 **Montante Final**: R$ " ++ format_f true 2 montante;
    cps "💵 **Juros Ganhos**: R$ " ++ format_f true 2 juros;
    cps "📈 **Rendimento**: " ++ format_f false 2 rendimento ++ cps "%" ].

Definition simples_lines (principal periodo : pynum) (taxa juros montante : float) : list text :=
  [ cps "📊 **JUROS SIMPLES**";
    repeat 61%N 25;
    cps "💰 **Capital**: R$ " ++ num_format_f true 2 principal;
    cps "📊 **Taxa**: " ++ format_f false 2 (taxa * 100) ++ cps "%";
    cps "⏱️ **Período**: " ++ num_str periodo;
    cps "💸 **Juros**: R$ " ++ format_f true 2 juros;
    cps "💵 **Montante**: R$ " ++ format_f true 2 montante ].

Section Calculadora.
Variable U : unicode_db.
(** Python's [x ** y] on floats, which the interpreter computes with the
    C library's [pow] and which raises [OverflowError] out of range. *)
Variable float_pow : float -> float -> res float.

Definition calc_porcentagem (kwargs : gmap string float) : res text :=
  let valor := kwargs_get kwargs "valor" in
  let percentual := kwargs_get kwargs "percentual" in
  if num_le0 valor || num_le0 percentual then Ret msg_porcentagem_positivos
  else
    let resultado := (as_float valor * (as_float percentual / 100))%float in
    Ret (py_strip (triple_quoted (porcentagem_lines valor percentual resultado) 16)).

Definition calc_juros_compostos (kwargs : gmap string float) : res text :=
  let principal := kwargs_get kwargs "principal" in
  let taxa := (as_float (kwargs_get kwargs "taxa") / 100)%float in
  let periodo := kwargs_get kwargs "periodo" in
  if num_le0 principal || (taxa <=? 0)%float || num_le0 periodo then
    Ret msg_compostos_positivos
  else
    let* potencia := float_pow (1 + taxa)%float (as_float periodo) in
    let montante := (as_float principal * potencia)%float in
    let juros := (montante - as_float principal)%float in
    let* q := float_div montante (as_float principal) in
    let rendimento := ((q - 1) * 100)%float in
    Ret (py_strip (triple_quoted
           (compostos_lines principal periodo taxa montante juros rendimento) 16)).

Definition calc_juros_simples (kwargs : gmap string float) : res text :=
  let principal := kwargs_get kwargs "principal" in
  let taxa := (as_float (kwargs_get kwargs "taxa") / 100)%float in
  let periodo := kwargs_get kwargs "periodo" in
  let juros := (as_float principal * taxa * as_float periodo)%float in
  let montante := (as_float principal + juros)%float in
  Ret (py_strip (triple_quoted (simples_lines principal periodo taxa juros montante) 16)).

Definition calculadora_financeira_geral (tipo : text) (kwargs : gmap string float) : text :=
  try_except
    (if text_eqb (py_lower U tipo) (cps "porcentagem") then calc_porcentagem kwargs
     else if text_eqb (py_lower U tipo) (cps "juros_compostos") then calc_juros_compostos kwargs
     else if text_eqb (py_lower U tipo) (cps "juros_simples") then calc_juros_simples kwargs
     else Ret (msg_tipo_nao_suportado tipo))
    (fun e => cps "❌ Erro no cálculo financeiro: " ++ exn_str e).
End Calculadora.

(** ** [extrair_valores_numericos] *)

Section Extrator.
Variable U : unicode_db.

Definition extrair_valores_numericos (texto : text) : res (gmap string float) :=
  let valores : gmap string float := ∅ in
  let valores_monetarios := findall (re_monetario U) texto in
  let* valores :=
    match valores_monetarios with
    | primeiro :: _ =>
        let* principal :=
          py_float U (replace_char (ch ",") (cps ".") (replace_char (ch ".") [] primeiro)) in
        Ret (<["valor" := principal]> (<["principal" := principal]> valores))
    | [] => Ret valores
    end in
  let percentuais := findall (re_percentual U) texto in
  let* valores :=
    match percentuais with
    | primeiro :: _ =>
        let* taxa := py_float U (replace_char (ch ",") (cps ".") primeiro) in
        Ret (<["percentual" := taxa]> (<["taxa" := taxa]> valores))
    | [] => Ret valores
    end in
  let periodos := findall (re_periodo U) texto in
  match periodos with
  | primeiro :: _ =>
      let* periodo := py_float U primeiro in
      Ret (<["periodo" := periodo]> valores)
  | [] => Ret valores
  end.
End Extrator.

(** ** [chat] *)

Definition msg_informe_renda : text :=
  cps "❌ Por favor, informe o valor da renda para calcular o IR".

Definition prompt_porcentagem_lines : list text :=
  [ cps "📊 **Para calcular porcentagem, preciso de:**";
    cps "💰 Valor base (ex: 10.000)";
    cps "📈 Percentual (ex: 15%)";
    [];
    cps "**Exemplos:**";
    cps "• " ++ dq ++ cps "Quanto é 15% de 10.000?" ++ dq;
    cps "• " ++ dq ++ cps "Calcule 20% de R$ 5.000" ++ dq;
    cps "• " ++ dq ++ cps "Qual é 8,5% de 12.500?" ++ dq ].

Definition prompt_compostos_lines : list text :=
  [ cps "📈 **Para calcular juros compostos, preciso de:**";
    cps "💰 Capital inicial (ex: R$ 10.000)";
    cps "📊 Taxa de juros (ex: 10% ao ano)";
    cps "⏱️ Período (ex: 5 anos)";
    [];
    cps "**Exemplo:** " ++ dq ++ cps "Calcule juros compostos de R$ 10.000 a 10% por 5 anos" ++ dq ].

Definition incompleta_lines (valor : text) : list text :=
  [ cps "❓ **Pergunta incompleta detectada!**";
    [];
    cps "Você mencionou o valor **" ++ valor ++ cps "**, mas não especificou:";
    cps "📊 **Qual percentual?** ";
    [];
    cps "**Exemplos corretos:**";
    cps "• " ++ dq ++ cps "Quanto é 10% de " ++ valor ++ cps "?" ++ dq;
    cps "• " ++ dq ++ cps "Calcule 15% de " ++ valor ++ dq;
    cps "• " ++ dq ++ cps "Qual é 25% de " ++ valor ++ cps "?" ++ dq;
    [];
    cps "💡 **Ou talvez queira saber:**";
    cps "• " ++ dq ++ valor ++ cps " é quantos % de [outro valor]?" ++ dq ].

Definition llm_prompt_lines (message : text) : list text :=
  [ cps "Você é um assistente IA especializado. Responda à pergunta de forma clara e didática:";
    [];
    cps "PERGUNTA: " ++ message;
    [];
    cps "Forneça uma resposta detalhada e bem formatada com emojis quando apropriado." ].

Definition capacidades_lines (e : pyexn) : list text :=
  [ cps "❌ **Não consegui processar sua pergunta adequadamente.**";
    [];
    cps "🤖 **O que posso fazer por você:**";
    cps "• 💰 Cálculos de Imposto de Renda";
    cps "• 📈 Cálculos financeiros (juros, investimentos)";
    cps "• 📚 Busca de artigos científicos";
    cps "• 🧠 Responder perguntas gerais";
    cps "• 🌐 Buscar informações atuais (se configurado)";
    [];
    cps "**Erro:** " ++ take_chars 100 (exn_str e) ].

Definition prompt_porcentagem : text := py_strip (triple_quoted prompt_porcentagem_lines 20).
Definition prompt_compostos : text := py_strip (triple_quoted prompt_compostos_lines 20).

(** The keyword families of the fallback chain, in the order of the
    [if]/[elif] that tests them. *)
Definition termos_ir : list text :=
  [cps "imposto de renda"; cps "calcular ir"; cps "ir de"].
Definition termos_porcentagem : list text :=
  [cps "% de"; cps "porcent"; cps "percentual de"].
Definition termos_compostos : list text :=
  [cps "juros compostos"; cps "compound interest"; cps "montante"].
Definition termos_artigos : list text :=
  [cps "artigos científicos"; cps "papers"; cps "arxiv"; cps "pesquisa acadêmica"].

(** The markers of a useless agent answer. *)
Definition termos_erro : list text :=
  [cps "error"; cps "erro"; cps "failed"; cps "none"].

(** The ReAct agent of the framework: it may offer [query], [chat], both
    or neither; a call returns the text of its response or raises. *)
Record react_agent := {
  agent_query : option (text -> res text);
  agent_chat : option (text -> res text)
}.

(** The collaborators of [chat] that live outside the repository. *)
Record collaborators := {
  (** [self.agent] *)
  react : react_agent;
  (** [str(self.llm.complete(prompt))] *)
  llm_complete : text -> res text;
  (** the academic search of the message: the query is the message with
      the search words removed by a regular-expression substitution, and
      [consulta_arxiv_melhorada] turns every failure of the arXiv client
      into a message *)
  busca_academica : text -> text
}.

Section Chat.
Variable U : unicode_db.
Variable float_pow : float -> float -> res float.
Variable W : collaborators.

(** [valores.get(k)] as a condition: present and not zero. *)
Definition get_truthy (valores : gmap string float) (k : string) : bool :=
  match valores !! k with
  | Some f => truthy f
  | None => false
  end.

(** [k in valores] *)
Definition has_key (valores : gmap string float) (k : string) : bool :=
  match valores !! k with
  | Some _ => true
  | None => false
  end.

(** [result and len(result) > 20 and not any(erro in result.lower() ...)] *)
Definition resposta_util (result : text) : bool :=
  match result with [] => false | _ :: _ => true end &&
  (20 <? length result)%nat &&
  negb (any_in termos_erro (py_lower U result)).

(** [self.agent.query(message)] when the agent has [query], else
    [self.agent.chat(message)] when it has [chat], else an error. *)
Definition chamar_agente (message : text) : res text :=
  match agent_query (react W) with
  | Some query => query message
  | None =>
      match agent_chat (react W) with
      | Some chat => chat message
      | None => Raise (PyExn AttributeError (cps "Agente não tem método query ou chat"))
      end
  end.

(** The first attempt: the answer of the ReAct agent when it passes the
    check, nothing when it fails the check or the call raises. *)
Definition tentativa_react (message : text) : option text :=
  match chamar_agente message with
  | Ret response =>
      let result := py_strip response in
      if resposta_util result then Some result else None
  | Raise _ => None
  end.

Definition ramo_ir (message : text) : res (option text) :=
  let* valores := extrair_valores_numericos U message in
  if get_truthy valores "principal" then
    match valores !! "principal" with
    | Some principal => Ret (imposto_renda_melhorado principal 2024)
    | None => Ret None
    end
  else Ret (Some msg_informe_renda).

Definition ramo_porcentagem (message : text) : res (option text) :=
  let* valores := extrair_valores_numericos U message in
  if get_truthy valores "valor" && get_truthy valores "percentual" then
    Ret (Some (calculadora_financeira_geral U float_pow (cps "porcentagem") valores))
  else Ret (Some prompt_porcentagem).

Definition ramo_compostos (message : text) : res (option text) :=
  let* valores := extrair_valores_numericos U message in
  if forallb (has_key valores) ["principal"; "taxa"; "periodo"]%string then
    Ret (Some (calculadora_financeira_geral U float_pow (cps "juros_compostos") valores))
  else Ret (Some prompt_compostos).

Definition ramo_artigos (message : text) : res (option text) :=
  Ret (Some (busca_academica W message)).

(** The test of the fifth branch. *)
Definition porcentagem_incompleta (message_lower message : text) : bool :=
  py_in (cps "porcentagem") message_lower &&
  existsb (fun num => py_in num message) (findall (re_digitos U) message).

(** The fifth branch; with no number found the chain ends without a
    [return]. *)
Definition ramo_incompleta (message : text) : res (option text) :=
  match findall (re_numeros U) message with
  | primeiro :: _ =>
      let valor := replace_char (ch ",") (cps ".") (replace_char (ch ".") [] primeiro) in
      Ret (Some (py_strip (triple_quoted (incompleta_lines valor) 20)))
  | [] => Ret None
  end.

Definition ramo_geral (message : text) : res (option text) :=
  Ret (Some
    (try_except
       (let* response := llm_complete W (triple_quoted (llm_prompt_lines message) 20) in
        Ret (py_strip response))
       (fun e => py_strip (triple_quoted (capacidades_lines e) 20)))).

(** The manual analysis that follows a failed first attempt. *)
Definition analise_manual (message : text) : res (option text) :=
  let message_lower := py_lower U message in
  if any_in termos_ir message_lower then ramo_ir message
  else if any_in termos_porcentagem message_lower then ramo_porcentagem message
  else if any_in termos_compostos message_lower then ramo_compostos message
  else if any_in termos_artigos message_lower then ramo_artigos message
  else if porcentagem_incompleta message_lower message then ramo_incompleta message
  else ramo_geral message.

(** [chat(message)]: a [str], or [None] where the code falls off its end. *)
Definition chat (message : text) : option text :=
  try_except
    (match tentativa_react message with
     | Some result => Ret (Some result)
     | None => analise_manual message
     end)
    (fun e => Some (cps "❌ Erro crítico: " ++ exn_str e)).
End Chat.

End Agent.
Export Agent.

(* ===================================================================== *)
(** * The specification's vocabulary                                     *)
(* ===================================================================== *)

Module Spec.

(** ** The tax report *)

(** The report of the tax calculator up to its last line: the lines of
    the block, then the blanks that precede its closing quotes. *)
Definition relatorio_ir (ano : Z) (rendimento aliquota deducao imposto : float) (nome : text) : text :=
  join_nl (ir_lines ano rendimento aliquota deducao imposto nome) ++ nl ++ repeat 32%N 20.

(** Its last line: the effective rate when tax is due, the exemption
    marker otherwise. *)
Definition linha_final_ir (rendimento imposto : float) : text :=
  if (0 <? imposto)%float then linha_aliquota_efetiva (imposto / rendimento * 100)
  else linha_isento.

(** The lower end of each range of the 2024 table: the limit of the row
    before it, none for the first row. *)
Definition faixas_2024_pisos : list (option float) :=
  [ None; Some 28559.70; Some 42253.25; Some 56717.56; Some 74414.84 ]%float.

(** A non-negative income strictly inside a range. *)
Definition dentro_da_faixa (piso : option float) (limite rendimento : float) : Prop :=
  match piso with
  | Some p => (p <? rendimento)%float = true
  | None => (0 <=? rendimento)%float = true
  end /\ (rendimento <? limite)%float = true.

(** A zero income owes nothing in a row. *)
Definition zero_owes_nothing (f : faixa) : bool :=
  let '(_, aliquota, deducao, _) := f in
  negb (0 <? max0 (0 * aliquota - deducao))%float &&
  negb (0 <? max0 (-0 * aliquota - deducao))%float.

(** ** Intents *)

Inductive intencao :=
  | Imposto | Porcentagem | JurosCompostos | BuscaCientifica
  | PorcentagemIncompleta | Geral.

Section Intents.
Variable U : unicode_db.
Variable float_pow : float -> float -> res float.
Variable W : collaborators.

(** Modelled from the spec: the rules of the classifier as an ordered
    list of (intent, predicate on the message). *)
Definition regras : list (intencao * (text -> bool)) :=
  [ (Imposto, fun m => any_in termos_ir (py_lower U m));
    (Porcentagem, fun m => any_in termos_porcentagem (py_lower U m));
    (JurosCompostos, fun m => any_in termos_compostos (py_lower U m));
    (BuscaCientifica, fun m => any_in termos_artigos (py_lower U m));
    (PorcentagemIncompleta, fun m => porcentagem_incompleta U (py_lower U m) m) ].

(** Modelled from the spec: the first rule that matches wins; with no
    match the intent is the general one. *)
Fixpoint primeira_regra (rs : list (intencao * (text -> bool))) (m : text) : intencao :=
  match rs with
  | [] => Geral
  | (i, p) :: rs' => if p m then i else primeira_regra rs' m
  end.

Definition classificar (m : text) : intencao := primeira_regra regras m.

(** The branch of [chat] that serves an intent. *)
Definition ramo (i : intencao) (m : text) : res (option text) :=
  match i with
  | Imposto => ramo_ir U m
  | Porcentagem => ramo_porcentagem U float_pow m
  | JurosCompostos => ramo_compostos U float_pow m
  | BuscaCientifica => ramo_artigos W m
  | PorcentagemIncompleta => ramo_incompleta U m
  | Geral => ramo_geral W m
  end.
End Intents.


(** ** A reference for the power operator *)

(** The integer a float holds, when it holds one. *)
Definition float_to_Z (x : float) : option Z :=
  match Prim2SF x with
  | S754_zero _ => Some 0
  | S754_finite s m e =>
      let v :=
        if 0 <=? e then Some (Zpos m * 2 ^ e)
        else if Zpos m mod 2 ^ (- e) =? 0 then Some (Zpos m / 2 ^ (- e))
        else None in
      option_map (fun z => if s then - z else z) v
  | _ => None
  end.

(** [str(e)] of the [OverflowError] the interpreter builds from the C
    library's range error. *)
Definition msg_fora_de_faixa : text := cps "(34, 'Numerical result out of range')".

(** An odd mantissa and the power of two taken out of it. *)
Fixpoint odd_part (m : positive) : positive * Z :=
  match m with
  | xO p => let '(o, t) := odd_part p in (o, t + 1)
  | _ => (m, 0)
  end.

(** [x ** y] for a positive finite base and a positive whole exponent:
    the power rounded to nearest, [OverflowError] when it leaves the
    range. Elsewhere this reference says nothing useful (nan). *)
Definition pow_referencia (x y : float) : res float :=
  match Prim2SF x, float_to_Z y with
  | S754_finite false m e, Some (Zpos n) =>
      let '(o, t) := odd_part m in
      let num := Zpos o ^ Zpos n in
      let ex := (e + t) * Zpos n in
      let r :=
        if 0 <=? ex then round_ratio false (num * 2 ^ ex) 1
        else round_ratio false num (2 ^ (- ex)) in
      match r with
      | S754_infinity _ => Raise (PyExn OverflowError msg_fora_de_faixa)
      | _ => Ret (SF2Prim r)
      end
  | _, _ => Ret nan
  end.


(** An agent that offers no method, a model that answers nothing: the
    collaborators of the closed examples, which never reach them. *)
Definition sem_colaboradores : collaborators :=
  {| react := {| agent_query := None; agent_chat := None |};
     llm_complete := fun _ => Ret [];
     busca_academica := fun _ => [] |}.

End Spec.
Export Spec.

(* ===================================================================== *)
(** * Facts about binary64 comparison and rounding                        *)
(* ===================================================================== *)

Module FloatOrder.

(** Order facts on [spec_float], carried to [float] by the specification
    of the primitive comparisons. *)

Ltac cmp_cases :=
  repeat match goal with
  | |- context [Pos.compare_cont Eq ?a ?b] =>
      change (Pos.compare_cont Eq a b) with (Pos.compare a b)
  end;
  repeat match goal with
  | |- context [Z.compare ?a ?b] => destruct (Z.compare_spec a b); cbv beta iota delta [CompOpp]
  | |- context [Pos.compare ?a ?b] => destruct (Pos.compare_spec a b); cbv beta iota delta [CompOpp]
  end;
  intros; subst; try discriminate; try reflexivity; try lia.

Ltac sf_cases :=
  unfold SFleb, SFltb, SFeqb, SFcompare;
  repeat match goal with
  | x : spec_float |- _ => destruct x
  | b : bool |- _ => destruct b
  end;
  cbv beta iota; try discriminate; try reflexivity; cmp_cases.

Lemma SFleb_trans a b c : SFleb a b = true -> SFleb b c = true -> SFleb a c = true.
Proof. sf_cases. Qed.

Lemma SFltb_leb_trans a b c : SFltb a b = true -> SFleb b c = true -> SFltb a c = true.
Proof. sf_cases. Qed.

Lemma SFltb_leb a b : SFltb a b = true -> SFleb a b = true.
Proof. sf_cases. Qed.

Lemma SFltb_not_leb a b : SFltb a b = true -> SFleb b a = false.
Proof. sf_cases. Qed.

Lemma SFleb_not_ltb a b : SFleb a b = true -> SFltb b a = false.
Proof. sf_cases. Qed.

Lemma SFltb_not_eqb a b : SFltb a b = true -> SFeqb b a = false.
Proof. sf_cases. Qed.


(** *** The sign a rounded result carries *)

Lemma shr_1_nonneg mrs : 0 <= shr_m mrs -> 0 <= shr_m (shr_1 mrs).
Proof.
  destruct mrs as [m r s]; simpl. destruct m as [|p|p]; simpl; try lia.
  - destruct p; simpl; lia.
Qed.

Lemma iter_pos_shr_1_nonneg p : forall mrs, 0 <= shr_m mrs -> 0 <= shr_m (SpecFloat.iter_pos shr_1 p mrs).
Proof.
  induction p; intros mrs H; simpl; auto using shr_1_nonneg.
Qed.

Lemma shr_nonneg mrs e n : 0 <= shr_m mrs -> 0 <= shr_m (fst (shr mrs e n)).
Proof.
  intros H. destruct n; simpl; auto using iter_pos_shr_1_nonneg.
Qed.

Lemma shr_record_of_loc_m m l : shr_m (shr_record_of_loc m l) = m.
Proof. destruct l as [|[]]; reflexivity. Qed.

Lemma shr_fexp_nonneg m e l : 0 <= m -> 0 <= shr_m (fst (shr_fexp prec emax m e l)).
Proof.
  intros H. unfold shr_fexp. apply shr_nonneg. now rewrite shr_record_of_loc_m.
Qed.

Lemma round_nearest_even_nonneg m l : 0 <= m -> 0 <= round_nearest_even m l.
Proof.
  intros H. destruct l as [|[]]; simpl; try lia. destruct (Z.even m); lia.
Qed.

(** A rounded non-negative mantissa gives a zero, a finite number or an
    infinity of the sign asked for. *)
Inductive signed_as (s : bool) : spec_float -> Prop :=
  | signed_zero : signed_as s (S754_zero s)
  | signed_finite m e : signed_as s (S754_finite s m e)
  | signed_infinity : signed_as s (S754_infinity s).

Lemma binary_round_aux_sign s m e l :
  0 <= m -> signed_as s (binary_round_aux prec emax s m e l).
Proof.
  intros H. unfold binary_round_aux.
  pose proof (shr_fexp_nonneg m e l H) as H1.
  destruct (shr_fexp prec emax m e l) as [mrs' e'] eqn:E1. simpl in H1.
  pose proof (shr_fexp_nonneg (round_nearest_even (shr_m mrs') (loc_of_shr_record mrs')) e' loc_Exact
                (round_nearest_even_nonneg _ _ H1)) as H2.
  destruct (shr_fexp prec emax (round_nearest_even (shr_m mrs') (loc_of_shr_record mrs')) e' loc_Exact)
    as [mrs'' e''] eqn:E2. simpl in H2.
  destruct (shr_m mrs'') as [|p|p]; try lia.
  - constructor.
  - destruct (e'' <=? emax - prec); constructor.
Qed.



(** *** The same on primitive floats *)

Lemma ltb_leb (a b : float) : (a <? b)%float = true -> (a <=? b)%float = true.
Proof. rewrite FloatAxioms.ltb_spec, FloatAxioms.leb_spec. apply SFltb_leb. Qed.

Lemma ltb_not_leb (a b : float) : (a <? b)%float = true -> (b <=? a)%float = false.
Proof. rewrite FloatAxioms.ltb_spec, FloatAxioms.leb_spec. apply SFltb_not_leb. Qed.

Lemma leb_not_ltb (a b : float) : (a <=? b)%float = true -> (b <? a)%float = false.
Proof. rewrite FloatAxioms.ltb_spec, FloatAxioms.leb_spec. apply SFleb_not_ltb. Qed.

Lemma ltb_not_eqb (a b : float) : (a <? b)%float = true -> (b =? a)%float = false.
Proof. rewrite FloatAxioms.ltb_spec, FloatAxioms.eqb_spec. apply SFltb_not_eqb. Qed.

Lemma leb_trans (a b c : float) :
  (a <=? b)%float = true -> (b <=? c)%float = true -> (a <=? c)%float = true.
Proof. rewrite !FloatAxioms.leb_spec. apply SFleb_trans. Qed.

Lemma ltb_leb_trans (a b c : float) :
  (a <? b)%float = true -> (b <=? c)%float = true -> (a <? c)%float = true.
Proof. rewrite !FloatAxioms.ltb_spec, FloatAxioms.leb_spec. apply SFltb_leb_trans. Qed.

Lemma not_leb0_not_eqb0 (x : float) : (x <=? 0)%float = false -> (x =? 0)%float = false.
Proof.
  rewrite FloatAxioms.leb_spec, FloatAxioms.eqb_spec. change (Prim2SF 0) with (S754_zero false).
  destruct (Prim2SF x) as [s|s| |s m e]; try destruct s; try discriminate; reflexivity.
Qed.


End FloatOrder.
Export FloatOrder.

(* ===================================================================== *)
(** * Facts about [strip] and the printed numbers                         *)
(* ===================================================================== *)

Module TextFacts.

Definition nonspace (c : N) : Prop := is_space c = false.

(** A text that begins with a character [strip] keeps. *)
Definition starts_solid (s : text) : Prop :=
  exists c t, s = c :: t /\ nonspace c.

(** A text that ends with a character [strip] keeps. *)
Definition ends_solid (s : text) : Prop :=
  exists t d, s = t ++ [d] /\ nonspace d.

Definition blank (s : text) : Prop := Forall (fun c => is_space c = true) s.

Lemma lstrip_blank_app l s : blank l -> lstrip (l ++ s) = lstrip s.
Proof.
  induction 1 as [|c l Hc _ IH]; simpl; [reflexivity|]. now rewrite Hc.
Qed.

Lemma lstrip_starts s : starts_solid s -> lstrip s = s.
Proof. intros (c & t & -> & Hc). simpl. unfold nonspace in Hc. now rewrite Hc. Qed.

Lemma blank_rev l : blank l -> blank (rev l).
Proof. apply List.Forall_rev. Qed.

Lemma rstrip_ends_blank s r : ends_solid s -> blank r -> rstrip (s ++ r) = s.
Proof.
  intros (t & d & -> & Hd) Hr. unfold rstrip.
  rewrite rev_app_distr, lstrip_blank_app by now apply blank_rev.
  rewrite rev_app_distr. simpl. unfold nonspace in Hd. rewrite Hd.
  change (d :: rev t) with ([d] ++ rev t). rewrite rev_app_distr, rev_involutive. reflexivity.
Qed.

(** [strip] removes exactly the blanks around a text that begins and ends
    with a character it keeps. *)
Lemma py_strip_between l s r :
  blank l -> blank r -> starts_solid s -> ends_solid s -> py_strip (l ++ s ++ r) = s.
Proof.
  intros Hl Hr Hs He. unfold py_strip.
  rewrite lstrip_blank_app by assumption.
  rewrite lstrip_starts.
  - now apply rstrip_ends_blank.
  - destruct Hs as (c & t & -> & Hc). exists c, (t ++ r). split; [reflexivity|assumption].
Qed.

Lemma starts_solid_app s1 s2 : starts_solid s1 -> starts_solid (s1 ++ s2).
Proof. intros (c & t & -> & Hc). exists c, (t ++ s2). split; [reflexivity|assumption]. Qed.

Lemma ends_solid_app s1 s2 : ends_solid s2 -> ends_solid (s1 ++ s2).
Proof. intros (t & d & -> & Hd). exists (s1 ++ t), d. split; [now rewrite app_assoc|assumption]. Qed.

Lemma ends_solid_cons c s : ends_solid s -> ends_solid (c :: s).
Proof. apply (ends_solid_app [c]). Qed.

Lemma blank_repeat n : blank (repeat 32%N n).
Proof. induction n; constructor; auto. Qed.

(** A non-empty text of characters [strip] keeps. *)
Definition solid (s : text) : Prop := s <> [] /\ Forall nonspace s.

Lemma solid_ends s : solid s -> ends_solid s.
Proof.
  intros [Hne Hall]. destruct (exists_last Hne) as (t & d & ->).
  exists t, d. split; [reflexivity|].
  apply List.Forall_app in Hall. destruct Hall as [_ Hd]. now inversion Hd.
Qed.

Lemma digit_nonspace (c : N) : (48 <= c <= 57)%N -> nonspace c.
Proof.
  intros H. unfold nonspace, is_space.
  repeat match goal with
  | |- context [(?a <=? ?b)%N] => destruct (N.leb_spec a b); try lia
  | |- context [(?a =? ?b)%N] => destruct (N.eqb_spec a b); try lia
  end; reflexivity.
Qed.

Lemma dec_digits_nonspace fuel : forall n acc,
  Forall nonspace acc -> Forall nonspace (dec_digits fuel n acc).
Proof.
  induction fuel as [|fuel IH]; intros n acc Hacc; simpl; [assumption|].
  assert (Hd : nonspace (48 + n mod 10)%N).
  { apply digit_nonspace. pose proof (N.mod_lt n 10 ltac:(lia)) as H.
    set (k := (n mod 10)%N) in *. clearbody k. lia. }
  destruct (n <? 10)%N; [constructor; assumption|]. apply IH. now constructor.
Qed.

Lemma N_to_text_nonspace n : Forall nonspace (N_to_text n).
Proof. apply dec_digits_nonspace. constructor. Qed.

Lemma Forall_skipn {A} (P : A -> Prop) n l : Forall P l -> Forall P (skipn n l).
Proof.
  intros H. rewrite <- (firstn_skipn n l) in H.
  apply List.Forall_app in H. tauto.
Qed.

Lemma zeros_nonspace k : Forall nonspace (repeat 48%N k).
Proof. induction k; simpl; constructor; auto. reflexivity. Qed.

Lemma fixed_digits_ends comma p n : ends_solid (fixed_digits comma (S p) n).
Proof.
  unfold fixed_digits. apply ends_solid_app. apply solid_ends. split; [discriminate|].
  constructor; [reflexivity|]. apply Forall_skipn.
  unfold pad_zeros. apply List.Forall_app. split.
  - apply zeros_nonspace.
  - apply N_to_text_nonspace.
Qed.

(** A float printed with decimals ends with a character [strip] keeps. *)
Lemma format_f_ends comma p x : ends_solid (format_f comma (S p) x).
Proof.
  unfold format_f. destruct (Prim2SF x) as [s|s| |s m e].
  - apply ends_solid_app, fixed_digits_ends.
  - apply ends_solid_app. exists (cps "in"), 102%N. split; reflexivity.
  - exists (cps "na"), 110%N. split; reflexivity.
  - apply ends_solid_app, fixed_digits_ends.
Qed.

End TextFacts.
Export TextFacts.

(* ===================================================================== *)
(** * Facts about the reports                                            *)
(* ===================================================================== *)

Module ReportFacts.

Lemma join_nl_cons l ls : ls <> [] -> join_nl (l :: ls) = l ++ nl ++ join_nl ls.
Proof. destruct ls; [congruence|reflexivity]. Qed.

Lemma join_nl_starts l ls : starts_solid l -> starts_solid (join_nl (l :: ls)).
Proof.
  intros H. destruct ls; simpl; [assumption|]. now apply starts_solid_app.
Qed.

Lemma last_cons_default (ls : list text) : forall c d1 d2,
  List.last (c :: ls) d1 = List.last (c :: ls) d2.
Proof.
  induction ls as [|c' ls IH]; intros c d1 d2; [reflexivity|].
  change (List.last (c' :: ls) d1 = List.last (c' :: ls) d2). apply IH.
Qed.

Lemma join_nl_ends ls : forall l, ends_solid (List.last ls l) -> ends_solid (join_nl (l :: ls)).
Proof.
  induction ls as [|l' ls IH]; intros l H; [exact H|].
  change (join_nl (l :: l' :: ls)) with (l ++ nl ++ join_nl (l' :: ls)).
  apply ends_solid_app, ends_solid_app, IH.
  destruct ls as [|c ls]; [exact H|].
  rewrite (last_cons_default ls c l' l). exact H.
Qed.

(** A triple-quoted block whose first line begins and whose last line ends
    with a character [strip] keeps is stripped to its lines. *)
Lemma strip_triple_quoted l ls indent :
  starts_solid l -> ends_solid (List.last ls l) ->
  py_strip (triple_quoted (l :: ls) indent) = join_nl (l :: ls).
Proof.
  intros Hs He. unfold triple_quoted.
  replace (nl ++ join_nl (l :: ls) ++ nl ++ repeat 32%N indent)
    with (nl ++ join_nl (l :: ls) ++ (nl ++ repeat 32%N indent)) by reflexivity.
  apply py_strip_between.
  - repeat constructor.
  - constructor; [reflexivity|apply blank_repeat].
  - now apply join_nl_starts.
  - now apply join_nl_ends.
Qed.

(** The first line of a report begins with a literal. *)
Ltac starts_literal :=
  try apply starts_solid_app;
  match goal with
  | |- starts_solid (cps ?s) =>
      let v := eval vm_compute in (cps s) in
      change (starts_solid v); eexists _, _; split; [reflexivity|vm_compute; reflexivity]
  end.

Lemma eqb0_zero (x : float) : (x =? 0)%float = true -> x = 0%float \/ x = (-0)%float.
Proof.
  rewrite FloatAxioms.eqb_spec. change (Prim2SF 0) with (S754_zero false).
  destruct (Prim2SF x) as [s|s| |s m e] eqn:E; try destruct s; try discriminate; intros _.
  - right. apply Prim2SF_inj. rewrite E. reflexivity.
  - left. apply Prim2SF_inj. rewrite E. reflexivity.
Qed.

Lemma max0_eqb0 (y : float) : (max0 y =? 0)%float = negb (0 <? max0 y)%float.
Proof.
  unfold max0. destruct (0 <? y)%float eqn:E.
  - rewrite E. simpl. now apply ltb_not_eqb.
  - reflexivity.
Qed.

Lemma max0_nonneg (y : float) : (0 <=? max0 y)%float = true.
Proof.
  unfold max0. destruct (0 <? y)%float eqn:E; [now apply ltb_leb|reflexivity].
Qed.

Lemma strip_ir_report ano rendimento aliquota deducao imposto nome linha :
  ends_solid linha ->
  py_strip (triple_quoted (ir_lines ano rendimento aliquota deducao imposto nome) 20 ++ linha)
  = relatorio_ir ano rendimento aliquota deducao imposto nome ++ linha.
Proof.
  intros He. unfold triple_quoted, relatorio_ir.
  set (body := join_nl _).
  replace ((nl ++ body ++ nl ++ repeat 32%N 20) ++ linha)
    with (nl ++ ((body ++ nl ++ repeat 32%N 20) ++ linha) ++ []).
  2:{ rewrite app_nil_r. rewrite <- !app_assoc. reflexivity. }
  apply py_strip_between.
  - repeat constructor.
  - constructor.
  - apply starts_solid_app, starts_solid_app. subst body. apply join_nl_starts. starts_literal.
  - now apply ends_solid_app.
Qed.

(** A line that ends with a literal. *)
Ltac ends_literal :=
  repeat apply ends_solid_app;
  match goal with
  | |- ends_solid (cps ?s) =>
      let v := eval vm_compute in (cps s) in
      let t := eval vm_compute in (removelast v) in
      let d := eval vm_compute in (List.last v 0%N) in
      change (ends_solid v); exists t, d; split; vm_compute; reflexivity
  end.

Lemma linha_isento_ends : ends_solid linha_isento.
Proof. unfold linha_isento. ends_literal. Qed.

Lemma linha_aliquota_efetiva_ends p : ends_solid (linha_aliquota_efetiva p).
Proof.
  unfold linha_aliquota_efetiva. ends_literal.
Qed.

(** What the body of the loop returns for the row that applies, when the
    division of its last line is defined. *)
Lemma ir_faixa_report rendimento ano limite aliquota deducao nome :
  let imposto := max0 (rendimento * aliquota - deducao) in
  ((0 <? imposto)%float = true -> (rendimento =? 0)%float = false) ->
  ir_faixa rendimento ano (limite, aliquota, deducao, nome) =
    Ret (relatorio_ir ano rendimento aliquota deducao imposto nome ++
         linha_final_ir rendimento imposto).
Proof.
  intros imposto Hdiv. unfold ir_faixa, linha_final_ir.
  change (max0 (rendimento * aliquota - deducao)) with imposto.
  assert (E0 : (imposto =? 0)%float = negb (0 <? imposto)%float) by apply max0_eqb0.
  rewrite E0.
  destruct (0 <? imposto)%float eqn:E; cbn [negb].
  - unfold float_div. rewrite (Hdiv eq_refl). cbn [bind].
    now rewrite strip_ir_report by apply linha_aliquota_efetiva_ends.
  - now rewrite strip_ir_report by apply linha_isento_ends.
Qed.

(** A zero income owes nothing in any row of the two tables. *)
Lemma tables_zero_owes_nothing :
  forallb zero_owes_nothing (faixas_2024 ++ faixas_outros_anos) = true.
Proof. vm_compute. reflexivity. Qed.

Lemma ir_faixa_report_row rendimento ano f :
  In f (faixas_2024 ++ faixas_outros_anos) ->
  let '(_, aliquota, deducao, nome) := f in
  let imposto := max0 (rendimento * aliquota - deducao) in
  ir_faixa rendimento ano f =
    Ret (relatorio_ir ano rendimento aliquota deducao imposto nome ++
         linha_final_ir rendimento imposto).
Proof.
  intros Hin.
  pose proof tables_zero_owes_nothing as Hz.
  rewrite forallb_forall in Hz. specialize (Hz f Hin).
  destruct f as [[[limite aliquota] deducao] nome]. intros imposto.
  apply ir_faixa_report. fold imposto. intros Hpos.
  destruct (rendimento =? 0)%float eqn:E0; [|reflexivity].
  unfold zero_owes_nothing in Hz. apply andb_prop in Hz. destruct Hz as [Hz1 Hz2].
  subst imposto. destruct (eqb0_zero _ E0) as [-> | ->].
  - rewrite Hpos in Hz1. discriminate.
  - rewrite Hpos in Hz2. discriminate.
Qed.

End ReportFacts.
Export ReportFacts.

(* ===================================================================== *)
(** * The income-tax calculator                                          *)
(* ===================================================================== *)

Module ImpostoFacts.

Definition limite_de (f : faixa) : float := fst (fst (fst f)).

(** The loop skips the rows whose limit the income exceeds and runs the
    body for the first row that holds it. *)
Lemma ir_loop_select rendimento ano pre row post :
  Forall (fun f => (rendimento <=? limite_de f)%float = false) pre ->
  (rendimento <=? limite_de row)%float = true ->
  ir_loop rendimento ano (pre ++ row :: post) =
    bind (ir_faixa rendimento ano row) (fun r => Ret (Some r)).
Proof.
  intros Hpre Hrow. induction Hpre as [|f pre Hf _ IH]; simpl.
  - unfold limite_de in Hrow. now rewrite Hrow.
  - unfold limite_de in Hf. now rewrite Hf.
Qed.

(** An income above a floor is above every limit that is not above it. *)
Lemma above_floor (piso limite rendimento : float) :
  (piso <? rendimento)%float = true ->
  (limite <=? piso)%float = true ->
  (rendimento <=? limite)%float = false.
Proof.
  intros H1 H2. destruct (rendimento <=? limite)%float eqn:E; [|reflexivity].
  pose proof (leb_trans _ _ _ E H2) as H3.
  rewrite (ltb_not_leb _ _ H1) in H3. discriminate.
Qed.

Lemma above_floor_nonneg (piso rendimento : float) :
  (0 <=? piso)%float = true ->
  (piso <? rendimento)%float = true ->
  (rendimento <? 0)%float = false.
Proof.
  intros H0 H1. destruct (rendimento <? 0)%float eqn:E; [|reflexivity].
  pose proof (ltb_leb _ _ (ltb_leb_trans _ _ _ E H0)) as H2.
  rewrite (ltb_not_leb _ _ H1) in H2. discriminate.
Qed.

(** The loop over a table either ends without a row (no [return]) or
    gives the report of one row of the table. *)
Lemma ir_loop_result rendimento ano (faixas : list faixa) :
  (forall f, In f faixas -> In f (faixas_2024 ++ faixas_outros_anos)) ->
  ir_loop rendimento ano faixas = Ret None \/
  exists limite aliquota deducao nome,
    In (limite, aliquota, deducao, nome) faixas /\
    let imposto := max0 (rendimento * aliquota - deducao) in
    ir_loop rendimento ano faixas =
      Ret (Some (relatorio_ir ano rendimento aliquota deducao imposto nome ++
                 linha_final_ir rendimento imposto)).
Proof.
  induction faixas as [|f faixas IH]; intros Hin; [left; reflexivity|].
  simpl. destruct (rendimento <=? fst (fst (fst f)))%float.
  - right. pose proof (ir_faixa_report_row rendimento ano f (Hin f (or_introl eq_refl))) as H.
    destruct f as [[[limite aliquota] deducao] nome].
    exists limite, aliquota, deducao, nome. split; [now left|].
    cbv zeta in H |- *. rewrite H. reflexivity.
  - specialize (IH (fun g Hg => Hin g (or_intror Hg))).
    destruct IH as [IH | (limite & aliquota & deducao & nome & Hf & IH)].
    + left. exact IH.
    + right. exists limite, aliquota, deducao, nome. split; [right; exact Hf|exact IH].
Qed.

End ImpostoFacts.
Export ImpostoFacts.

(* ===================================================================== *)
(** * Claims on the income-tax calculator                                *)
(* ===================================================================== *)

(** The report for an income that a given row of the 2024 table holds. *)
Lemma ir_2024_row rendimento pre limite aliquota deducao nome post :
  faixas_2024 = pre ++ (limite, aliquota, deducao, nome) :: post ->
  (rendimento <? 0)%float = false ->
  Forall (fun f => (rendimento <=? limite_de f)%float = false) pre ->
  (rendimento <? limite)%float = true ->
  imposto_renda_melhorado rendimento 2024 =
    Some (relatorio_ir 2024 rendimento aliquota deducao
            (max0 (rendimento * aliquota - deducao)) nome ++
          linha_final_ir rendimento (max0 (rendimento * aliquota - deducao))).
Proof.
  intros Htab Hneg Hpre Hlim. unfold imposto_renda_melhorado. rewrite Hneg.
  change (2024 =? 2024) with true. cbv iota. rewrite Htab.
  rewrite ir_loop_select; [|exact Hpre|now apply ltb_leb].
  assert (Hin : In (limite, aliquota, deducao, nome) (faixas_2024 ++ faixas_outros_anos)).
  { apply in_or_app. left. rewrite Htab. apply in_or_app. right. now left. }
  pose proof (ir_faixa_report_row rendimento 2024 _ Hin) as H. cbv zeta in H.
  rewrite H. reflexivity.
Qed.

Ltac floor_rows H :=
  match goal with
  | |- Forall ?P ?l =>
      let l' := eval cbv [firstn faixas_2024] in l in change (Forall P l')
  end;
  repeat (apply List.Forall_cons; [apply (above_floor _ _ _ H); vm_compute; reflexivity|]);
  apply List.Forall_nil.

(** C2. For every non-negative income strictly inside a range of the 2024
    table the calculator reports the tax [max(0, income*rate - deduction)]
    of that row; the report ends with the effective-rate line when the tax
    is positive and with the exemption marker when it is zero, and the tax
    is zero exactly when it is not positive. An income of 50000 falls in
    the row "15%" with tax 2,195.10; an income of 28559.70 is exempt with
    tax 0.00. *)
Theorem C2_imposto_renda_faixas_2024 :
  (forall (rendimento : float) (i : nat) piso limite aliquota deducao nome,
      nth_error faixas_2024_pisos i = Some piso ->
      nth_error faixas_2024 i = Some (limite, aliquota, deducao, nome) ->
      dentro_da_faixa piso limite rendimento ->
      let imposto := max0 (rendimento * aliquota - deducao) in
      imposto_renda_melhorado rendimento 2024 =
        Some (relatorio_ir 2024 rendimento aliquota deducao imposto nome ++
              (if (0 <? imposto)%float
               then linha_aliquota_efetiva (imposto / rendimento * 100)
               else linha_isento))
      /\ (imposto =? 0)%float = negb (0 <? imposto)%float)
  /\ imposto_renda_melhorado 50000 2024 =
       Some (join_nl
         [ cps "🧮 **CÁLCULO DO IMPOSTO DE RENDA 2024**";
           repeat 61%N 45;
           cps "💰 **Rendimento Bruto**: R$ 50,000.00";
           cps "📊 **Faixa**: 15%";
           cps "📈 **Alíquota**: 15.0%";
           cps "➖ **Dedução**: R$ 5,304.90";
           cps "💸 **Imposto Devido**: R$ 2,195.10";
           cps "💵 **Renda Líquida**: R$ 47,804.90";
           repeat 61%N 45;
           repeat 32%N 20;
           cps "📊 **Alíquota Efetiva**: 4.39%" ])
  /\ imposto_renda_melhorado 28559.70 2024 =
       Some (join_nl
         [ cps "🧮 **CÁLCULO DO IMPOSTO DE RENDA 2024**";
           repeat 61%N 45;
           cps "💰 **Rendimento Bruto**: R$ 28,559.70";
           cps "📊 **Faixa**: Isento";
           cps "📈 **Alíquota**: 0.0%";
           cps "➖ **Dedução**: R$ 0.00";
           cps "💸 **Imposto Devido**: R$ 0.00";
           cps "💵 **Renda Líquida**: R$ 28,559.70";
           repeat 61%N 45;
           repeat 32%N 20;
           cps "✅ **ISENTO DE IMPOSTO DE RENDA!**" ]).
Proof.
  split; [|split; vm_compute; reflexivity].
  intros rendimento i piso limite aliquota deducao nome Hpiso Hrow [Hlo Hhi] imposto.
  split; [|apply max0_eqb0].
  change (if (0 <? imposto)%float
          then linha_aliquota_efetiva (imposto / rendimento * 100)
          else linha_isento) with (linha_final_ir rendimento imposto).
  destruct i as [|[|[|[|[|i]]]]]; simpl in Hpiso, Hrow;
    [ | | | | | destruct i; discriminate ];
    injection Hpiso as <-; injection Hrow as <- <- <- <-.
  - apply (ir_2024_row rendimento [] _ _ _ _ _ eq_refl).
    + now apply leb_not_ltb.
    + constructor.
    + exact Hhi.
  - apply (ir_2024_row rendimento (firstn 1 faixas_2024) _ _ _ _ _ eq_refl).
    + refine (above_floor_nonneg _ _ _ Hlo); vm_compute; reflexivity.
    + floor_rows Hlo.
    + exact Hhi.
  - apply (ir_2024_row rendimento (firstn 2 faixas_2024) _ _ _ _ _ eq_refl).
    + refine (above_floor_nonneg _ _ _ Hlo); vm_compute; reflexivity.
    + floor_rows Hlo.
    + exact Hhi.
  - apply (ir_2024_row rendimento (firstn 3 faixas_2024) _ _ _ _ _ eq_refl).
    + refine (above_floor_nonneg _ _ _ Hlo); vm_compute; reflexivity.
    + floor_rows Hlo.
    + exact Hhi.
  - apply (ir_2024_row rendimento (firstn 4 faixas_2024) _ _ _ _ _ eq_refl).
    + refine (above_floor_nonneg _ _ _ Hlo); vm_compute; reflexivity.
    + floor_rows Hlo.
    + exact Hhi.
Qed.

Lemma C2_imposto_renda_faixas_2024_witness :
  imposto_renda_melhorado 50000 2024 =
    Some (relatorio_ir 2024 50000 0.15 5304.90 (max0 (50000 * 0.15 - 5304.90)) (cps "15%") ++
          (if (0 <? max0 (50000 * 0.15 - 5304.90))%float
           then linha_aliquota_efetiva (max0 (50000 * 0.15 - 5304.90) / 50000 * 100)
           else linha_isento))
  /\ (max0 (50000 * 0.15 - 5304.90) =? 0)%float
     = negb (0 <? max0 (50000 * 0.15 - 5304.90))%float.
Proof.
  exact (proj1 C2_imposto_renda_faixas_2024 50000%float 2%nat (Some 42253.25%float)
           56717.56%float 0.15%float 5304.90%float (cps "15%")
           eq_refl eq_refl (conj eq_refl eq_refl)).
Defined.

(** C6. A strictly negative income is answered with the rejection message,
    not with an exception; and whatever the income and the year, a text
    the calculator returns is either that message or the report of a row
    whose tax [max(0, income*rate - deduction)] is not negative. *)
Theorem C6_rendimento_negativo :
  (forall (rendimento : float) (ano : Z),
      (rendimento <? 0)%float = true ->
      imposto_renda_melhorado rendimento ano = Some msg_rendimento_negativo)
  /\ (forall (rendimento : float) (ano : Z) (out : text),
        imposto_renda_melhorado rendimento ano = Some out ->
        out = msg_rendimento_negativo \/
        exists aliquota deducao nome imposto,
          imposto = max0 (rendimento * aliquota - deducao) /\
          (0 <=? imposto)%float = true /\
          (imposto <? 0)%float = false /\
          out = relatorio_ir ano rendimento aliquota deducao imposto nome ++
                linha_final_ir rendimento imposto).
Proof.
  split.
  - intros rendimento ano H. unfold imposto_renda_melhorado. rewrite H. reflexivity.
  - intros rendimento ano out. unfold imposto_renda_melhorado.
    destruct (rendimento <? 0)%float.
    + cbn [try_except]. intros [= <-]. now left.
    + set (faixas := if ano =? 2024 then faixas_2024 else faixas_outros_anos).
      destruct (ir_loop_result rendimento ano faixas) as [E | (lim & a & d & n & _ & E)].
      * intros f Hf. apply in_or_app. subst faixas.
        destruct (ano =? 2024); [now left|now right].
      * rewrite E. discriminate.
      * cbv zeta in E. rewrite E. cbn [try_except]. intros [= <-]. right.
        exists a, d, n, (max0 (rendimento * a - d)).
        split; [reflexivity|]. split; [apply max0_nonneg|].
        split; [apply leb_not_ltb, max0_nonneg|reflexivity].
Qed.

Lemma C6_rendimento_negativo_witness :
  imposto_renda_melhorado (-1500.50) 2024 = Some msg_rendimento_negativo.
Proof.
  exact (proj1 C6_rendimento_negativo (-1500.50)%float 2024 eq_refl).
Defined.

(* ===================================================================== *)
(** * Claims on the financial calculator                                 *)
(* ===================================================================== *)




Section CalculadoraFacts.
Variable U : unicode_db.
Variable float_pow : float -> float -> res float.



Lemma tipo_juros_simples kwargs :
  calculadora_financeira_geral U float_pow (cps "juros_simples") kwargs =
    try_except (calc_juros_simples kwargs)
      (fun e => cps "❌ Erro no cálculo financeiro: " ++ exn_str e).
Proof.
  unfold calculadora_financeira_geral.
  replace (py_lower U (cps "juros_simples")) with (cps "juros_simples")
    by (vm_compute; reflexivity).
  reflexivity.
Qed.




(** Simple interest has no test: every input gets the report. *)
Lemma calc_juros_simples_report kwargs :
  calc_juros_simples kwargs =
    Ret (join_nl (simples_lines
           (kwargs_get kwargs "principal") (kwargs_get kwargs "periodo")
           (as_float (kwargs_get kwargs "taxa") / 100)
           (as_float (kwargs_get kwargs "principal")
              * (as_float (kwargs_get kwargs "taxa") / 100)
              * as_float (kwargs_get kwargs "periodo"))
           (as_float (kwargs_get kwargs "principal")
              + as_float (kwargs_get kwargs "principal")
                * (as_float (kwargs_get kwargs "taxa") / 100)
                * as_float (kwargs_get kwargs "periodo")))).
Proof.
  unfold calc_juros_simples, simples_lines.
  rewrite strip_triple_quoted; [reflexivity| |].
  - starts_literal.
  - cbn [List.last]. repeat apply ends_solid_app. apply format_f_ends.
Qed.

End CalculadoraFacts.



(** On the floats that [chat] passes, the simple-interest calculator
    tests nothing: for every mapping of floats, missing, zero and
    negative values included, it reports
    [interest = principal * (rate/100) * period] and
    [amount = principal + interest]. The principal 10000 at rate 10 over 5
    periods gives interest 5,000.00 and amount 15,000.00; a negative
    principal gets a report too. *)
Lemma juros_simples_de_floats :
  forall (U : unicode_db) (float_pow : float -> float -> res float),
  (forall kwargs : gmap string float,
      let principal := kwargs_get kwargs "principal" in
      let taxa := (as_float (kwargs_get kwargs "taxa") / 100)%float in
      let periodo := kwargs_get kwargs "periodo" in
      let juros := (as_float principal * taxa * as_float periodo)%float in
      let montante := (as_float principal + juros)%float in
      calculadora_financeira_geral U float_pow (cps "juros_simples") kwargs =
        join_nl (simples_lines principal periodo taxa juros montante))
  /\ calculadora_financeira_geral U float_pow (cps "juros_simples")
       (<["principal" := 10000%float]> (<["taxa" := 10%float]> (<["periodo" := 5%float]> ∅))) =
       join_nl
         [ cps "📊 **JUROS SIMPLES**";
           repeat 61%N 25;
           cps "💰 **Capital**: R$ 10,000.00";
           cps "📊 **Taxa**: 10.00%";
           cps "⏱️ **Período**: 5.0";
           cps "💸 **Juros**: R$ 5,000.00";
           cps "💵 **Montante**: R$ 15,000.00" ]
  /\ calculadora_financeira_geral U float_pow (cps "juros_simples")
       (<["principal" := (-10000)%float]> (<["taxa" := 10%float]> ∅)) =
       join_nl
         [ cps "📊 **JUROS SIMPLES**";
           repeat 61%N 25;
           cps "💰 **Capital**: R$ -10,000.00";
           cps "📊 **Taxa**: 10.00%";
           cps "⏱️ **Período**: 0";
           cps "💸 **Juros**: R$ -0.00";
           cps "💵 **Montante**: R$ -10,000.00" ].
Proof.
  intros U float_pow. split; [|split].
  - intros kwargs. cbv zeta. rewrite tipo_juros_simples.
    rewrite calc_juros_simples_report. reflexivity.
  - vm_compute. reflexivity.
  - vm_compute. reflexivity.
Qed.




(* ===================================================================== *)
(** * Facts about lower-casing, substrings and the rule chain            *)
(* ===================================================================== *)

Module ChatFacts.

Lemma is_prefix_app (w y : text) : is_prefix w (w ++ y) = true.
Proof. induction w as [|c w IH]; simpl; [reflexivity|]. now rewrite N.eqb_refl. Qed.

Lemma py_in_unfold (w h : text) :
  py_in w h = is_prefix w h || match h with [] => false | _ :: h' => py_in w h' end.
Proof. destruct h; reflexivity. Qed.




Section Lowering.
Variable U : unicode_db.




End Lowering.

(** The first rule that matches decides, whatever the later rules say. *)
Lemma primeira_regra_nth (rs : list (intencao * (text -> bool))) (m : text) :
  forall k i p,
    nth_error rs k = Some (i, p) ->
    p m = true ->
    (forall j i' p', (j < k)%nat -> nth_error rs j = Some (i', p') -> p' m = false) ->
    primeira_regra rs m = i.
Proof.
  induction rs as [|[i0 p0] rs IH]; intros k i p Hk Hp Hbefore.
  - destruct k; discriminate.
  - destruct k as [|k].
    + injection Hk as -> ->. simpl. now rewrite Hp.
    + simpl. rewrite (Hbefore 0%nat i0 p0 ltac:(lia) eq_refl).
      apply (IH k i p Hk Hp). intros j i' p' Hj Hn.
      apply (Hbefore (S j) i' p'); [lia|exact Hn].
Qed.

Lemma primeira_regra_none (rs : list (intencao * (text -> bool))) (m : text) :
  (forall k i p, nth_error rs k = Some (i, p) -> p m = false) ->
  primeira_regra rs m = Geral.
Proof.
  induction rs as [|[i0 p0] rs IH]; intros H; [reflexivity|].
  simpl. rewrite (H 0%nat i0 p0 eq_refl). apply IH.
  intros k i p Hk. apply (H (S k) i p Hk).
Qed.

End ChatFacts.
Export ChatFacts.

(* ===================================================================== *)
(** * Claims on the orchestrator                                         *)
(* ===================================================================== *)



(** C5. The manual analysis is the ordered chain of rules: tax, percentage,
    compound interest, academic search, incomplete percentage, and the
    general answer when none matches. It takes the branch of the first
    rule whose test the message passes, whatever later rules it passes
    too; a message with both "imposto de renda" and "% de" takes the tax
    branch. *)
Theorem C5_primeira_regra_vence :
  forall (U : unicode_db) (float_pow : float -> float -> res float) (W : collaborators),
  map fst (regras U) =
    [Imposto; Porcentagem; JurosCompostos; BuscaCientifica; PorcentagemIncompleta]
  /\ (forall m : text,
        analise_manual U float_pow W m = ramo U float_pow W (classificar U m) m)
  /\ (forall (m : text) (k : nat) (i : intencao) (p : text -> bool),
        nth_error (regras U) k = Some (i, p) ->
        p m = true ->
        (forall j i' p', (j < k)%nat -> nth_error (regras U) j = Some (i', p') -> p' m = false) ->
        classificar U m = i /\
        analise_manual U float_pow W m = ramo U float_pow W i m)
  /\ (forall m : text,
        (forall k i p, nth_error (regras U) k = Some (i, p) -> p m = false) ->
        analise_manual U float_pow W m = ramo_geral W m)
  /\ (forall m : text,
        py_in (cps "imposto de renda") (py_lower U m) = true ->
        py_in (cps "% de") (py_lower U m) = true ->
        analise_manual U float_pow W m = ramo_ir U m).
Proof.
  intros U float_pow W.
  assert (Hramo : forall m, analise_manual U float_pow W m =
                            ramo U float_pow W (classificar U m) m).
  { intros m. unfold analise_manual, classificar, regras. cbn [primeira_regra].
    destruct (any_in termos_ir (py_lower U m)); [reflexivity|].
    destruct (any_in termos_porcentagem (py_lower U m)); [reflexivity|].
    destruct (any_in termos_compostos (py_lower U m)); [reflexivity|].
    destruct (any_in termos_artigos (py_lower U m)); [reflexivity|].
    destruct (porcentagem_incompleta U (py_lower U m) m); reflexivity. }
  split; [reflexivity|]. split; [exact Hramo|]. split; [|split].
  - intros m k i p Hk Hp Hbefore.
    assert (Hc : classificar U m = i)
      by (unfold classificar; exact (primeira_regra_nth _ m k i p Hk Hp Hbefore)).
    split; [exact Hc|]. rewrite Hramo, Hc. reflexivity.
  - intros m Hnone. rewrite Hramo. unfold classificar.
    rewrite (primeira_regra_none _ m Hnone). reflexivity.
  - intros m Hir _. unfold analise_manual.
    assert (Ha : any_in termos_ir (py_lower U m) = true).
    { unfold any_in, termos_ir. cbn [existsb]. rewrite Hir. reflexivity. }
    rewrite Ha. reflexivity.
Qed.

Lemma C5_primeira_regra_vence_witness :
  classificar ascii_db (cps "Qual o percentual de juros compostos?") = Porcentagem /\
  analise_manual ascii_db pow_referencia sem_colaboradores
    (cps "Qual o percentual de juros compostos?") =
    ramo ascii_db pow_referencia sem_colaboradores Porcentagem
      (cps "Qual o percentual de juros compostos?").
Proof.
  refine (proj1 (proj2 (proj2 (C5_primeira_regra_vence ascii_db pow_referencia sem_colaboradores)))
            (cps "Qual o percentual de juros compostos?") 1%nat Porcentagem _ eq_refl _ _).
  - vm_compute. reflexivity.
  - intros j i' p' Hj Hn. destruct j as [|j]; [|lia].
    injection Hn as _ <-. vm_compute. reflexivity.
Defined.

(* ===================================================================== *)
(** * Where the code departs from the claims                             *)
(* ===================================================================== *)

(** C1, as the code runs it. In "Calcule 20% de R$ 5.000" the first match
    of the monetary pattern is the "20" of "20%": the currency sign is
    optional, so the number of the percentage is taken for the base
    value. The extractor yields base value 20 and percentage 20, and the
    percentage branch reports 20% of 20, which is 4.00, not 1,000.00. *)
Theorem C1_calcule_20_de_5000 :
  forall (U : unicode_db) (float_pow : float -> float -> res float) (W : collaborators),
  findall (re_monetario U) (cps "Calcule 20% de R$ 5.000") = [cps "20"; cps "5.000"]
  /\ extrair_valores_numericos U (cps "Calcule 20% de R$ 5.000") =
       Ret (<["percentual" := 20%float]> (<["taxa" := 20%float]>
           (<["valor" := 20%float]> (<["principal" := 20%float]> ∅))))
  /\ analise_manual U float_pow W (cps "Calcule 20% de R$ 5.000") =
       Ret (Some (join_nl
         [ cps "📊 **CÁLCULO DE PORCENTAGEM**";
           repeat 61%N 30;
           cps "💰 **Valor Base**: 20.00";
           cps "📈 **Percentual**: 20.0%";
           cps "💵 **Resultado**: 4.00";
           cps "📋 **Fórmula**: 20.00 × 20.0% = 4.00" ])).
Proof.
  intros U float_pow W. split; [|split]; vm_compute; reflexivity.
Qed.

(** C3, as the code runs it. The pattern of a number admits a lone comma
    or point; on "Oi, tudo bem?" the token is "," and [float(".")] raises
    [ValueError], which nothing in the extractor catches. In [chat] the
    exception reaches the outermost handler. *)
Theorem C3_extrator_levanta :
  forall (U : unicode_db) (float_pow : float -> float -> res float) (W : collaborators),
  findall (re_monetario U) (cps "Oi, tudo bem?") = [cps ","]
  /\ extrair_valores_numericos U (cps "Oi, tudo bem?") =
       Raise (PyExn ValueError (cps "could not convert string to float: '.'"))
  /\ analise_manual U float_pow W (cps "Qual o imposto de renda, por favor?") =
       Raise (PyExn ValueError (cps "could not convert string to float: '.'")).
Proof.
  intros U float_pow W. split; [|split]; vm_compute; reflexivity.
Qed.

(** C10, as the code runs it. The tax and percentage branches test the
    fields by their truth value, and a float zero is false: a value that
    the extractor found, but that is zero, gets the clarifying prompt as
    if it were missing. The compound-interest branch tests the keys, and
    does send zeros to the calculator, which rejects them. *)
Theorem C10_zero_como_ausente :
  forall (U : unicode_db) (float_pow : float -> float -> res float) (W : collaborators),
  (forall (m : text) (valores : gmap string float) (z : float),
      extrair_valores_numericos U m = Ret valores ->
      valores !! "principal" = Some z ->
      (z =? 0)%float = true ->
      ramo_ir U m = Ret (Some msg_informe_renda))
  /\ (forall (m : text) (valores : gmap string float) (z : float),
        extrair_valores_numericos U m = Ret valores ->
        valores !! "valor" = Some z ->
        (z =? 0)%float = true ->
        ramo_porcentagem U float_pow m = Ret (Some prompt_porcentagem))
  /\ (forall (m : text) (valores : gmap string float) (a b c : float),
        extrair_valores_numericos U m = Ret valores ->
        valores !! "principal" = Some a ->
        valores !! "taxa" = Some b ->
        valores !! "periodo" = Some c ->
        ramo_compostos U float_pow m =
          Ret (Some (calculadora_financeira_geral U float_pow (cps "juros_compostos") valores)))
  /\ extrair_valores_numericos U (cps "imposto de renda de R$ 0") =
       Ret (<["valor" := 0%float]> (<["principal" := 0%float]> ∅))
  /\ analise_manual U float_pow W (cps "imposto de renda de R$ 0") =
       Ret (Some msg_informe_renda)
  /\ analise_manual U float_pow W (cps "De R$ 0 quanto seria 15% de desconto?") =
       Ret (Some prompt_porcentagem)
  /\ analise_manual U float_pow W (cps "juros compostos de R$ 0 a 10% por 5 anos") =
       Ret (Some msg_compostos_positivos).
Proof.
  intros U float_pow W. split; [|split; [|split; [|split; [|split; [|split]]]]].
  - intros m valores z He Hz Hz0. unfold ramo_ir. rewrite He. cbn [bind].
    unfold get_truthy, truthy. rewrite Hz, Hz0. reflexivity.
  - intros m valores z He Hz Hz0. unfold ramo_porcentagem. rewrite He. cbn [bind].
    unfold get_truthy, truthy. rewrite Hz, Hz0. reflexivity.
  - intros m valores a b c He Ha Hb Hc. unfold ramo_compostos. rewrite He. cbn [bind].
    cbn [forallb]. unfold has_key. rewrite Ha, Hb, Hc. reflexivity.
  - vm_compute. reflexivity.
  - vm_compute. reflexivity.
  - vm_compute. reflexivity.
  - vm_compute. reflexivity.
Qed.

Lemma C10_zero_como_ausente_witness :
  ramo_ir ascii_db (cps "imposto de renda de R$ 0,00") = Ret (Some msg_informe_renda).
Proof.
  refine (proj1 (C10_zero_como_ausente ascii_db pow_referencia sem_colaboradores)
            (cps "imposto de renda de R$ 0,00")
            (<["valor" := 0%float]> (<["principal" := 0%float]> ∅)) 0%float
            _ eq_refl eq_refl).
  vm_compute. reflexivity.
Defined.

(* ===================================================================== *)
(** * Further properties of the income-tax calculator                    *)
(* ===================================================================== *)

Module ImpostoMais.

(** The lower end of each range of the table of the other years. *)
Definition faixas_outros_anos_pisos : list (option float) :=
  [ None; Some 28000; Some 42000; Some 56000; Some 74000 ]%float.

(** A number that is not NaN: it equals itself. *)
Definition is_number (x : float) : bool := (x =? x)%float.

Lemma not_number_compare (x y : float) :
  is_number x = false ->
  (x <? y)%float = false /\ (x <=? y)%float = false.
Proof.
  unfold is_number. rewrite FloatAxioms.eqb_spec, FloatAxioms.ltb_spec, FloatAxioms.leb_spec.
  destruct (Prim2SF x) as [s|s| |s m e].
  - destruct s; discriminate.
  - destruct s; discriminate.
  - intros _. split; reflexivity.
  - unfold SFeqb, SFcompare. destruct s; rewrite Z.compare_refl, Pos.compare_cont_refl; discriminate.
Qed.

Lemma number_le_infinity (x : float) : is_number x = true -> (x <=? infinity)%float = true.
Proof.
  unfold is_number. rewrite FloatAxioms.eqb_spec, FloatAxioms.leb_spec.
  change (Prim2SF infinity) with (S754_infinity false).
  destruct (Prim2SF x) as [s|s| |s m e]; try destruct s; try discriminate; reflexivity.
Qed.

(** The loop ends without a row only when the income is above every
    limit of the table. *)
Lemma ir_loop_none rendimento ano (faixas : list faixa) :
  (forall f, In f faixas -> In f (faixas_2024 ++ faixas_outros_anos)) ->
  (ir_loop rendimento ano faixas = Ret None <->
   Forall (fun f => (rendimento <=? limite_de f)%float = false) faixas).
Proof.
  induction faixas as [|f faixas IH]; intros Hin.
  - split; [constructor|reflexivity].
  - specialize (IH (fun g Hg => Hin g (or_intror Hg))). cbn [ir_loop].
    change (fst (fst (fst f))) with (limite_de f).
    destruct (rendimento <=? limite_de f)%float eqn:E.
    + pose proof (ir_faixa_report_row rendimento ano f (Hin f (or_introl eq_refl))) as H.
      destruct f as [[[limite aliquota] deducao] nome]. cbv zeta in H. rewrite H. cbn [bind].
      split; [discriminate|]. intros HF. inversion HF as [|? ? Hf _]. congruence.
    + split.
      * intros H. constructor; [exact E|now apply IH].
      * intros HF. inversion HF. now apply IH.
Qed.

Lemma tabela_do_ano_in ano f :
  In f (if ano =? 2024 then faixas_2024 else faixas_outros_anos) ->
  In f (faixas_2024 ++ faixas_outros_anos).
Proof. intros H. apply in_or_app. destruct (ano =? 2024); [now left|now right]. Qed.

(** For an income that is a number the calculator returns a text. *)
Lemma ir_de_numero (rendimento : float) (ano : Z) :
  is_number rendimento = true -> imposto_renda_melhorado rendimento ano <> None.
Proof.
  intros En. unfold imposto_renda_melhorado.
  destruct (rendimento <? 0)%float; [discriminate|].
  set (faixas := if ano =? 2024 then faixas_2024 else faixas_outros_anos).
  destruct (ir_loop_result rendimento ano faixas (tabela_do_ano_in ano))
    as [E | (lim & a & d & n & _ & E)].
  - apply (ir_loop_none _ _ _ (tabela_do_ano_in ano)) in E.
    apply number_le_infinity in En.
    assert (Hinf : In (infinity, 0.275%float,
                       (if (ano =? 2024)%Z then 14067.51 else 14000)%float,
                       cps "27,5%") faixas).
    { subst faixas. destruct (ano =? 2024); cbn; tauto. }
    rewrite List.Forall_forall in E. specialize (E _ Hinf). unfold limite_de in E.
    cbn [fst] in E. congruence.
  - cbv zeta in E. rewrite E. discriminate.
Qed.

(** X1. The calculator ends without a [return] ([None]) exactly when
    the income is NaN; for every other income, of any sign and size, and
    for every year, it returns a text. *)
Theorem imposto_renda_none_iff_nan (rendimento : float) (ano : Z) :
  imposto_renda_melhorado rendimento ano = None <-> is_number rendimento = false.
Proof.
  split.
  - intros H. destruct (is_number rendimento) eqn:En; [|reflexivity].
    exfalso. exact (ir_de_numero rendimento ano En H).
  - intros Hn. unfold imposto_renda_melhorado.
    destruct (not_number_compare rendimento 0 Hn) as [-> _].
    set (faixas := if ano =? 2024 then faixas_2024 else faixas_outros_anos).
    assert (E : ir_loop rendimento ano faixas = Ret None).
    { apply (ir_loop_none _ _ _ (tabela_do_ano_in ano)). apply List.Forall_forall.
      intros f _. apply (not_number_compare rendimento (limite_de f) Hn). }
    rewrite E. reflexivity.
Qed.

Lemma imposto_renda_none_iff_nan_witness : imposto_renda_melhorado nan 2023 = None.
Proof. exact (proj2 (imposto_renda_none_iff_nan nan 2023) eq_refl). Defined.

(** The report for an income that a given row of the table of a year
    holds. *)
Lemma ir_table_row rendimento ano pre limite aliquota deducao nome post :
  (if ano =? 2024 then faixas_2024 else faixas_outros_anos) =
    pre ++ (limite, aliquota, deducao, nome) :: post ->
  (rendimento <? 0)%float = false ->
  Forall (fun f => (rendimento <=? limite_de f)%float = false) pre ->
  (rendimento <=? limite)%float = true ->
  imposto_renda_melhorado rendimento ano =
    Some (relatorio_ir ano rendimento aliquota deducao
            (max0 (rendimento * aliquota - deducao)) nome ++
          linha_final_ir rendimento (max0 (rendimento * aliquota - deducao))).
Proof.
  intros Htab Hneg Hpre Hlim. unfold imposto_renda_melhorado. rewrite Hneg, Htab.
  rewrite ir_loop_select; [|exact Hpre|exact Hlim].
  assert (Hin : In (limite, aliquota, deducao, nome) (faixas_2024 ++ faixas_outros_anos)).
  { apply (tabela_do_ano_in ano). rewrite Htab. apply in_or_app. right. now left. }
  pose proof (ir_faixa_report_row rendimento ano _ Hin) as H. cbv zeta in H.
  rewrite H. reflexivity.
Qed.

Ltac floor_rows_outros H :=
  match goal with
  | |- Forall ?P ?l =>
      let l' := eval cbv [firstn faixas_outros_anos] in l in change (Forall P l')
  end;
  repeat (apply List.Forall_cons; [apply (above_floor _ _ _ H); vm_compute; reflexivity|]);
  apply List.Forall_nil.

(** X2. For every year other than 2024 the calculator uses the rounded
    table (limits 28000, 42000, 56000, 74000): a non-negative income
    strictly inside one of its ranges gets the report of that row, with
    tax [max(0, income*rate - deduction)], closed by the effective-rate
    line when tax is due and by the exemption marker otherwise. *)
Theorem imposto_renda_outros_anos
  (ano : Z) (rendimento : float) (i : nat) piso limite aliquota deducao nome :
  ano <> 2024 ->
  nth_error faixas_outros_anos_pisos i = Some piso ->
  nth_error faixas_outros_anos i = Some (limite, aliquota, deducao, nome) ->
  dentro_da_faixa piso limite rendimento ->
  imposto_renda_melhorado rendimento ano =
    Some (relatorio_ir ano rendimento aliquota deducao
            (max0 (rendimento * aliquota - deducao)) nome ++
          linha_final_ir rendimento (max0 (rendimento * aliquota - deducao))).
Proof.
  intros Hano Hpiso Hrow [Hlo Hhi].
  assert (Htab : (if ano =? 2024 then faixas_2024 else faixas_outros_anos) = faixas_outros_anos).
  { destruct (Z.eqb_spec ano 2024); [contradiction|reflexivity]. }
  destruct i as [|[|[|[|[|i]]]]]; simpl in Hpiso, Hrow;
    [ | | | | | destruct i; discriminate ];
    injection Hpiso as <-; injection Hrow as <- <- <- <-.
  - apply (ir_table_row rendimento ano [] _ _ _ _ _ Htab).
    + now apply leb_not_ltb.
    + constructor.
    + now apply ltb_leb.
  - apply (ir_table_row rendimento ano (firstn 1 faixas_outros_anos) _ _ _ _ _ Htab).
    + refine (above_floor_nonneg _ _ _ Hlo); vm_compute; reflexivity.
    + floor_rows_outros Hlo.
    + now apply ltb_leb.
  - apply (ir_table_row rendimento ano (firstn 2 faixas_outros_anos) _ _ _ _ _ Htab).
    + refine (above_floor_nonneg _ _ _ Hlo); vm_compute; reflexivity.
    + floor_rows_outros Hlo.
    + now apply ltb_leb.
  - apply (ir_table_row rendimento ano (firstn 3 faixas_outros_anos) _ _ _ _ _ Htab).
    + refine (above_floor_nonneg _ _ _ Hlo); vm_compute; reflexivity.
    + floor_rows_outros Hlo.
    + now apply ltb_leb.
  - apply (ir_table_row rendimento ano (firstn 4 faixas_outros_anos) _ _ _ _ _ Htab).
    + refine (above_floor_nonneg _ _ _ Hlo); vm_compute; reflexivity.
    + floor_rows_outros Hlo.
    + now apply ltb_leb.
Qed.

Lemma imposto_renda_outros_anos_witness :
  imposto_renda_melhorado 50000 2023 =
    Some (relatorio_ir 2023 50000 0.15 5300 (max0 (50000 * 0.15 - 5300)) (cps "15%") ++
          linha_final_ir 50000 (max0 (50000 * 0.15 - 5300))).
Proof.
  refine (imposto_renda_outros_anos 2023 50000%float 2%nat (Some 42000%float)
            56000%float 0.15%float 5300%float (cps "15%") _ eq_refl eq_refl (conj eq_refl eq_refl)).
  discriminate.
Defined.

Lemma SFleb_ltb_trans a b c : SFleb a b = true -> SFltb b c = true -> SFltb a c = true.
Proof. sf_cases. Qed.

Lemma leb_ltb_trans (a b c : float) :
  (a <=? b)%float = true -> (b <? c)%float = true -> (a <? c)%float = true.
Proof. rewrite FloatAxioms.leb_spec, !FloatAxioms.ltb_spec. apply SFleb_ltb_trans. Qed.

(** Subtracting zero changes nothing, not even the sign of a zero. *)
Lemma sub_zero (x : float) : (x - 0)%float = x.
Proof.
  apply Prim2SF_inj. rewrite FloatAxioms.sub_spec.
  change (Prim2SF 0) with (S754_zero false). unfold SF64sub.
  destruct (Prim2SF x) as [s|s| |s m e]; try destruct s; reflexivity.
Qed.

(** At rate zero with no deduction a finite, non-negative income owes
    exactly zero. *)
Lemma rate_zero_owes_zero (x : float) :
  (0 <=? x)%float = true -> (x <? infinity)%float = true ->
  max0 (x * 0 - 0) = 0%float.
Proof.
  intros H0 Hfin. unfold max0.
  assert (E : (0 <? x * 0 - 0)%float = false); [|now rewrite E].
  revert H0 Hfin.
  rewrite FloatAxioms.leb_spec, !FloatAxioms.ltb_spec, FloatAxioms.sub_spec, FloatAxioms.mul_spec.
  change (Prim2SF 0) with (S754_zero false).
  change (Prim2SF infinity) with (S754_infinity false).
  unfold SF64sub, SF64mul.
  destruct (Prim2SF x) as [s|s| |s m e]; try destruct s; try discriminate; reflexivity.
Qed.

(** X3. The first range of either table is exempt, its upper limit
    included: for a non-negative income up to 28559.70 in 2024, or up to
    28000 in another year, the report shows the row "Isento", a tax of
    0.00, a net income equal to the income, and the exemption marker. *)
Theorem imposto_renda_primeira_faixa_isenta (rendimento : float) (ano : Z) :
  (0 <=? rendimento)%float = true ->
  (rendimento <=? (if (ano =? 2024)%Z then 28559.70 else 28000))%float = true ->
  imposto_renda_melhorado rendimento ano =
    Some (join_nl
      [ cps "🧮 **CÁLCULO DO IMPOSTO DE RENDA " ++ Z_to_text ano ++ cps "**";
        repeat 61%N 45;
        cps "💰 **Rendimento Bruto**: R$ " ++ format_f true 2 rendimento;
        cps "📊 **Faixa**: Isento";
        cps "📈 **Alíquota**: 0.0%";
        cps "➖ **Dedução**: R$ 0.00";
        cps "💸 **Imposto Devido**: R$ 0.00";
        cps "💵 **Renda Líquida**: R$ " ++ format_f true 2 rendimento;
        repeat 61%N 45;
        repeat 32%N 20;
        cps "✅ **ISENTO DE IMPOSTO DE RENDA!**" ]).
Proof.
  intros H0 Hlim.
  assert (Hfin : (rendimento <? infinity)%float = true).
  { apply (leb_ltb_trans _ _ _ Hlim). destruct (ano =? 2024); vm_compute; reflexivity. }
  pose proof (rate_zero_owes_zero rendimento H0 Hfin) as Hz.
  rewrite (ir_table_row rendimento ano []
             (if (ano =? 2024)%Z then 28559.70 else 28000)%float 0%float 0%float (cps "Isento")
             (List.tl (if ano =? 2024 then faixas_2024 else faixas_outros_anos))).
  - rewrite Hz. unfold linha_final_ir, relatorio_ir, ir_lines.
    replace (0 <? 0)%float with false by (vm_compute; reflexivity).
    rewrite sub_zero.
    replace (format_f false 1 (0 * 100)) with (cps "0.0") by (vm_compute; reflexivity).
    replace (format_f true 2 0) with (cps "0.00") by (vm_compute; reflexivity).
    unfold linha_isento. cbn [join_nl]. rewrite <- !app_assoc. reflexivity.
  - destruct (ano =? 2024); reflexivity.
  - now apply leb_not_ltb.
  - constructor.
  - exact Hlim.
Qed.

Lemma imposto_renda_primeira_faixa_isenta_witness :
  imposto_renda_melhorado 28559.70 2024 =
    Some (join_nl
      [ cps "🧮 **CÁLCULO DO IMPOSTO DE RENDA " ++ Z_to_text 2024 ++ cps "**";
        repeat 61%N 45;
        cps "💰 **Rendimento Bruto**: R$ " ++ format_f true 2 28559.70;
        cps "📊 **Faixa**: Isento";
        cps "📈 **Alíquota**: 0.0%";
        cps "➖ **Dedução**: R$ 0.00";
        cps "💸 **Imposto Devido**: R$ 0.00";
        cps "💵 **Renda Líquida**: R$ " ++ format_f true 2 28559.70;
        repeat 61%N 45;
        repeat 32%N 20;
        cps "✅ **ISENTO DE IMPOSTO DE RENDA!**" ]).
Proof.
  exact (imposto_renda_primeira_faixa_isenta 28559.70%float 2024 eq_refl eq_refl).
Defined.

End ImpostoMais.
Export ImpostoMais.

(* ===================================================================== *)
(** * Properties of the patterns and of the extractor                    *)
(* ===================================================================== *)

Module ExtratorFacts.

(** What a successful match hands to its continuation: a suffix of the
    text, and the same group when the pattern captures nothing. *)
Definition steps (keep : bool) (s : text) (g : option text) (s1 : text) (g1 : option text) : Prop :=
  (exists pre, s = pre ++ s1) /\ (keep = true -> g1 = g).

Lemma steps_refl keep s g : steps keep s g s g.
Proof. split; [exists []; reflexivity|reflexivity]. Qed.

Lemma steps_trans k1 k2 s g s1 g1 s2 g2 :
  steps k1 s g s1 g1 -> steps k2 s1 g1 s2 g2 -> steps (k1 && k2) s g s2 g2.
Proof.
  intros [[p1 ->] H1] [[p2 ->] H2]. split.
  - exists (p1 ++ p2). now rewrite app_assoc.
  - intros H. apply andb_prop in H. destruct H as [Ha Hb].
    rewrite (H2 Hb). exact (H1 Ha).
Qed.

Lemma steps_weaken k1 k2 s g s1 g1 :
  (k2 = true -> k1 = true) -> steps k1 s g s1 g1 -> steps k2 s g s1 g1.
Proof. intros Hk [Hp Hg]. split; [exact Hp|auto]. Qed.

Section Soundness.
Context {A : Type}.

Definition sound (keep : bool) (m : @matcher A) : Prop :=
  forall s g k a, m s g k = Some a ->
    exists s1 g1, k s1 g1 = Some a /\ steps keep s g s1 g1.

Lemma star_sound keep (m : @matcher A) :
  sound keep m -> forall fuel, sound keep (star m fuel).
Proof.
  intros Hm fuel. induction fuel as [|fuel IH]; intros s g k a H; cbn [star] in H.
  - exists s, g. split; [exact H|apply steps_refl].
  - destruct (m s g _) as [a'|] eqn:E.
    + injection H as ->. apply Hm in E. destruct E as (s1 & g1 & E & Hst).
      destruct (length s1 <? length s)%nat; [|discriminate].
      apply IH in E. destruct E as (s2 & g2 & E & Hst2).
      exists s2, g2. split; [exact E|].
      apply (steps_weaken (keep && keep)); [intros ->; reflexivity|].
      exact (steps_trans _ _ _ _ _ _ _ _ Hst Hst2).
    + exists s, g. split; [exact H|apply steps_refl].
Qed.

Lemma rmatch_sound (r : regex) : sound (negb (has_group r)) (rmatch r).
Proof.
  induction r as [p|r1 IH1 r2 IH2|r1 IH1 r2 IH2|r1 IH1|r1 IH1|r1 IH1|r1 IH1];
    intros s g k a H; cbn [rmatch has_group] in *.
  - destruct s as [|c s']; [discriminate|]. destruct (p c); [|discriminate].
    exists s', g. split; [exact H|]. split; [exists [c]; reflexivity|reflexivity].
  - apply IH1 in H. destruct H as (s1 & g1 & H & Hst1).
    apply IH2 in H. destruct H as (s2 & g2 & H & Hst2).
    exists s2, g2. split; [exact H|].
    rewrite negb_orb. exact (steps_trans _ _ _ _ _ _ _ _ Hst1 Hst2).
  - rewrite negb_orb. destruct (rmatch r1 s g k) as [a'|] eqn:E.
    + injection H as ->. apply IH1 in E. destruct E as (s1 & g1 & E & Hst).
      exists s1, g1. split; [exact E|].
      apply (steps_weaken (negb (has_group r1))); [|exact Hst].
      intros Hk. apply andb_prop in Hk. tauto.
    + apply IH2 in H. destruct H as (s1 & g1 & E' & Hst).
      exists s1, g1. split; [exact E'|].
      apply (steps_weaken (negb (has_group r2))); [|exact Hst].
      intros Hk. apply andb_prop in Hk. tauto.
  - destruct (rmatch r1 s g k) as [a'|] eqn:E.
    + injection H as ->. exact (IH1 _ _ _ _ E).
    + exists s, g. split; [exact H|apply steps_refl].
  - exact (star_sound _ _ IH1 _ _ _ _ _ H).
  - apply IH1 in H. destruct H as (s1 & g1 & H & Hst1).
    apply (star_sound _ _ IH1) in H. destruct H as (s2 & g2 & H & Hst2).
    exists s2, g2. split; [exact H|].
    apply (steps_weaken (negb (has_group r1) && negb (has_group r1)));
      [intros ->; reflexivity|].
    exact (steps_trans _ _ _ _ _ _ _ _ Hst1 Hst2).
  - apply IH1 in H. destruct H as (s1 & g1 & H & [Hpre _]).
    eexists s1, _. split; [exact H|]. split; [exact Hpre|discriminate].
Qed.

Lemma rmatch_char (p : N -> bool) s g (k : text -> option text -> option A) :
  rmatch (RChar p) s g k =
    match s with
    | c :: s' => if p c then k s' g else None
    | [] => None
    end.
Proof. reflexivity. Qed.

Lemma rmatch_seq (r1 r2 : regex) s g (k : text -> option text -> option A) :
  rmatch (RSeq r1 r2) s g k = rmatch r1 s g (fun s1 g1 => rmatch r2 s1 g1 k).
Proof. reflexivity. Qed.

Lemma star_step (m : @matcher A) fuel s g k :
  star m (S fuel) s g k =
    match m s g (fun s1 g1 =>
                   if (length s1 <? length s)%nat then star m fuel s1 g1 k else None) with
    | Some a => Some a
    | None => k s g
    end.
Proof. reflexivity. Qed.

(** A run of one class, as [p*] takes it. *)
Lemma star_class_inv (p : N -> bool) : forall fuel s g (k : text -> option text -> option A) a,
  star (rmatch (RChar p)) fuel s g k = Some a ->
  exists run rest, s = run ++ rest /\ forallb p run = true /\ k rest g = Some a.
Proof.
  induction fuel as [|fuel IH]; intros s g k a H.
  - exists [], s. auto.
  - rewrite star_step, rmatch_char in H. destruct s as [|c s'].
    + exists [], []. auto.
    + destruct (p c) eqn:Ep.
      * assert (Hl : (length s' <? length (c :: s'))%nat = true)
          by (apply Nat.ltb_lt; cbn [length]; lia).
        rewrite Hl in H.
        destruct (star (rmatch (RChar p)) fuel s' g k) as [a'|] eqn:E.
        -- injection H as ->. apply IH in E. destruct E as (run & rest & -> & Hrun & E).
           exists (c :: run), rest. cbn. rewrite Ep, Hrun. auto.
        -- exists [], (c :: s'). auto.
      * exists [], (c :: s'). auto.
Qed.

(** The group [(p+)] captures a non-empty run of the class. *)
Lemma group_plus_class_inv (p : N -> bool) s g (k : text -> option text -> option A) a :
  rmatch (RGroup (RPlus (RChar p))) s g k = Some a ->
  exists c run rest,
    s = c :: run ++ rest /\ p c = true /\ forallb p run = true /\
    k rest (Some (c :: run)) = Some a.
Proof.
  cbn [rmatch]. destruct s as [|c s']; [discriminate|].
  destruct (p c) eqn:Ep; [|discriminate]. intros H.
  apply star_class_inv in H. destruct H as (run & rest & -> & Hrun & H).
  exists c, run, rest. split; [reflexivity|]. split; [exact Ep|]. split; [exact Hrun|].
  replace (length (c :: run ++ rest) - length rest)%nat with (length (c :: run)) in H
    by (cbn [length]; rewrite length_app; lia).
  change (c :: run ++ rest) with ((c :: run) ++ rest) in H.
  rewrite firstn_app, Nat.sub_diag, firstn_all in H. cbn [firstn] in H.
  rewrite app_nil_r in H. exact H.
Qed.

End Soundness.

(** Every item of [findall] comes from a match at some place of the
    text. *)
Lemma findall_from_in r grouped fuel : forall s t,
  In t (findall_from r grouped fuel s) ->
  exists s0 s1 g,
    match_here r s0 = Some (s1, g) /\
    t = match_item grouped (firstn (length s0 - length s1) s0) g /\
    exists pre, s = pre ++ s0.
Proof.
  induction fuel as [|fuel IH]; intros s t H; cbn [findall_from] in H; [contradiction|].
  assert (Htail : forall c s', s = c :: s' -> In t (findall_from r grouped fuel s') ->
            exists s0 s1 g, match_here r s0 = Some (s1, g) /\
              t = match_item grouped (firstn (length s0 - length s1) s0) g /\
              exists pre, s = pre ++ s0).
  { intros c s' -> Hin. destruct (IH _ _ Hin) as (s0 & s1 & g & Hm & Ht & pre & ->).
    exists s0, s1, g. split; [exact Hm|]. split; [exact Ht|]. exists (c :: pre). reflexivity. }
  destruct (match_here r s) as [[s' g]|] eqn:E.
  - destruct H as [<- | H].
    + exists s, s', g. split; [exact E|]. split; [reflexivity|]. exists []. reflexivity.
    + destruct (firstn (length s - length s') s) as [|w ws] eqn:Ew.
      * destruct s as [|c s0]; [contradiction|]. exact (Htail c s0 eq_refl H).
      * destruct (IH _ _ H) as (s0 & s1 & g0 & Hm & Ht & pre & Hs).
        exists s0, s1, g0. split; [exact Hm|]. split; [exact Ht|].
        unfold match_here in E. apply (rmatch_sound r) in E.
        destruct E as (s2 & g2 & [= -> ->] & [[pre' ->] _]).
        exists (pre' ++ pre). rewrite Hs. now rewrite app_assoc.
  - destruct s as [|c s0]; [contradiction|]. exact (Htail c s0 eq_refl H).
Qed.

Section Patterns.
Variable U : unicode_db.

(** One match of the monetary pattern: an optional prefix, then the
    group, a non-empty run of digits, points and commas. *)
Lemma re_monetario_match s s' g :
  match_here (re_monetario U) s = Some (s', g) ->
  exists pre c run,
    s = pre ++ c :: run ++ s' /\ g = Some (c :: run) /\
    digit_dot_comma U c = true /\ forallb (digit_dot_comma U) run = true.
Proof.
  unfold match_here, re_monetario. intros H.
  rewrite rmatch_seq in H.
  apply (rmatch_sound (ROpt (rlit (ch "R")))) in H. destruct H as (s1 & g1 & H & [[p1 ->] _]).
  rewrite rmatch_seq in H.
  apply (rmatch_sound (ROpt (rlit (ch "$")))) in H. destruct H as (s2 & g2 & H & [[p2 ->] _]).
  rewrite rmatch_seq in H.
  apply (rmatch_sound (RStar (RChar is_space))) in H. destruct H as (s3 & g3 & H & [[p3 ->] _]).
  apply group_plus_class_inv in H. destruct H as (c & run & rest & -> & Hc & Hrun & [= -> <-]).
  exists (p1 ++ p2 ++ p3), c, run. rewrite <- !app_assoc. auto.
Qed.

(** One match of the percentage pattern. *)
Lemma re_percentual_match s s' g :
  match_here (re_percentual U) s = Some (s', g) ->
  exists c run rest,
    s = c :: run ++ rest /\ g = Some (c :: run) /\
    digit_dot_comma U c = true /\ forallb (digit_dot_comma U) run = true.
Proof.
  unfold match_here, re_percentual. intros H.
  rewrite rmatch_seq in H. apply group_plus_class_inv in H.
  destruct H as (c & run & rest & -> & Hc & Hrun & H).
  apply (rmatch_sound (RSeq (RStar (RChar is_space)) (rlit (ch "%")))) in H.
  destruct H as (s2 & g2 & [= -> ->] & [_ Hg]).
  exists c, run, rest. rewrite (Hg eq_refl). auto.
Qed.

(** One match of the period pattern: the group is a run of digits. *)
Lemma re_periodo_match s s' g :
  match_here (re_periodo U) s = Some (s', g) ->
  exists c run rest,
    s = c :: run ++ rest /\ g = Some (c :: run) /\
    is_decimal U c = true /\ forallb (is_decimal U) run = true.
Proof.
  unfold match_here, re_periodo. intros H.
  rewrite rmatch_seq in H. apply group_plus_class_inv in H.
  destruct H as (c & run & rest & -> & Hc & Hrun & H).
  match type of H with
  | rmatch ?tail _ _ _ = _ =>
      apply (rmatch_sound tail) in H;
      replace (negb (has_group tail)) with true in H by (vm_compute; reflexivity)
  end.
  destruct H as (s2 & g2 & [= -> ->] & [_ Hg]).
  exists c, run, rest. rewrite (Hg eq_refl). auto.
Qed.

End Patterns.

End ExtratorFacts.
Export ExtratorFacts.

(* ===================================================================== *)
(** * More on the extractor                                              *)
(* ===================================================================== *)

Module ExtratorMais.

(** [t] is a contiguous part of [texto]. *)
Definition parte_de (t texto : text) : Prop := exists pre post, texto = pre ++ t ++ post.

(** No character of the text is a digit, a point or a comma. *)
Definition sem_numeros (U : unicode_db) (texto : text) : bool :=
  forallb (fun c => negb (digit_dot_comma U c)) texto.

(** The string the extractor hands to [float] for a monetary token. *)
Definition limpar_monetario (t : text) : text :=
  replace_char (ch ",") (cps ".") (replace_char (ch ".") [] t).

(** The string the extractor hands to [float] for a percentage token. *)
Definition limpar_percentual (t : text) : text :=
  replace_char (ch ",") (cps ".") t.

(** The keys the extractor can set. *)
Definition chaves_do_extrator : list string :=
  ["principal"; "valor"; "taxa"; "percentual"; "periodo"]%string.

Section Tokens.
Variable U : unicode_db.

Lemma findall_monetario_token texto t :
  In t (findall (re_monetario U) texto) ->
  t <> [] /\ forallb (digit_dot_comma U) t = true /\ parte_de t texto.
Proof.
  unfold findall. intros H. apply findall_from_in in H.
  destruct H as (s0 & s1 & g & Hm & Ht & pre & ->).
  apply re_monetario_match in Hm. destruct Hm as (p & c & run & -> & -> & Hc & Hrun).
  change (has_group (re_monetario U)) with true in Ht. cbn [match_item] in Ht. subst t.
  split; [discriminate|]. split; [cbn [forallb]; now rewrite Hc, Hrun|].
  exists (pre ++ p), s1. rewrite <- !app_assoc. reflexivity.
Qed.

Lemma findall_percentual_token texto t :
  In t (findall (re_percentual U) texto) ->
  t <> [] /\ forallb (digit_dot_comma U) t = true /\ parte_de t texto.
Proof.
  unfold findall. intros H. apply findall_from_in in H.
  destruct H as (s0 & s1 & g & Hm & Ht & pre & ->).
  apply re_percentual_match in Hm. destruct Hm as (c & run & rest & -> & -> & Hc & Hrun).
  change (has_group (re_percentual U)) with true in Ht. cbn [match_item] in Ht. subst t.
  split; [discriminate|]. split; [cbn [forallb]; now rewrite Hc, Hrun|].
  exists pre, rest. reflexivity.
Qed.

Lemma findall_periodo_token texto t :
  In t (findall (re_periodo U) texto) ->
  t <> [] /\ forallb (is_decimal U) t = true /\ parte_de t texto.
Proof.
  unfold findall. intros H. apply findall_from_in in H.
  destruct H as (s0 & s1 & g & Hm & Ht & pre & ->).
  apply re_periodo_match in Hm. destruct Hm as (c & run & rest & -> & -> & Hc & Hrun).
  replace (has_group (re_periodo U)) with true in Ht by reflexivity.
  cbn [match_item] in Ht. subst t.
  split; [discriminate|]. split; [cbn [forallb]; now rewrite Hc, Hrun|].
  exists pre, rest. reflexivity.
Qed.

Lemma sem_numeros_parte t texto (p : N -> bool) :
  (forall c, p c = true -> digit_dot_comma U c = true) ->
  sem_numeros U texto = true -> t <> [] -> forallb p t = true -> parte_de t texto -> False.
Proof.
  intros Hp Hs Hne Ht (pre & post & ->). destruct t as [|c t']; [congruence|].
  unfold sem_numeros in Hs. rewrite forallb_app in Hs. cbn [app forallb] in Hs, Ht.
  apply andb_prop in Hs. destruct Hs as [_ Hs]. apply andb_prop in Hs. destruct Hs as [Hs _].
  apply andb_prop in Ht. destruct Ht as [Ht _]. rewrite (Hp _ Ht) in Hs. discriminate.
Qed.

Lemma sem_numeros_findall texto :
  sem_numeros U texto = true ->
  findall (re_monetario U) texto = [] /\
  findall (re_percentual U) texto = [] /\
  findall (re_periodo U) texto = [].
Proof.
  intros Hs. split; [|split].
  - destruct (findall (re_monetario U) texto) as [|t ts] eqn:E; [reflexivity|exfalso].
    destruct (findall_monetario_token texto t) as (Hne & Ht & Hp); [rewrite E; now left|].
    exact (sem_numeros_parte t texto _ (fun c H => H) Hs Hne Ht Hp).
  - destruct (findall (re_percentual U) texto) as [|t ts] eqn:E; [reflexivity|exfalso].
    destruct (findall_percentual_token texto t) as (Hne & Ht & Hp); [rewrite E; now left|].
    exact (sem_numeros_parte t texto _ (fun c H => H) Hs Hne Ht Hp).
  - destruct (findall (re_periodo U) texto) as [|t ts] eqn:E; [reflexivity|exfalso].
    destruct (findall_periodo_token texto t) as (Hne & Ht & Hp); [rewrite E; now left|].
    refine (sem_numeros_parte t texto _ _ Hs Hne Ht Hp).
    intros c Hc. unfold digit_dot_comma. now rewrite Hc.
Qed.

End Tokens.

(** X4. Extractor, lines 410-431: every token that the three patterns list
    (monetary value, percentage, period) is a non-empty run of digits,
    points and commas, cut out of the text. *)
Theorem extrator_tokens (U : unicode_db) (texto t : text) :
  In t (findall (re_monetario U) texto ++ findall (re_percentual U) texto ++
        findall (re_periodo U) texto) ->
  t <> [] /\ forallb (digit_dot_comma U) t = true /\ parte_de t texto.
Proof.
  intros H. apply in_app_or in H. destruct H as [H|H];
    [exact (findall_monetario_token U texto t H)|].
  apply in_app_or in H. destruct H as [H|H];
    [exact (findall_percentual_token U texto t H)|].
  destruct (findall_periodo_token U texto t H) as (Hne & Ht & Hp).
  split; [exact Hne|]. split; [|exact Hp].
  apply forallb_forall. intros c Hc. unfold digit_dot_comma.
  rewrite forallb_forall in Ht. now rewrite (Ht c Hc).
Qed.

Lemma extrator_tokens_witness :
  cps "5.000" <> [] /\ forallb (digit_dot_comma ascii_db) (cps "5.000") = true /\
  parte_de (cps "5.000") (cps "R$ 5.000 a 10% por 2 anos").
Proof.
  apply (extrator_tokens ascii_db (cps "R$ 5.000 a 10% por 2 anos") (cps "5.000")).
  vm_compute. left. reflexivity.
Defined.

(** X5. Extractor, lines 410-431: a text with no digit, point or comma
    gives the empty mapping: no pattern matches and nothing is raised. *)
Theorem extrator_sem_numeros (U : unicode_db) (texto : text) :
  sem_numeros U texto = true -> extrair_valores_numericos U texto = Ret ∅.
Proof.
  intros Hs. destruct (sem_numeros_findall U texto Hs) as (H1 & H2 & H3).
  unfold extrair_valores_numericos. rewrite H1, H2, H3. reflexivity.
Qed.

Lemma extrator_sem_numeros_witness :
  extrair_valores_numericos ascii_db (cps "quanto devo pagar?") = Ret ∅.
Proof. apply (extrator_sem_numeros ascii_db). vm_compute. reflexivity. Defined.

(** X6. Extractor, lines 410-431: in every mapping the extractor returns,
    ['valor'] is ['principal'] and ['percentual'] is ['taxa']; each of
    ['principal'], ['taxa'], ['periodo'] is set exactly when its pattern
    matched somewhere; no other key is set. *)
Theorem extrator_apelidos (U : unicode_db) (texto : text) (valores : gmap string float) :
  extrair_valores_numericos U texto = Ret valores ->
  valores !! "valor"%string = valores !! "principal"%string /\
  valores !! "percentual"%string = valores !! "taxa"%string /\
  (is_Some (valores !! "principal"%string) <-> findall (re_monetario U) texto <> []) /\
  (is_Some (valores !! "taxa"%string) <-> findall (re_percentual U) texto <> []) /\
  (is_Some (valores !! "periodo"%string) <-> findall (re_periodo U) texto <> []) /\
  (forall k, is_Some (valores !! k) -> In k chaves_do_extrator).
Proof.
  unfold extrair_valores_numericos.
  destruct (findall (re_monetario U) texto) as [|t1 ts1];
  destruct (findall (re_percentual U) texto) as [|t2 ts2];
  destruct (findall (re_periodo U) texto) as [|t3 ts3];
  cbn [bind];
  repeat match goal with
  | |- context [py_float U ?x] => destruct (py_float U x); cbn [bind]
  end; intros [= <-].
  all: try discriminate.
  all: repeat split.
  all: try (intros; congruence).
  all: try (intros [x Hx]; vm_compute in Hx; discriminate).
  all: try (intros _; vm_compute; eauto).
  all: try (vm_compute; reflexivity).
  all: intros k Hk;
    repeat (apply lookup_insert_is_Some in Hk; destruct Hk as [<-|[_ Hk]]; [cbn; tauto|]);
    apply lookup_empty_is_Some in Hk; contradiction.
Qed.

(** What the extractor reads in "R$ 5.000 a 10% por 2 anos". *)
Definition valores_exemplo : gmap string float :=
  <["periodo"%string := 2%float]>
    (<["percentual"%string := 10%float]> (<["taxa"%string := 10%float]>
      (<["valor"%string := 5000%float]> (<["principal"%string := 5000%float]> ∅)))).

Lemma extrator_apelidos_witness :
  valores_exemplo !! "valor"%string = valores_exemplo !! "principal"%string /\
  valores_exemplo !! "percentual"%string = valores_exemplo !! "taxa"%string /\
  (is_Some (valores_exemplo !! "principal"%string) <->
     findall (re_monetario ascii_db) (cps "R$ 5.000 a 10% por 2 anos") <> []) /\
  (is_Some (valores_exemplo !! "taxa"%string) <->
     findall (re_percentual ascii_db) (cps "R$ 5.000 a 10% por 2 anos") <> []) /\
  (is_Some (valores_exemplo !! "periodo"%string) <->
     findall (re_periodo ascii_db) (cps "R$ 5.000 a 10% por 2 anos") <> []) /\
  (forall k, is_Some (valores_exemplo !! k) -> In k chaves_do_extrator).
Proof.
  apply (extrator_apelidos ascii_db (cps "R$ 5.000 a 10% por 2 anos")).
  vm_compute. reflexivity.
Defined.

Section Periodo.
Variable U : unicode_db.

(** A decimal digit is an ASCII digit or lies beyond ASCII: none of the
    characters that [float] reads as a sign, a point or a letter. *)
Lemma is_decimal_cases c :
  is_decimal U c = true -> (48 <= c <= 57)%N \/ (128 <= c)%N.
Proof.
  unfold is_decimal, decimal_value, is_ascii, ascii_digit.
  destruct (c <? 128)%N eqn:E.
  - destruct ((48 <=? c) && (c <=? 57))%N eqn:E2; [|discriminate]. intros _. left.
    apply andb_prop in E2. destruct E2 as [H1 H2].
    apply N.leb_le in H1. apply N.leb_le in H2. lia.
  - intros _. right. apply N.ltb_ge in E. exact E.
Qed.

(** No decimal digit of the character database is white space. *)
Definition decimal_sem_espaco : Prop :=
  forall c, is_decimal U c = true -> is_space c = false.

Hypothesis Hsp : decimal_sem_espaco.

Lemma decimal_not_float_space c : is_decimal U c = true -> float_space c = false.
Proof.
  intros H. pose proof (Hsp c H) as Hs. apply is_decimal_cases in H.
  unfold float_space. rewrite Hs, andb_false_r, orb_false_r.
  destruct H as [H|H].
  - replace (c <=? 13)%N with false by (symmetry; apply N.leb_gt; lia).
    replace (c =? 32)%N with false by (symmetry; apply N.eqb_neq; lia).
    now rewrite andb_false_r.
  - replace (c <=? 13)%N with false by (symmetry; apply N.leb_gt; lia).
    replace (c =? 32)%N with false by (symmetry; apply N.eqb_neq; lia).
    now rewrite andb_false_r.
Qed.

Lemma float_lstrip_decimal s :
  match s with c :: _ => is_decimal U c = true | [] => True end -> float_lstrip s = s.
Proof.
  destruct s as [|c s']; [reflexivity|]. intros H. cbn [float_lstrip].
  now rewrite (decimal_not_float_space c H).
Qed.

Lemma float_strip_decimal s : forallb (is_decimal U) s = true -> float_strip s = s.
Proof.
  intros H. unfold float_strip. rewrite (float_lstrip_decimal s).
  - rewrite float_lstrip_decimal; [apply rev_involutive|].
    destruct (rev s) as [|c r] eqn:E; [exact I|].
    rewrite forallb_forall in H. apply H. apply in_rev. rewrite E. now left.
  - destruct s as [|c s']; [exact I|]. cbn [forallb] in H. now apply andb_prop in H.
Qed.

Lemma digit_run_decimal : forall s acc,
  forallb (is_decimal U) s = true -> exists r, digit_run U s acc = (r, []).
Proof.
  induction s as [|c s IH]; intros acc H; cbn [digit_run].
  - now exists acc.
  - cbn [forallb] in H. apply andb_prop in H. destruct H as [Hc Hs].
    unfold is_decimal in Hc. destruct (decimal_value U c) as [d|]; [|discriminate].
    exact (IH _ Hs).
Qed.

Lemma py_float_decimal c run :
  forallb (is_decimal U) (c :: run) = true ->
  exists ds, py_float U (c :: run) = Ret (round_decimal false (digits_value ds) 0).
Proof.
  intros H. unfold py_float. rewrite (float_strip_decimal _ H).
  pose proof H as H'. cbn [forallb] in H'. apply andb_prop in H'. destruct H' as [Hc _].
  pose proof (is_decimal_cases c Hc) as Hcase.
  assert (Hsign : take_sign (c :: run) = (false, c :: run)).
  { unfold take_sign. destruct c as [|p]; [lia|].
    do 8 (destruct p as [p|p|]; try reflexivity; try lia). }
  rewrite Hsign. unfold abs_float_value.
  assert (Hlow : ascii_lower c = c).
  { unfold ascii_lower. destruct Hcase as [Hr|Hr].
    - replace (65 <=? c)%N with false by (symmetry; apply N.leb_gt; lia). reflexivity.
    - replace (c <=? 90)%N with false by (symmetry; apply N.leb_gt; lia).
      now rewrite andb_false_r. }
  cbn [map]. rewrite Hlow. unfold text_eqb.
  rewrite !bool_decide_eq_false_2.
  2-4: intros [= Hx _]; vm_compute in Hx; lia.
  cbn [orb].
  unfold number, digitpart. rewrite Hc.
  destruct (digit_run_decimal (c :: run) [] H) as [r Hr]. rewrite Hr.
  cbn [exponent]. exists (rev r). rewrite app_nil_r. reflexivity.
Qed.

Lemma py_float_raise s e : py_float U s = Raise e -> e = float_error s.
Proof.
  unfold py_float. destruct (take_sign (float_strip s)) as [neg body].
  destruct (abs_float_value U neg body); [discriminate|]. now intros [= <-].
Qed.

Ltac periodo_nao_levanta texto :=
  let t3 := fresh "t" in let ts3 := fresh "ts" in let E3 := fresh "E" in
  let Hne := fresh "Hne" in let Ht := fresh "Ht" in
  let c := fresh "c" in let run := fresh "run" in let ds := fresh "ds" in
  destruct (findall (re_periodo U) texto) as [|t3 ts3] eqn:E3; [discriminate|];
  destruct (findall_periodo_token U texto t3) as (Hne & Ht & _); [rewrite E3; now left|];
  destruct t3 as [|c run]; [congruence|];
  destruct (py_float_decimal c run Ht) as [ds ->]; discriminate.

(** An exception of the extractor is the one of [float] for the first
    monetary token or for the first percentage token; the period, a run
    of digits, always converts. *)
Lemma extrator_levanta (texto : text) (e : pyexn) :
  extrair_valores_numericos U texto = Raise e ->
  (exists t ts, findall (re_monetario U) texto = t :: ts /\
                e = float_error (limpar_monetario t)) \/
  (exists t ts, findall (re_percentual U) texto = t :: ts /\
                e = float_error (limpar_percentual t)).
Proof.
  unfold extrair_valores_numericos, limpar_monetario, limpar_percentual.
  destruct (findall (re_monetario U) texto) as [|t1 ts1] eqn:E1.
  - cbn [bind].
    destruct (findall (re_percentual U) texto) as [|t2 ts2] eqn:E2.
    + cbn [bind]. periodo_nao_levanta texto.
    + destruct (py_float U (replace_char (ch ",") (cps ".") t2)) as [taxa|e'] eqn:F2; cbn [bind].
      * periodo_nao_levanta texto.
      * intros [= <-]. right. exists t2, ts2. split; [reflexivity|].
        exact (py_float_raise _ _ F2).
  - destruct (py_float U (replace_char (ch ",") (cps ".") (replace_char (ch ".") [] t1)))
      as [principal|e'] eqn:F1; cbn [bind].
    + destruct (findall (re_percentual U) texto) as [|t2 ts2] eqn:E2.
      * cbn [bind]. periodo_nao_levanta texto.
      * destruct (py_float U (replace_char (ch ",") (cps ".") t2)) as [taxa|e''] eqn:F2; cbn [bind].
        -- periodo_nao_levanta texto.
        -- intros [= <-]. right. exists t2, ts2. split; [reflexivity|].
           exact (py_float_raise _ _ F2).
    + intros [= <-]. left. exists t1, ts1. split; [reflexivity|].
      exact (py_float_raise _ _ F1).
Qed.
End Periodo.

Lemma ascii_db_decimal_sem_espaco : decimal_sem_espaco ascii_db.
Proof.
  intros c H. pose proof (is_decimal_cases ascii_db c H) as [Hc|Hc].
  - unfold is_space.
    replace (c <=? 13)%N with false by (symmetry; apply N.leb_gt; lia).
    replace (28 <=? c)%N with true by (symmetry; apply N.leb_le; lia).
    replace (c <=? 32)%N with false by (symmetry; apply N.leb_gt; lia).
    repeat match goal with
    | |- context [(c =? ?k)%N] =>
        replace (c =? k)%N with false by (symmetry; apply N.eqb_neq; lia)
    end.
    replace (8192 <=? c)%N with false by (symmetry; apply N.leb_gt; lia).
    now rewrite !andb_false_r.
  - unfold is_decimal, decimal_value, is_ascii in H.
    replace (c <? 128)%N with false in H by (symmetry; apply N.ltb_ge; lia).
    discriminate.
Qed.

End ExtratorMais.
Export ExtratorMais.

(* ===================================================================== *)
(** * More on the fallback chain of [chat]                               *)
(* ===================================================================== *)

Module ChatMais.

Lemma is_prefix_prefix (a b : text) : forall h, is_prefix (a ++ b) h = true -> is_prefix a h = true.
Proof.
  induction a as [|x a IH]; intros h H; [reflexivity|].
  destruct h as [|y h]; [discriminate|]. cbn [app is_prefix] in *.
  apply andb_prop in H. destruct H as [-> H]. exact (IH _ H).
Qed.

(** A text that holds a word holds each of its beginnings. *)
Lemma py_in_prefix (a b : text) : forall h, py_in (a ++ b) h = true -> py_in a h = true.
Proof.
  induction h as [|y h IH]; intros H; rewrite py_in_unfold in H |- *.
  - apply orb_prop in H. destruct H as [H|H]; [|discriminate].
    now rewrite (is_prefix_prefix _ _ _ H).
  - apply orb_prop in H. destruct H as [H|H].
    + now rewrite (is_prefix_prefix _ _ _ H).
    + rewrite (IH H). apply orb_true_r.
Qed.

Section Ramos.
Variable U : unicode_db.
Variable float_pow : float -> float -> res float.
Variable W : collaborators.

Lemma porcentagem_incompleta_coberta (message_lower message : text) :
  any_in termos_porcentagem message_lower = false ->
  porcentagem_incompleta U message_lower message = false.
Proof.
  intros H. unfold porcentagem_incompleta.
  destruct (py_in (cps "porcentagem") message_lower) eqn:E; [|reflexivity].
  change (cps "porcentagem") with (cps "porcent" ++ cps "agem") in E.
  apply py_in_prefix in E. unfold any_in, termos_porcentagem in H. cbn [existsb] in H.
  rewrite E, orb_true_r in H. discriminate.
Qed.

(** X9. Fallback chain of [chat], lines 464-539: the fifth branch, for an
    incomplete percentage question, is never taken, because a message
    that holds "porcentagem" holds "porcent" and is taken by the second
    branch; the chain is the one of the other five branches. *)
Theorem quinto_ramo_inalcancavel (message : text) :
  analise_manual U float_pow W message =
    let message_lower := py_lower U message in
    if any_in termos_ir message_lower then ramo_ir U message
    else if any_in termos_porcentagem message_lower then ramo_porcentagem U float_pow message
    else if any_in termos_compostos message_lower then ramo_compostos U float_pow message
    else if any_in termos_artigos message_lower then ramo_artigos W message
    else ramo_geral W message.
Proof.
  unfold analise_manual. cbv zeta.
  destruct (any_in termos_ir (py_lower U message)); [reflexivity|].
  destruct (any_in termos_porcentagem (py_lower U message)) eqn:E; [reflexivity|].
  now rewrite (porcentagem_incompleta_coberta _ _ E).
Qed.
End Ramos.
End ChatMais.
Export ChatMais.

(* ===================================================================== *)
(** * Rounding gives floats of the format                                *)
(* ===================================================================== *)

Module RoundFacts.

Lemma fexp_eq x : fexp prec emax x = Z.max (x - 53) (-1074).
Proof. reflexivity. Qed.

Lemma digits2_pos_size p : digits2_pos p = Pos.size p.
Proof. induction p as [p IH|p IH|]; cbn; congruence. Qed.

Lemma Zdigits2_log2 m : 0 < m -> Zdigits2 m = Z.log2 m + 1.
Proof.
  destruct m as [|p|p]; try lia. intros _. cbn [Zdigits2]. rewrite digits2_pos_size.
  destruct p as [p|p|]; cbn [Z.log2 Pos.size]; lia.
Qed.

Lemma Zdigits2_nonneg m : 0 <= Zdigits2 m.
Proof. destruct m; cbn; lia. Qed.

Lemma Zdigits2_mono a b : 0 <= a <= b -> Zdigits2 a <= Zdigits2 b.
Proof.
  intros [Ha Hab]. destruct (Z.eq_dec a 0) as [->|Hn]; [apply Zdigits2_nonneg|].
  rewrite !Zdigits2_log2 by lia. pose proof (Z.log2_le_mono a b Hab). lia.
Qed.

Lemma digits2_pos_iter_xO m d :
  Zpos (digits2_pos (Pos.iter xO m d)) = Zpos (digits2_pos m) + Zpos d.
Proof.
  induction d as [|d IH] using Pos.peano_ind.
  - cbn. lia.
  - rewrite Pos.iter_succ. cbn [digits2_pos]. lia.
Qed.

Lemma shr_1_digits mrs :
  0 <= shr_m mrs -> Zdigits2 (shr_m (shr_1 mrs)) = Z.max 0 (Zdigits2 (shr_m mrs) - 1).
Proof.
  destruct mrs as [m r s]. cbn [shr_m]. intros H.
  destruct m as [|p|p]; [reflexivity| |lia].
  destruct p as [p|p|]; cbn; lia.
Qed.

Lemma iter_shr_1_digits p : forall mrs,
  0 <= shr_m mrs ->
  Zdigits2 (shr_m (SpecFloat.iter_pos shr_1 p mrs)) = Z.max 0 (Zdigits2 (shr_m mrs) - Zpos p).
Proof.
  induction p as [p IH|p IH|]; intros mrs H; cbn [SpecFloat.iter_pos].
  - rewrite IH by (apply iter_pos_shr_1_nonneg, shr_1_nonneg, H).
    rewrite IH by (apply shr_1_nonneg, H). rewrite shr_1_digits by exact H. lia.
  - rewrite IH by (apply iter_pos_shr_1_nonneg, H). rewrite IH by exact H. lia.
  - apply shr_1_digits, H.
Qed.

(** One alignment step, when it has nothing to shift to the left: the
    exponent becomes the one the format wants for the digits that were
    there, and the digits beyond it are dropped. *)
Lemma shr_fexp_digits m e l mrs e' :
  0 <= m -> e <= fexp prec emax (Zdigits2 m + e) ->
  shr_fexp prec emax m e l = (mrs, e') ->
  e' = fexp prec emax (Zdigits2 m + e) /\ 0 <= shr_m mrs /\
  Zdigits2 (shr_m mrs) = Z.max 0 (Zdigits2 m - (e' - e)).
Proof.
  intros Hm Hn. unfold shr_fexp, shr.
  destruct (fexp prec emax (Zdigits2 m + e) - e) as [|n|n] eqn:En; try lia; intros [= <- <-].
  - rewrite !shr_record_of_loc_m. pose proof (Zdigits2_nonneg m). lia.
  - split; [lia|]. split; [apply iter_pos_shr_1_nonneg; now rewrite shr_record_of_loc_m|].
    rewrite iter_shr_1_digits by now rewrite shr_record_of_loc_m.
    rewrite shr_record_of_loc_m. lia.
Qed.

Lemma round_nearest_even_bounds m l :
  m <= round_nearest_even m l <= m + 1.
Proof.
  unfold round_nearest_even. destruct l as [|[]]; try lia. destruct (Z.even m); lia.
Qed.

Lemma binary_round_aux_valid s m e l :
  0 <= m -> e <= fexp prec emax (Zdigits2 m + e) ->
  SpecFloat.valid_binary prec emax (binary_round_aux prec emax s m e l) = true.
Proof.
  intros Hm He. unfold binary_round_aux.
  destruct (shr_fexp prec emax m e l) as [mrs1 e1] eqn:E1.
  destruct (shr_fexp_digits _ _ _ _ _ Hm He E1) as (He1 & Hm1 & Hd1).
  set (m1 := round_nearest_even (shr_m mrs1) (loc_of_shr_record mrs1)).
  pose proof (round_nearest_even_bounds (shr_m mrs1) (loc_of_shr_record mrs1)) as Hb.
  fold m1 in Hb.
  destruct (shr_fexp prec emax m1 e1 loc_Exact) as [mrs2 e2] eqn:E2.
  assert (Hm1' : 0 <= m1) by lia.
  assert (He2 : e1 <= fexp prec emax (Zdigits2 m1 + e1)).
  { pose proof (Zdigits2_mono (shr_m mrs1) m1 ltac:(lia)) as Hmono.
    pose proof (Zdigits2_nonneg m) as Hdm.
    rewrite fexp_eq in *. lia. }
  destruct (shr_fexp_digits _ _ _ _ _ Hm1' He2 E2) as (He2' & Hm2 & Hd2).
  destruct (shr_m mrs2) as [|p|p] eqn:Ep; [reflexivity| |lia].
  destruct (e2 <=? emax - prec) eqn:Ee; [|reflexivity].
  cbn [SpecFloat.valid_binary]. unfold bounded, canonical_mantissa. rewrite Ee, andb_true_r.
  apply Z.eqb_eq. cbn [Zdigits2] in Hd2.
  rewrite fexp_eq in *. lia.
Qed.

Lemma binary_round_valid s m e :
  SpecFloat.valid_binary prec emax (binary_round prec emax s m e) = true.
Proof.
  unfold binary_round, shl_align.
  destruct (fexp prec emax (Z.pos (digits2_pos m) + e) - e) as [|d|d] eqn:Ed;
    apply binary_round_aux_valid; try lia; cbn [Zdigits2].
  - lia.
  - lia.
  - rewrite digits2_pos_iter_xO. unfold fexp, emin, prec, emax in *. lia.
Qed.

Lemma binary_normalize_valid m e s :
  SpecFloat.valid_binary prec emax (binary_normalize prec emax m e s) = true.
Proof. destruct m; [reflexivity| |]; apply binary_round_valid. Qed.

Lemma round_ratio_valid neg p q : SpecFloat.valid_binary prec emax (round_ratio neg p q) = true.
Proof.
  unfold round_ratio. destruct (p =? 0); [reflexivity|]. apply binary_normalize_valid.
Qed.

(** The float of a decimal is the rounded quotient itself. *)
Lemma Prim2SF_round_decimal neg d e :
  Prim2SF (round_decimal neg d e) =
    if 0 <=? e then round_ratio neg (d * 10 ^ e) 1 else round_ratio neg d (10 ^ (- e)).
Proof.
  unfold round_decimal. apply Prim2SF_SF2Prim.
  destruct (0 <=? e); apply round_ratio_valid.
Qed.

End RoundFacts.
Export RoundFacts.

(* ===================================================================== *)
(** * The values the extractor reads                                     *)
(* ===================================================================== *)

Module ExtratorValores.

Lemma round_ratio_sign neg p q : 0 <= p -> 0 < q -> signed_as neg (round_ratio neg p q).
Proof.
  intros Hp Hq. unfold round_ratio. destruct (p =? 0); [constructor|].
  set (k := Z.max 0 (56 + Z.log2 q - Z.log2 p)).
  set (n := p * 2 ^ k).
  assert (Hn : 0 <= n / q).
  { apply Z.div_pos; [|exact Hq]. apply Z.mul_nonneg_nonneg; [exact Hp|].
    apply Z.pow_nonneg. lia. }
  set (m := 2 * (n / q) + (if n mod q =? 0 then 0 else 1)).
  assert (Hm : 0 <= m) by (subst m; destruct (n mod q =? 0); lia).
  clearbody m.
  destruct m as [|m|m]; [destruct neg; constructor| |lia].
  destruct neg; [change (- Z.pos m) with (Z.neg m)|];
    cbn [binary_normalize]; unfold binary_round;
    match goal with
    | |- context [shl_align ?a ?b ?c] => destruct (shl_align a b c) as [mz ez]
    end; apply binary_round_aux_sign; lia.
Qed.

Lemma signed_as_nonneg sf : signed_as false sf -> SFleb (S754_zero false) sf = true.
Proof. intros []; reflexivity. Qed.

(** The float of a decimal with no minus sign is zero or more: it is no
    NaN and it is not negative. *)
Lemma round_decimal_nonneg d e : 0 <= d -> (0 <=? round_decimal false d e)%float = true.
Proof.
  intros Hd. rewrite FloatAxioms.leb_spec, Prim2SF_round_decimal.
  change (Prim2SF 0) with (S754_zero false). apply signed_as_nonneg.
  destruct (0 <=? e) eqn:E.
  - apply round_ratio_sign; [|lia]. apply Z.mul_nonneg_nonneg; [exact Hd|].
    apply Z.pow_nonneg. lia.
  - apply round_ratio_sign; [exact Hd|]. apply Z.pow_pos_nonneg; lia.
Qed.

Lemma digits_value_nonneg ds : 0 <= digits_value ds.
Proof.
  unfold digits_value. assert (H : forall acc, 0 <= acc ->
    0 <= fold_left (fun acc d => acc * 10 + Z.of_N d) ds acc).
  { induction ds as [|d ds IH]; intros acc Ha; cbn [fold_left]; [exact Ha|].
    apply IH. lia. }
  apply H. lia.
Qed.

Lemma float_lstrip_in c : forall s, In c (float_lstrip s) -> In c s.
Proof.
  induction s as [|x s IH]; cbn [float_lstrip]; [tauto|].
  destruct (float_space x); [right; now apply IH|tauto].
Qed.

Lemma float_strip_in c s : In c (float_strip s) -> In c s.
Proof.
  unfold float_strip. intros H. apply in_rev in H. apply float_lstrip_in in H.
  apply in_rev in H. now apply float_lstrip_in in H.
Qed.

Lemma take_sign_other c s : c <> 45%N -> c <> 43%N -> take_sign (c :: s) = (false, c :: s).
Proof.
  intros H1 H2. unfold take_sign. destruct c as [|p]; [reflexivity|].
  do 6 (destruct p as [p|p|]; try reflexivity; try congruence).
Qed.

Section Valores.
Variable U : unicode_db.

(** A decimal digit or the point. *)
Definition digito_ou_ponto (c : N) : bool := is_decimal U c || (c =? ch ".")%N.

Lemma digito_ou_ponto_cases c :
  digito_ou_ponto c = true -> (46 <= c <= 57)%N \/ (128 <= c)%N.
Proof.
  unfold digito_ou_ponto. intros H. apply orb_prop in H. destruct H as [H|H].
  - apply is_decimal_cases in H. lia.
  - apply N.eqb_eq in H. subst c. vm_compute. left. split; discriminate.
Qed.

(** [float] of digits and points: when it returns, the value is zero or
    more, and no NaN. *)
Lemma py_float_nonneg s x :
  forallb digito_ou_ponto s = true -> py_float U s = Ret x -> (0 <=? x)%float = true.
Proof.
  intros Hs. unfold py_float.
  assert (Hb : forall c, In c (float_strip s) -> (46 <= c <= 57)%N \/ (128 <= c)%N).
  { intros c Hc. apply float_strip_in in Hc. rewrite forallb_forall in Hs.
    exact (digito_ou_ponto_cases c (Hs c Hc)). }
  destruct (float_strip s) as [|c b] eqn:Eb.
  - vm_compute. discriminate.
  - rewrite take_sign_other by (pose proof (Hb c (or_introl eq_refl)); lia).
    unfold abs_float_value.
    destruct (text_eqb (map ascii_lower (c :: b)) (cps "inf") ||
              text_eqb (map ascii_lower (c :: b)) (cps "infinity")); [now intros [= <-]|].
    destruct (text_eqb (map ascii_lower (c :: b)) (cps "nan")) eqn:En.
    + exfalso. unfold text_eqb in En. apply bool_decide_eq_true_1 in En.
      injection En as En _. pose proof (Hb c (or_introl eq_refl)) as Hc.
      unfold ascii_lower in En. destruct ((65 <=? c) && (c <=? 90))%N eqn:E.
      * apply andb_prop in E. destruct E as [E1 E2].
        apply N.leb_le in E1. apply N.leb_le in E2. lia.
      * vm_compute in En. lia.
    + destruct (number U (c :: b)) as [[[ip fp] rest]|]; [|discriminate].
      destruct (exponent U rest) as [[ex [|? ?]]|]; try discriminate.
      intros [= <-]. apply round_decimal_nonneg, digits_value_nonneg.
Qed.

Lemma limpar_monetario_digitos t :
  forallb (digit_dot_comma U) t = true -> forallb digito_ou_ponto (limpar_monetario t) = true.
Proof.
  intros H. unfold limpar_monetario, replace_char. apply forallb_forall. intros c Hc.
  apply in_flat_map in Hc. destruct Hc as (c1 & Hc1 & Hc).
  apply in_flat_map in Hc1. destruct Hc1 as (c0 & Hc0 & Hc1).
  rewrite forallb_forall in H. specialize (H c0 Hc0).
  destruct (c0 =? ch ".")%N eqn:E0; [contradiction|]. destruct Hc1 as [<-|[]].
  destruct (c0 =? ch ",")%N eqn:E1.
  - destruct Hc as [<-|[]]. reflexivity.
  - destruct Hc as [<-|[]]. unfold digito_ou_ponto, digit_dot_comma in *.
    rewrite E1, orb_false_r in H. exact H.
Qed.

Lemma limpar_percentual_digitos t :
  forallb (digit_dot_comma U) t = true -> forallb digito_ou_ponto (limpar_percentual t) = true.
Proof.
  intros H. unfold limpar_percentual, replace_char. apply forallb_forall. intros c Hc.
  apply in_flat_map in Hc. destruct Hc as (c0 & Hc0 & Hc).
  rewrite forallb_forall in H. specialize (H c0 Hc0).
  destruct (c0 =? ch ",")%N eqn:E1.
  - destruct Hc as [<-|[]]. reflexivity.
  - destruct Hc as [<-|[]]. unfold digito_ou_ponto, digit_dot_comma in *.
    rewrite E1, orb_false_r in H. exact H.
Qed.

Lemma periodo_digitos t :
  forallb (is_decimal U) t = true -> forallb digito_ou_ponto t = true.
Proof.
  intros H. apply forallb_forall. intros c Hc. rewrite forallb_forall in H.
  unfold digito_ou_ponto. now rewrite (H c Hc).
Qed.

(** Every value of the mapping is zero or more. *)
Lemma extrator_valor_nao_negativo texto valores k x :
  extrair_valores_numericos U texto = Ret valores ->
  valores !! k = Some x -> (0 <=? x)%float = true.
Proof.
  unfold extrair_valores_numericos.
  assert (H1 : forall t ts p, findall (re_monetario U) texto = t :: ts ->
            py_float U (limpar_monetario t) = Ret p -> (0 <=? p)%float = true).
  { intros t ts p E F. refine (py_float_nonneg _ _ (limpar_monetario_digitos t _) F).
    apply (findall_monetario_token U texto t). rewrite E. now left. }
  assert (H2 : forall t ts p, findall (re_percentual U) texto = t :: ts ->
            py_float U (limpar_percentual t) = Ret p -> (0 <=? p)%float = true).
  { intros t ts p E F. refine (py_float_nonneg _ _ (limpar_percentual_digitos t _) F).
    apply (findall_percentual_token U texto t). rewrite E. now left. }
  assert (H3 : forall t ts p, findall (re_periodo U) texto = t :: ts ->
            py_float U t = Ret p -> (0 <=? p)%float = true).
  { intros t ts p E F. refine (py_float_nonneg _ _ (periodo_digitos t _) F).
    apply (findall_periodo_token U texto t). rewrite E. now left. }
  destruct (findall (re_monetario U) texto) as [|t1 ts1];
  destruct (findall (re_percentual U) texto) as [|t2 ts2];
  destruct (findall (re_periodo U) texto) as [|t3 ts3];
  cbn [bind];
  repeat match goal with
  | |- context [py_float U ?s] =>
      let F := fresh "F" in destruct (py_float U s) eqn:F; cbn [bind]
  end; intros [= <-] Hk; try discriminate;
  repeat (apply lookup_insert_Some in Hk; destruct Hk as [[_ <-]|[_ Hk]];
          [solve [eapply H1; eauto | eapply H2; eauto | eapply H3; eauto]|]);
  rewrite lookup_empty in Hk; discriminate.
Qed.
End Valores.
End ExtratorValores.
Export ExtratorValores.

(* ===================================================================== *)
(** * What the extractor and [chat] never do                             *)
(* ===================================================================== *)

Module AgenteTeoremas.

Lemma nonneg_is_number (x : float) : (0 <=? x)%float = true -> is_number x = true.
Proof.
  unfold is_number. rewrite FloatAxioms.leb_spec, FloatAxioms.eqb_spec.
  change (Prim2SF 0) with (S754_zero false).
  destruct (Prim2SF x) as [s|s| |s m e]; try (destruct s; (discriminate || reflexivity)).
  - discriminate.
  - intros _. unfold SFeqb, SFcompare.
    destruct s; rewrite Z.compare_refl, Pos.compare_cont_refl; reflexivity.
Qed.

(** X7. Extractor, lines 410-431: the only exception that leaves the
    extractor is the [ValueError] of [float] for the first monetary token
    or for the first percentage token, cleaned as the code cleans them, a
    string of digits and points; the period, a run of digits, always
    converts. *)
Theorem extrator_so_levanta_float (U : unicode_db) (texto : text) (e : pyexn) :
  decimal_sem_espaco U ->
  extrair_valores_numericos U texto = Raise e ->
  exists t,
    e = float_error t /\ forallb (digito_ou_ponto U) t = true /\
    ((exists t0 ts, findall (re_monetario U) texto = t0 :: ts /\ t = limpar_monetario t0) \/
     (exists t0 ts, findall (re_percentual U) texto = t0 :: ts /\ t = limpar_percentual t0)).
Proof.
  intros Hsp H. destruct (extrator_levanta U Hsp texto e H) as [(t & ts & E & ->)|(t & ts & E & ->)].
  - exists (limpar_monetario t). split; [reflexivity|]. split; [|left; now exists t, ts].
    apply limpar_monetario_digitos. apply (findall_monetario_token U texto t).
    rewrite E. now left.
  - exists (limpar_percentual t). split; [reflexivity|]. split; [|right; now exists t, ts].
    apply limpar_percentual_digitos. apply (findall_percentual_token U texto t).
    rewrite E. now left.
Qed.

Lemma extrator_so_levanta_float_witness :
  exists t,
    PyExn ValueError (cps "could not convert string to float: '1.5.0'") = float_error t /\
    forallb (digito_ou_ponto ascii_db) t = true /\
    ((exists t0 ts, findall (re_monetario ascii_db) (cps "taxa de 1,5,0%") = t0 :: ts /\
                    t = limpar_monetario t0) \/
     (exists t0 ts, findall (re_percentual ascii_db) (cps "taxa de 1,5,0%") = t0 :: ts /\
                    t = limpar_percentual t0)).
Proof.
  apply (extrator_so_levanta_float ascii_db (cps "taxa de 1,5,0%")).
  - exact ascii_db_decimal_sem_espaco.
  - vm_compute. reflexivity.
Defined.

(** X8. Extractor, lines 410-431: every value of a mapping the extractor
    returns is a number, zero or more (possibly infinite): never NaN,
    never negative. *)
Theorem extrator_valores_nao_negativos (U : unicode_db) (texto : text)
    (valores : gmap string float) :
  extrair_valores_numericos U texto = Ret valores ->
  map_Forall (fun _ x => (0 <=? x)%float = true /\ is_number x = true) valores.
Proof.
  intros H k x Hk. pose proof (extrator_valor_nao_negativo U texto valores k x H Hk) as Hx.
  split; [exact Hx|exact (nonneg_is_number x Hx)].
Qed.

Lemma extrator_valores_nao_negativos_witness :
  map_Forall (fun _ x => (0 <=? x)%float = true /\ is_number x = true) valores_exemplo.
Proof.
  apply (extrator_valores_nao_negativos ascii_db (cps "R$ 5.000 a 10% por 2 anos")).
  vm_compute. reflexivity.
Defined.

Section Resposta.
Variable U : unicode_db.
Variable float_pow : float -> float -> res float.
Variable W : collaborators.

Lemma ramo_ir_responde message : ramo_ir U message <> Ret None.
Proof.
  unfold ramo_ir. destruct (extrair_valores_numericos U message) as [valores|e] eqn:E;
    cbn [bind]; [|discriminate].
  unfold get_truthy.
  destruct (valores !! "principal"%string) as [principal|] eqn:Ep; [|discriminate].
  destruct (truthy principal); [|discriminate].
  intros [= H].
  pose proof (extrator_valor_nao_negativo U _ _ _ _ E Ep) as Hp.
  exact (ir_de_numero principal 2024 (nonneg_is_number _ Hp) H).
Qed.

(** X10. [chat], lines 433-571: whatever the message and whatever the agent
    and the model do, [chat] returns a text, never [None]: the two places
    where the code can end without a [return] (the tax calculator on a
    NaN income, the fifth branch with no number found) are never
    reached. *)
Theorem chat_sempre_responde (message : text) : chat U float_pow W message <> None.
Proof.
  unfold chat. destruct (tentativa_react U W message); [discriminate|].
  unfold analise_manual. cbv zeta.
  destruct (any_in termos_ir (py_lower U message)).
  { pose proof (ramo_ir_responde message) as H.
    destruct (ramo_ir U message) as [[r|]|e]; cbn [try_except]; congruence. }
  destruct (any_in termos_porcentagem (py_lower U message)) eqn:Ep.
  { unfold ramo_porcentagem. destruct (extrair_valores_numericos U message); cbn [bind try_except];
      [|discriminate]. destruct (_ && _); discriminate. }
  destruct (any_in termos_compostos (py_lower U message)).
  { unfold ramo_compostos. destruct (extrair_valores_numericos U message); cbn [bind try_except];
      [|discriminate]. destruct (forallb _ _); discriminate. }
  destruct (any_in termos_artigos (py_lower U message)); [discriminate|].
  rewrite (porcentagem_incompleta_coberta U _ _ Ep). discriminate.
Qed.

(** X11. [chat], lines 464-571: when the manual analysis fails, the reply is
    the critical error of a [float] conversion: the only exception that
    reaches the outer handler of [chat] is the extractor's. *)
Theorem chat_erro_critico (message : text) (e : pyexn) :
  decimal_sem_espaco U ->
  tentativa_react U W message = None ->
  analise_manual U float_pow W message = Raise e ->
  exists t,
    forallb (digito_ou_ponto U) t = true /\
    chat U float_pow W message =
      Some (cps "❌ Erro crítico: could not convert string to float: '" ++ t ++ cps "'").
Proof.
  intros Hsp Ht Ha.
  assert (He : extrair_valores_numericos U message = Raise e).
  { revert Ha. unfold analise_manual. cbv zeta.
    destruct (any_in termos_ir (py_lower U message)).
    { unfold ramo_ir. destruct (extrair_valores_numericos U message) as [v|e']; cbn [bind];
        [|congruence]. destruct (get_truthy v "principal"); [|discriminate].
      destruct (v !! "principal"%string); discriminate. }
    destruct (any_in termos_porcentagem (py_lower U message)) eqn:Ep.
    { unfold ramo_porcentagem. destruct (extrair_valores_numericos U message); cbn [bind];
        [|congruence]. destruct (_ && _); discriminate. }
    destruct (any_in termos_compostos (py_lower U message)).
    { unfold ramo_compostos. destruct (extrair_valores_numericos U message); cbn [bind];
        [|congruence]. destruct (forallb _ _); discriminate. }
    destruct (any_in termos_artigos (py_lower U message)); [discriminate|].
    rewrite (porcentagem_incompleta_coberta U _ _ Ep). discriminate. }
  destruct (extrator_levanta U Hsp message e He) as [(t & ts & E & ->)|(t & ts & E & ->)].
  - exists (limpar_monetario t). split.
    + apply limpar_monetario_digitos. apply (findall_monetario_token U message t).
      rewrite E. now left.
    + unfold chat. rewrite Ht, Ha. reflexivity.
  - exists (limpar_percentual t). split.
    + apply limpar_percentual_digitos. apply (findall_percentual_token U message t).
      rewrite E. now left.
    + unfold chat. rewrite Ht, Ha. reflexivity.
Qed.
End Resposta.

Lemma chat_erro_critico_witness :
  exists t,
    forallb (digito_ou_ponto ascii_db) t = true /\
    chat ascii_db pow_referencia sem_colaboradores (cps "montante de 1,5,0% ao mes") =
      Some (cps "❌ Erro crítico: could not convert string to float: '" ++ t ++ cps "'").
Proof.
  apply (chat_erro_critico ascii_db pow_referencia sem_colaboradores
           (cps "montante de 1,5,0% ao mes")
           (float_error (cps "1.5.0"))).
  - exact ascii_db_decimal_sem_espaco.
  - vm_compute. reflexivity.
  - vm_compute. reflexivity.
Defined.

End AgenteTeoremas.
Export AgenteTeoremas.

(* ===================================================================== *)
(** * The calculations need no model *)
(* ===================================================================== *)

Module ChatSemModelo.

Section SemModelo.
Variable U : unicode_db.
Variable float_pow : float -> float -> res float.

(** The message asks for one of the three calculations. *)
Definition pede_calculo (message : text) : bool :=
  any_in termos_ir (py_lower U message) ||
  any_in termos_porcentagem (py_lower U message) ||
  any_in termos_compostos (py_lower U message).

(** X23. [chat], lines 433-499: a message with a keyword of the tax, of
    the percentage or of the compound-interest branch is answered
    without the language model and without the article search: with the
    same agent, the reply is the same whatever those two are. *)
Theorem calculos_sem_modelo (W W' : collaborators) (message : text) :
  react W = react W' -> pede_calculo message = true ->
  chat U float_pow W message = chat U float_pow W' message.
Proof.
  intros Hr Hc.
  assert (Ht : tentativa_react U W message = tentativa_react U W' message).
  { unfold tentativa_react, chamar_agente. now rewrite Hr. }
  unfold chat. rewrite Ht. destruct (tentativa_react U W' message); [reflexivity|].
  unfold analise_manual, pede_calculo in *. cbv zeta.
  destruct (any_in termos_ir (py_lower U message)); [reflexivity|].
  destruct (any_in termos_porcentagem (py_lower U message)); [reflexivity|].
  destruct (any_in termos_compostos (py_lower U message)); [reflexivity|discriminate].
Qed.
End SemModelo.

(** Collaborators whose model and search always answer with a failure. *)
Definition colaboradores_em_falha : collaborators :=
  {| react := {| agent_query := None; agent_chat := None |};
     llm_complete := fun _ => Raise (PyExn OtherError (cps "timeout"));
     busca_academica := fun _ => cps "sem rede" |}.

Lemma calculos_sem_modelo_witness :
  chat ascii_db pow_referencia sem_colaboradores (cps "Qual o imposto de renda de R$ 50.000?") =
  chat ascii_db pow_referencia colaboradores_em_falha (cps "Qual o imposto de renda de R$ 50.000?").
Proof.
  apply (calculos_sem_modelo ascii_db pow_referencia sem_colaboradores colaboradores_em_falha).
  - reflexivity.
  - vm_compute. reflexivity.
Defined.

End ChatSemModelo.
Export ChatSemModelo.

(* ===================================================================== *)
(** * The choice of the embedding model *)
(* ===================================================================== *)

Module Embeddings.

(** ** [RobustEmbeddingManager.get_embedding_model] *)

Record embedding_option := {
  option_name : text;
  option_description : text
}.

(** The models, in order of preference. *)
Definition embedding_options : list embedding_option :=
  [ {| option_name := cps "intfloat/multilingual-e5-large";
       option_description := cps "E5 Large Multilingual - Melhor qualidade" |};
    {| option_name := cps "intfloat/multilingual-e5-base";
       option_description := cps "E5 Base Multilingual - Balanceado" |};
    {| option_name := cps "intfloat/multilingual-e5-small";
       option_description := cps "E5 Small Multilingual - Mais rápido" |};
    {| option_name := cps "sentence-transformers/paraphrase-multilingual-MiniLM-L12-v2";
       option_description := cps "MiniLM Multilingual - Compatibilidade" |};
    {| option_name := cps "sentence-transformers/all-MiniLM-L6-v2";
       option_description := cps "All-MiniLM - Fallback confiável" |} ].

Inductive log_level := INFO | WARNING.

(** What [logger.info] and [logger.warning] record. *)
Definition log_record : Type := log_level * text.

Definition msg_tentando (option : embedding_option) : log_record :=
  (INFO, cps "Tentando carregar: " ++ option_name option ++ cps " - " ++
         option_description option).

Definition msg_sucesso (option : embedding_option) : log_record :=
  (INFO, cps "✅ Sucesso! Usando: " ++ option_name option).

Definition msg_falhou (option : embedding_option) (e : pyexn) : log_record :=
  (WARNING, cps "❌ Falhou " ++ option_name option ++ cps ": " ++ take_chars 100 (exn_str e)).

Definition msg_padrao : log_record :=
  (INFO, cps "🔄 Usando embedding padrão do LlamaIndex").

Section Loader.
Context {M : Type}.

(** The import of the embedding class and its constructor
    [HuggingFaceEmbedding(model_name, max_length, normalize)], which
    loads the model or raises. *)
Variable HuggingFaceEmbedding : text -> Z -> bool -> res M.

(** The [for] loop over the options: the model of the first option that
    loads, and what was logged on the way. *)
Fixpoint tentar_opcoes (options : list embedding_option) : option M * list log_record :=
  match options with
  | [] => (None, [msg_padrao])
  | option :: rest =>
      match HuggingFaceEmbedding (option_name option) 512 true with
      | Ret embed_model => (Some embed_model, [msg_tentando option; msg_sucesso option])
      | Raise e =>
          let '(r, logs) := tentar_opcoes rest in
          (r, msg_tentando option :: msg_falhou option e :: logs)
      end
  end.

Definition get_embedding_model : option M * list log_record :=
  tentar_opcoes embedding_options.

(** The option fails to load. *)
Definition falha (option : embedding_option) : Prop :=
  exists e, HuggingFaceEmbedding (option_name option) 512 true = Raise e.

Lemma tentar_opcoes_some options m :
  fst (tentar_opcoes options) = Some m <->
  exists pre option post,
    options = pre ++ option :: post /\ Forall falha pre /\
    HuggingFaceEmbedding (option_name option) 512 true = Ret m.
Proof.
  induction options as [|o rest IH]; cbn [tentar_opcoes].
  - split; [discriminate|]. intros (pre & o & post & H & _). now destruct pre.
  - destruct (HuggingFaceEmbedding (option_name o) 512 true) as [m'|e] eqn:E.
    + cbn [fst]. split.
      * intros [= ->]. exists [], o, rest. split; [reflexivity|]. split; [constructor|exact E].
      * intros (pre & o' & post & H & Hpre & Ho). destruct pre as [|o1 pre].
        -- injection H as <- _. congruence.
        -- injection H as <- _. inversion Hpre as [|? ? [e He] _]. congruence.
    + destruct (tentar_opcoes rest) as [r logs]. cbn [fst] in *. rewrite IH. split.
      * intros (pre & o' & post & -> & Hpre & Ho). exists (o :: pre), o', post.
        split; [reflexivity|]. split; [constructor; [now exists e|exact Hpre]|exact Ho].
      * intros (pre & o' & post & H & Hpre & Ho). destruct pre as [|o1 pre].
        -- injection H as <- _. congruence.
        -- injection H as _ ->. exists pre, o', post. split; [reflexivity|].
           split; [now inversion Hpre|exact Ho].
Qed.

Lemma tentar_opcoes_none options :
  fst (tentar_opcoes options) = None <-> Forall falha options.
Proof.
  induction options as [|o rest IH]; cbn [tentar_opcoes].
  - split; [constructor|reflexivity].
  - destruct (HuggingFaceEmbedding (option_name o) 512 true) as [m'|e] eqn:E.
    + cbn [fst]. split; [discriminate|]. intros H. inversion H as [|? ? [e He] _]. congruence.
    + destruct (tentar_opcoes rest) as [r logs]. cbn [fst] in *. rewrite IH. split.
      * intros H. constructor; [now exists e|exact H].
      * intros H. now inversion H.
Qed.

Lemma msg_falhou_length option e :
  (length (snd (msg_falhou option e)) <= 111 + length (option_name option))%nat.
Proof.
  unfold msg_falhou, take_chars. cbn [snd]. rewrite !length_app, length_firstn.
  change (length (cps "❌ Falhou ")) with 9%nat. change (length (cps ": ")) with 2%nat. lia.
Qed.

Lemma tentar_opcoes_log (bound : nat) options :
  (length (snd msg_padrao) <= bound)%nat ->
  Forall (fun o => (length (snd (msg_tentando o)) <= bound)%nat /\
                   (length (snd (msg_sucesso o)) <= bound)%nat /\
                   (111 + length (option_name o) <= bound)%nat) options ->
  Forall (fun r => (length (snd r) <= bound)%nat) (snd (tentar_opcoes options)).
Proof.
  intros Hp. induction 1 as [|o rest (H1 & H2 & H3) _ IH]; cbn [tentar_opcoes].
  - repeat constructor. exact Hp.
  - destruct (HuggingFaceEmbedding (option_name o) 512 true) as [m|e].
    + repeat constructor; assumption.
    + destruct (tentar_opcoes rest) as [r logs]. cbn [snd] in *.
      constructor; [exact H1|]. constructor; [|exact IH].
      exact (Nat.le_trans _ _ _ (msg_falhou_length o e) H3).
Qed.
End Loader.

(** X13. [get_embedding_model], lines 33-79: the result is a model exactly
    when some option loads, and it is then the model of the first option,
    in the order of preference, that loads: every option before it
    failed. *)
Theorem get_embedding_model_primeiro {M : Type} (carregar : text -> Z -> bool -> res M) (m : M) :
  fst (get_embedding_model carregar) = Some m <->
  exists pre option post,
    embedding_options = pre ++ option :: post /\ Forall (falha carregar) pre /\
    carregar (option_name option) 512 true = Ret m.
Proof. apply tentar_opcoes_some. Qed.

(** X14. [get_embedding_model], lines 33-79: the result is [None], the
    default embedding, exactly when each of the five options fails. *)
Theorem get_embedding_model_none {M : Type} (carregar : text -> Z -> bool -> res M) :
  fst (get_embedding_model carregar) = None <-> Forall (falha carregar) embedding_options.
Proof. apply tentar_opcoes_none. Qed.

(** X15. [get_embedding_model], lines 61-79: however long the text of an
    error, no record of the log exceeds 170 characters: a warning quotes
    at most 100 characters of it. *)
Theorem get_embedding_model_log {M : Type} (carregar : text -> Z -> bool -> res M) :
  Forall (fun r => (length (snd r) <= 170)%nat) (snd (get_embedding_model carregar)).
Proof.
  apply tentar_opcoes_log; [vm_compute; lia|].
  repeat constructor; vm_compute; lia.
Qed.

End Embeddings.
Export Embeddings.

(* ===================================================================== *)
(** * The search for articles *)
(* ===================================================================== *)

Module Arxiv.

(** ** [consulta_arxiv_melhorada] *)

(** What the program reads of a result of the arXiv client. *)
Record artigo := {
  summary : text;
  title : text;
  (** [autor.name] of each author *)
  authors : list text;
  primary_category : text;
  (** [published.strftime('%d/%m/%Y')] *)
  published_dmy : text;
  entry_id : text
}.

(** [sep.join(ls)] *)
Fixpoint join (sep : text) (ls : list text) : text :=
  match ls with
  | [] => []
  | [l] => l
  | l :: ls' => l ++ sep ++ join sep ls'
  end.

Definition resumo_de (a : artigo) : text :=
  let resumo := py_strip (replace_char 10%N (cps " ") (summary a)) in
  if (250 <? length resumo)%nat then take_chars 250 resumo ++ cps "..." else resumo.

Definition autores_de (a : artigo) : list text :=
  let autores := firstn 3 (authors a) in
  if (3 <? length (authors a))%nat then autores ++ [cps "et al."] else autores.

Definition artigo_lines (i : nat) (a : artigo) : list text :=
  [ cps "📄 **ARTIGO " ++ N_to_text (N.of_nat i) ++ cps "**";
    cps "📝 **Título**: " ++ py_strip (title a);
    cps "👥 **Autores**: " ++ join (cps ", ") (autores_de a);
    cps "📂 **Categoria**: " ++ primary_category a;
    cps "📅 **Data**: " ++ published_dmy a;
    cps "🔗 **Link**: " ++ entry_id a;
    cps "📖 **Resumo**: " ++ resumo_de a ].

(** The block of one article, numbered [i]. *)
Definition resultado_de (i : nat) (a : artigo) : text :=
  py_strip (triple_quoted (artigo_lines i a) 16).

(** [enumerate(search.results(), i)] *)
Fixpoint resultados_de (i : nat) (artigos : list artigo) : list text :=
  match artigos with
  | [] => []
  | a :: rest => resultado_de i a :: resultados_de (S i) rest
  end.

Definition msg_nenhum_artigo (query : text) : text :=
  cps "❌ Nenhum artigo encontrado para: '" ++ query ++ cps "'".

Definition msg_erro_arxiv (e : pyexn) : text :=
  cps "❌ Erro na consulta ao arXiv: " ++ exn_str e.

Section Consulta.
(** [arxiv.Search(query, max_results, sort_by=Relevance).results()], read
    to its end: the articles, or the exception that interrupts the
    reading (what was read before it is lost with it). *)
Variable arxiv_search : text -> Z -> res (list artigo).

Definition consulta_arxiv_melhorada (query : text) (max_results : Z) : text :=
  try_except
    (let* artigos := arxiv_search (py_strip query) max_results in
     let resultados := resultados_de 1 artigos in
     match resultados with
     | _ :: _ =>
         let header :=
           cps "🔍 **RESULTADOS PARA: '" ++ query ++ cps "'**" ++ nl ++ repeat 61%N 60 in
         Ret (header ++ nl ++ nl ++ join (nl ++ nl) resultados)
     | [] => Ret (msg_nenhum_artigo query)
     end)
    msg_erro_arxiv.
End Consulta.

(** *** Facts *)

Lemma lstrip_in c : forall s, In c (lstrip s) -> In c s.
Proof.
  induction s as [|x s IH]; cbn [lstrip]; [tauto|].
  destruct (is_space x); [right; now apply IH|tauto].
Qed.

Lemma py_strip_in c s : In c (py_strip s) -> In c s.
Proof.
  unfold py_strip, rstrip. intros H. apply in_rev in H. apply lstrip_in in H.
  apply in_rev in H. now apply lstrip_in in H.
Qed.

Lemma firstn_in {A} (c : A) n (s : list A) : In c (firstn n s) -> In c s.
Proof. intros H. rewrite <- (firstn_skipn n s). apply in_or_app. now left. Qed.

Lemma lstrip_nil_or_solid : forall s, lstrip s = [] \/ starts_solid (lstrip s).
Proof.
  induction s as [|x s IH]; cbn [lstrip]; [now left|].
  destruct (is_space x) eqn:E; [exact IH|]. right. now exists x, s.
Qed.

Lemma py_strip_nil_or_solid s : py_strip s = [] \/ ends_solid (py_strip s).
Proof.
  unfold py_strip, rstrip. destruct (lstrip_nil_or_solid (rev (lstrip s))) as [->|(c & t & -> & Hc)].
  - now left.
  - right. exists (rev t), c. split; [reflexivity|exact Hc].
Qed.

Lemma replace_newline_in (s : text) : ~ In 10%N (replace_char 10%N (cps " ") s).
Proof.
  unfold replace_char. intros H. apply in_flat_map in H. destruct H as (c & _ & H).
  destruct (c =? 10)%N eqn:E.
  - destruct H as [H|[]]. vm_compute in H. discriminate.
  - destruct H as [H|[]]. apply N.eqb_neq in E. congruence.
Qed.

Lemma resumo_de_cases a :
  resumo_de a = [] \/ ends_solid (resumo_de a).
Proof.
  unfold resumo_de. cbv zeta.
  destruct (250 <? length _)%nat.
  - right. apply ends_solid_app. exists (cps ".."), 46%N. split; reflexivity.
  - apply py_strip_nil_or_solid.
Qed.

(** X16. One article, lines 249-255: the summary shown is one line of at most
    253 characters, and at most four author entries are shown, the
    fourth being "et al.". *)
Theorem artigo_resumido (a : artigo) :
  (length (resumo_de a) <= 253)%nat /\ ~ In 10%N (resumo_de a) /\
  (length (autores_de a) <= 4)%nat /\
  (forall nome, nth_error (autores_de a) 3 = Some nome -> nome = cps "et al.").
Proof.
  split; [|split; [|split]].
  - unfold resumo_de, take_chars. cbv zeta.
    destruct (250 <? length _)%nat eqn:E.
    + rewrite length_app, length_firstn. change (length (cps "...")) with 3%nat. lia.
    + apply Nat.ltb_ge in E. lia.
  - unfold resumo_de, take_chars. cbv zeta. intros H.
    destruct (250 <? length _)%nat.
    + apply in_app_or in H. destruct H as [H|H].
      * apply firstn_in, py_strip_in in H.
        exact (replace_newline_in _ H).
      * vm_compute in H. intuition discriminate.
    + apply py_strip_in in H. exact (replace_newline_in _ H).
  - unfold autores_de. cbv zeta. pose proof (length_firstn 3 (authors a)) as Hl.
    destruct (3 <? length (authors a))%nat; [rewrite length_app; cbn [length]|]; lia.
  - unfold autores_de. cbv zeta. intros nome.
    destruct (3 <? length (authors a))%nat eqn:E.
    + apply Nat.ltb_lt in E. destruct (authors a) as [|a1 [|a2 [|a3 [|a4 l]]]];
        cbn [length] in E; try lia. cbn. now intros [= <-].
    + apply Nat.ltb_ge in E. destruct (authors a) as [|a1 [|a2 [|a3 [|a4 l]]]];
        cbn [length] in E; try lia; cbn; discriminate.
Qed.

(** The last line of a block: with a blank summary, [strip] takes the
    blank that follows the label too. *)
Definition linha_resumo (a : artigo) : text :=
  match resumo_de a with
  | [] => cps "📖 **Resumo**:"
  | _ :: _ => cps "📖 **Resumo**: " ++ resumo_de a
  end.

(** The block of an article, stripped, is its lines. *)
Lemma bloco_de_linhas (i : nat) (a : artigo) :
  resultado_de i a = join_nl (firstn 6 (artigo_lines i a) ++ [linha_resumo a]).
Proof.
  unfold resultado_de.
  assert (Hs : starts_solid (cps "📄 **ARTIGO " ++ N_to_text (N.of_nat i) ++ cps "**"))
    by starts_literal.
  destruct (resumo_de_cases a) as [E|E].
  - unfold linha_resumo, artigo_lines. rewrite E. cbn [firstn app].
    set (l1 := cps "📄 **ARTIGO " ++ N_to_text (N.of_nat i) ++ cps "**") in *.
    set (l2 := cps "📝 **Título**: " ++ py_strip (title a)).
    set (l3 := cps "👥 **Autores**: " ++ join (cps ", ") (autores_de a)).
    set (l4 := cps "📂 **Categoria**: " ++ primary_category a).
    set (l5 := cps "📅 **Data**: " ++ published_dmy a).
    set (l6 := cps "🔗 **Link**: " ++ entry_id a).
    set (l7 := cps "📖 **Resumo**:").
    replace (triple_quoted [l1; l2; l3; l4; l5; l6; cps "📖 **Resumo**: " ++ []] 16)
      with (nl ++ join_nl [l1; l2; l3; l4; l5; l6; l7] ++ ([32%N] ++ nl ++ repeat 32%N 16)).
    + apply py_strip_between.
      * repeat constructor.
      * constructor; [reflexivity|]. constructor; [reflexivity|apply blank_repeat].
      * now apply join_nl_starts.
      * apply join_nl_ends. cbn [List.last]. exists (cps "📖 **Resumo**"), 58%N.
        split; reflexivity.
    + unfold triple_quoted. cbn [join_nl]. rewrite <- !app_assoc. reflexivity.
  - assert (Hl : linha_resumo a = cps "📖 **Resumo**: " ++ resumo_de a).
    { unfold linha_resumo. destruct E as (t & d & -> & _). now destruct t. }
    rewrite Hl. change (firstn 6 (artigo_lines i a) ++ [cps "📖 **Resumo**: " ++ resumo_de a])
      with (artigo_lines i a).
    unfold artigo_lines. apply strip_triple_quoted; [exact Hs|].
    cbn [List.last]. apply ends_solid_app. exact E.
Qed.

(** X17. One article, lines 257-265: the block of an article is its seven
    lines and nothing around them, whatever blanks the fields hold; only
    the last line loses its final blank when the summary is blank. *)
Theorem resultado_de_linhas (i : nat) (a : artigo) :
  resultado_de i a = join_nl (firstn 6 (artigo_lines i a) ++ [linha_resumo a]).
Proof. exact (bloco_de_linhas i a). Qed.

Lemma resultados_de_nth artigos : forall i k a,
  nth_error artigos k = Some a ->
  nth_error (resultados_de i artigos) k = Some (resultado_de (i + k) a).
Proof.
  induction artigos as [|a0 rest IH]; intros i k a H; [now destruct k|].
  destruct k as [|k]; cbn [nth_error resultados_de] in *.
  - injection H as ->. now rewrite Nat.add_0_r.
  - rewrite (IH (S i) k a H). do 2 f_equal. lia.
Qed.

Lemma resultados_de_length artigos : forall i,
  length (resultados_de i artigos) = length artigos.
Proof. induction artigos as [|a rest IH]; intros i; cbn; [reflexivity|now rewrite IH]. Qed.

(** X18. The loop, lines 248-266: there is one block for each result,
    the blocks follow the order of the results and are numbered from 1:
    the block at position [k] is the block of the article at position
    [k], numbered [k+1]; it is the seven lines of that article, and it
    opens with the line "ARTIGO k+1" followed by the line of the
    article's title. *)
Theorem blocos_numerados (artigos : list artigo) (k : nat) (a : artigo) :
  nth_error artigos k = Some a ->
  length (resultados_de 1 artigos) = length artigos /\
  nth_error (resultados_de 1 artigos) k = Some (resultado_de (S k) a) /\
  resultado_de (S k) a =
    join_nl (firstn 6 (artigo_lines (S k) a) ++ [linha_resumo a]) /\
  is_prefix (cps "📄 **ARTIGO " ++ N_to_text (N.of_nat (S k)) ++ cps "**" ++ nl ++
             cps "📝 **Título**: " ++ py_strip (title a) ++ nl)
    (resultado_de (S k) a) = true.
Proof.
  intros H. split; [apply resultados_de_length|].
  split; [exact (resultados_de_nth artigos 1 k a H)|].
  split; [apply bloco_de_linhas|].
  rewrite bloco_de_linhas. unfold artigo_lines. cbn [firstn app join_nl].
  match goal with
  | |- is_prefix ?w (?l1 ++ nl ++ ?l2 ++ nl ++ ?rest) = true =>
      replace w with (l1 ++ nl ++ l2 ++ nl) by (rewrite <- !app_assoc; reflexivity);
      replace (l1 ++ nl ++ l2 ++ nl ++ rest) with ((l1 ++ nl ++ l2 ++ nl) ++ rest)
        by (rewrite <- !app_assoc; reflexivity)
  end.
  apply is_prefix_app.
Qed.

(** X19. [consulta_arxiv_melhorada], lines 238-275: the reply opens with the
    results header exactly when the search returned at least one
    article; when it returned none, or raised, the reply opens with the
    failure mark. The search receives the query stripped. *)
Theorem consulta_cabecalho (arxiv_search : text -> Z -> res (list artigo))
    (query : text) (max_results : Z) :
  (is_prefix (cps "🔍 **RESULTADOS PARA: '" ++ query ++ cps "'**" ++ nl)
     (consulta_arxiv_melhorada arxiv_search query max_results) = true <->
   exists a l, arxiv_search (py_strip query) max_results = Ret (a :: l)) /\
  (is_prefix (cps "❌") (consulta_arxiv_melhorada arxiv_search query max_results) = true <->
   arxiv_search (py_strip query) max_results = Ret [] \/
   exists e, arxiv_search (py_strip query) max_results = Raise e).
Proof.
  unfold consulta_arxiv_melhorada.
  destruct (arxiv_search (py_strip query) max_results) as [[|a l]|e];
    cbn [bind try_except resultados_de].
  - split; split.
    + intros H. vm_compute in H. discriminate.
    + intros (a & l & H). discriminate.
    + intros _. now left.
    + intros _. reflexivity.
  - split; split.
    + intros _. now exists a, l.
    + intros _. cbv zeta.
      match goal with
      | |- is_prefix ?w ?h = true =>
          replace h with (w ++ (repeat 61%N 60 ++ nl ++ nl ++
                                join (nl ++ nl) (resultado_de 1 a :: resultados_de 2 l)))
            by (rewrite <- !app_assoc; reflexivity)
      end.
      apply is_prefix_app.
    + intros H. vm_compute in H. discriminate.
    + intros [H|[e H]]; discriminate.
  - split; split.
    + intros H. vm_compute in H. discriminate.
    + intros (a & l & H). discriminate.
    + intros _. right. now exists e.
    + intros _. reflexivity.
Qed.

(** An article with four authors. *)
Definition artigo_exemplo : artigo :=
  {| summary := cps "We study agents that call tools.";
     title := cps " Agents and tools ";
     authors := [cps "A. Silva"; cps "B. Souza"; cps "C. Lima"; cps "D. Melo"];
     primary_category := cps "cs.AI";
     published_dmy := cps "01/02/2024";
     entry_id := cps "http://arxiv.org/abs/2402.00001v1" |}.

Lemma blocos_numerados_witness :
  length (resultados_de 1 [artigo_exemplo]) = length [artigo_exemplo] /\
  nth_error (resultados_de 1 [artigo_exemplo]) 0 = Some (resultado_de 1 artigo_exemplo) /\
  resultado_de 1 artigo_exemplo =
    join_nl (firstn 6 (artigo_lines 1 artigo_exemplo) ++ [linha_resumo artigo_exemplo]) /\
  is_prefix (cps "📄 **ARTIGO " ++ N_to_text (N.of_nat 1) ++ cps "**" ++ nl ++
             cps "📝 **Título**: " ++ py_strip (title artigo_exemplo) ++ nl)
    (resultado_de 1 artigo_exemplo) = true.
Proof. apply (blocos_numerados [artigo_exemplo] 0 artigo_exemplo). reflexivity. Defined.

End Arxiv.
Export Arxiv.

(* ===================================================================== *)
(** * The web search *)
(* ===================================================================== *)

Module BuscaWeb.

(** ** [busca_web_inteligente] *)

Definition chave_lines : list text :=
  [ cps "❌ **CHAVE TAVILY NÃO CONFIGURADA**";
    [];
    cps "Para usar busca web:";
    cps "1. Adicione TAVILY_API_KEY=" ++ dq ++ cps "sua_chave" ++ dq ++ cps " no arquivo .env";
    cps "2. Obtenha uma chave em: https://tavily.com" ].

Definition msg_erro_web (e : pyexn) : text := cps "❌ Erro na busca web: " ++ exn_str e.

(** [not tavily_key]: the variable is not set, or set to nothing. *)
Definition sem_chave (tavily_key : option text) : bool :=
  match tavily_key with
  | Some (_ :: _) => false
  | _ => true
  end.

Section Busca.
(** [os.environ.get("TAVILY_API_KEY")] *)
Variable tavily_key : option text.
(** [str(TavilyToolSpec(api_key=key).search(query, max_results=n))] *)
Variable tavily_search : text -> text -> Z -> res text.

Definition busca_web_inteligente (query : text) (max_results : Z) : text :=
  try_except
    (if sem_chave tavily_key then Ret (py_strip (triple_quoted chave_lines 16))
     else
       let* resultados_raw :=
         tavily_search (default [] tavily_key) query max_results in
       Ret (cps "🌐 **Busca Web para**: " ++ query ++ nl ++ nl ++ resultados_raw))
    msg_erro_web.
End Busca.

Lemma chave_stripped : py_strip (triple_quoted chave_lines 16) = join_nl chave_lines.
Proof.
  unfold chave_lines. apply strip_triple_quoted.
  - starts_literal.
  - cbn [List.last]. exists (cps "2. Obtenha uma chave em: https://tavily.co"), 109%N.
    split; reflexivity.
Qed.

(** X20. [busca_web_inteligente], lines 277-296: the reply opens with the
    search header exactly when a key that is not empty is set and the
    search returns; the search is not consulted without such a key, and
    every other reply opens with the failure mark. *)
Theorem busca_web_cabecalho (tavily_key : option text)
    (tavily_search : text -> text -> Z -> res text) (query : text) (max_results : Z) :
  (is_prefix (cps "🌐 **Busca Web para**: " ++ query ++ nl ++ nl)
     (busca_web_inteligente tavily_key tavily_search query max_results) = true <->
   exists c key raw, tavily_key = Some (c :: key) /\
                     tavily_search (c :: key) query max_results = Ret raw) /\
  (is_prefix (cps "❌")
     (busca_web_inteligente tavily_key tavily_search query max_results) = true <->
   ~ exists c key raw, tavily_key = Some (c :: key) /\
                       tavily_search (c :: key) query max_results = Ret raw) /\
  (match tavily_key with
   | Some (_ :: _) => True
   | _ => busca_web_inteligente tavily_key tavily_search query max_results =
            join_nl chave_lines
   end).
Proof.
  unfold busca_web_inteligente.
  destruct tavily_key as [[|c key]|]; cbn [sem_chave default from_option id bind try_except].
  - rewrite chave_stripped. split; [|split; [|reflexivity]]; split.
    + intros H. vm_compute in H. discriminate.
    + intros (c & key & raw & H & _). discriminate.
    + intros _ (c & key & raw & H & _). discriminate.
    + intros _. reflexivity.
  - destruct (tavily_search (c :: key) query max_results) as [raw|e] eqn:E;
      cbn [bind try_except]; (split; [|split; [|exact I]]; split).
    + intros _. now exists c, key, raw.
    + intros _.
      match goal with
      | |- is_prefix ?w ?h = true =>
          replace h with (w ++ raw) by (rewrite <- !app_assoc; reflexivity)
      end.
      apply is_prefix_app.
    + intros H. vm_compute in H. discriminate.
    + intros H. exfalso. apply H. now exists c, key, raw.
    + intros H. vm_compute in H. discriminate.
    + intros (c' & key' & raw & [= <- <-] & H). congruence.
    + intros _ (c' & key' & raw & [= <- <-] & H). congruence.
    + intros _. reflexivity.
  - rewrite chave_stripped. split; [|split; [|reflexivity]]; split.
    + intros H. vm_compute in H. discriminate.
    + intros (c & key & raw & H & _). discriminate.
    + intros _ (c & key & raw & H & _). discriminate.
    + intros _. reflexivity.
Qed.

End BuscaWeb.
Export BuscaWeb.

(* ===================================================================== *)
(** * The question loop *)
(* ===================================================================== *)

Module Sessao.

(** ** The question loop of the program, lines 629-654 *)

(** What one call of [input] does: a line comes, the user interrupts, or
    another exception is raised (end of input). *)
Inductive entrada :=
  | Linha (s : text)
  | Interrupcao
  | Falha (e : pyexn).

(** What the loop does, in order. *)
Inductive acao :=
  | Pede (prompt : text)
  | Imprime (s : text)
  | Chama (pergunta : text).

Definition palavras_de_saida : list text :=
  [cps "quit"; cps "exit"; cps "sair"; cps "q"].

Definition prompt_pergunta : text := nl ++ cps "💬 Sua pergunta: ".
Definition msg_ate_logo : text := nl ++ cps "👋 **Até logo! Obrigado por usar o Agente IA!**".
Definition msg_digite : text := cps "⚠️ Por favor, digite uma pergunta.".
Definition msg_processando : text := nl ++ cps "🤖 **Processando sua pergunta...**".
Definition msg_resposta : text := nl ++ cps "📋 **Resposta:**".
Definition msg_encerrada : text := nl ++ nl ++ cps "👋 **Sessão encerrada pelo usuário.**".
Definition msg_inesperado (e : pyexn) : text :=
  nl ++ cps "❌ **Erro inesperado:** " ++ exn_str e.

(** [print(response)]: [None] prints as its name. *)
Definition str_resposta (response : option text) : text :=
  match response with
  | Some r => r
  | None => cps "None"
  end.

Section Laco.
Variable U : unicode_db.
(** [agent.chat] *)
Variable chat : text -> option text.

(** [user_input.lower() in ['quit', 'exit', 'sair', 'q']] *)
Definition pede_saida (user_input : text) : bool :=
  existsb (text_eqb (py_lower U user_input)) palavras_de_saida.

Definition is_empty (s : text) : bool :=
  match s with [] => true | _ :: _ => false end.

(** The [while True] loop over the calls of [input] that are given: what
    it does, and whether it has left the loop. *)
Fixpoint sessao (entradas : list entrada) : list acao * bool :=
  match entradas with
  | [] => ([], false)
  | entrada :: rest =>
      let continua (feito : list acao) :=
        let '(depois, saiu) := sessao rest in (Pede prompt_pergunta :: feito ++ depois, saiu) in
      match entrada with
      | Linha s =>
          let user_input := py_strip s in
          if pede_saida user_input then
            ([Pede prompt_pergunta; Imprime msg_ate_logo], true)
          else if is_empty user_input then continua [Imprime msg_digite]
          else
            continua
              [ Imprime msg_processando; Imprime (repeat 45%N 40);
                Chama user_input;
                Imprime msg_resposta; Imprime (repeat 61%N 50);
                Imprime (str_resposta (chat user_input)); Imprime (repeat 61%N 50) ]
      | Interrupcao => ([Pede prompt_pergunta; Imprime msg_encerrada], true)
      | Falha e => continua [Imprime (msg_inesperado e)]
      end
  end.

(** The questions handed to [chat], in order. *)
Definition perguntas (feito : list acao) : list text :=
  flat_map (fun a => match a with Chama q => [q] | _ => [] end) feito.

(** The call of [input] that leaves the loop. *)
Definition encerra (e : entrada) : bool :=
  match e with
  | Linha s => pede_saida (py_strip s)
  | Interrupcao => true
  | Falha _ => false
  end.

(** The question of one call of [input], when it is one. *)
Definition pergunta_de (e : entrada) : list text :=
  match e with
  | Linha s => if is_empty (py_strip s) then [] else [py_strip s]
  | _ => []
  end.

(** X21. The question loop, lines 629-654: the loop is left exactly when a
    line is one of the exit words (whatever its case and the blanks
    around it) or the user interrupts; an exception of [input], such as
    the end of the input, never leaves it. *)
Theorem sessao_termina (entradas : list entrada) :
  snd (sessao entradas) = existsb encerra entradas.
Proof.
  induction entradas as [|e rest IH]; [reflexivity|]. cbn [sessao existsb].
  destruct (sessao rest) as [depois saiu]. cbn [snd] in IH. subst saiu.
  destruct e as [s| |e]; cbn [encerra].
  - destruct (pede_saida (py_strip s)); [reflexivity|].
    destruct (is_empty (py_strip s)); reflexivity.
  - reflexivity.
  - reflexivity.
Qed.

(** X22. The question loop, lines 629-654: up to the first exit word or
    interrupt, [chat] receives each line that is not blank, stripped, in
    order, and nothing else; what comes after the exit is never read. *)
Theorem sessao_perguntas (pre : list entrada) (e : entrada) (post : list entrada) :
  existsb encerra pre = false -> encerra e = true ->
  sessao (pre ++ e :: post) = sessao (pre ++ [e]) /\
  perguntas (fst (sessao (pre ++ e :: post))) = flat_map pergunta_de pre.
Proof.
  intros Hpre He. induction pre as [|x pre IH]; cbn [app sessao flat_map].
  - destruct e as [s| |e]; cbn [encerra] in He.
    + rewrite He. split; reflexivity.
    + split; reflexivity.
    + discriminate.
  - cbn [existsb] in Hpre. apply orb_false_elim in Hpre. destruct Hpre as [Hx Hpre].
    destruct (IH Hpre) as [IH1 IH2]. rewrite IH1.
    rewrite IH1 in IH2. destruct (sessao (pre ++ [e])) as [depois saiu]. cbn [fst] in IH2.
    destruct x as [s| |ex]; cbn [encerra pergunta_de] in *.
    + rewrite Hx. destruct (is_empty (py_strip s)); cbn [fst perguntas flat_map app];
        split; try reflexivity; fold (perguntas depois); now rewrite IH2.
    + discriminate.
    + split; [reflexivity|]. exact IH2.
Qed.
End Laco.

Lemma sessao_perguntas_witness :
  sessao ascii_db (fun _ => Some [])
    ([Linha (cps "   "); Linha (cps " Qual o IR de 50.000? ");
      Falha (PyExn OtherError (cps "EOF when reading a line"))] ++
     Linha (cps " SAIR ") :: [Linha (cps "2 + 2")]) =
  sessao ascii_db (fun _ => Some [])
    ([Linha (cps "   "); Linha (cps " Qual o IR de 50.000? ");
      Falha (PyExn OtherError (cps "EOF when reading a line"))] ++ [Linha (cps " SAIR ")]) /\
  perguntas (fst (sessao ascii_db (fun _ => Some [])
    ([Linha (cps "   "); Linha (cps " Qual o IR de 50.000? ");
      Falha (PyExn OtherError (cps "EOF when reading a line"))] ++
     Linha (cps " SAIR ") :: [Linha (cps "2 + 2")]))) =
  flat_map pergunta_de
    [Linha (cps "   "); Linha (cps " Qual o IR de 50.000? ");
     Falha (PyExn OtherError (cps "EOF when reading a line"))].
Proof.
  apply (sessao_perguntas ascii_db (fun _ => Some [])); vm_compute; reflexivity.
Defined.

End Sessao.
Export Sessao.

(* ===================================================================== *)
(** * The calculator with the numbers of a tool call *)
(* ===================================================================== *)

Module Ferramenta.

(** ** [calculadora_financeira_geral] as the agent calls it

    The agent hands the tool Python numbers: the description of the tool
    (lines 309-317) announces floats and, for the period, an [int].  An
    [int] has no bound; arithmetic with a float operand and the [f]
    formats convert it to a float, which fails beyond the range. *)

Definition msg_int_grande : text := cps "int too large to convert to float".

Definition msg_divisao_grande : text :=
  cps "integer division result too large for a float".

(** [float(n)] for an [int]: the nearest float, [OverflowError] when that
    is beyond the largest one. *)
Definition int_to_float (z : Z) : res float :=
  match binary_normalize prec emax z 0 false with
  | S754_infinity _ => Raise (PyExn OverflowError msg_int_grande)
  | r => Ret (SF2Prim r)
  end.

(** The float operand that arithmetic with a float makes of a number. *)
Definition to_float (v : pynum) : res float :=
  match v with
  | PInt z => int_to_float z
  | PFloat f => Ret f
  end.

(** [v / 100]: the true division of an [int] is the quotient rounded
    once, [OverflowError] when it is beyond the largest float. *)
Definition div100 (v : pynum) : res float :=
  match v with
  | PInt z =>
      match round_ratio (z <? 0) (Z.abs z) 100 with
      | S754_infinity _ => Raise (PyExn OverflowError msg_divisao_grande)
      | r => Ret (SF2Prim r)
      end
  | PFloat f => Ret (f / 100)%float
  end.

(** [kwargs.get(k, 0)] *)
Definition kwargs_get (kwargs : gmap string pynum) (k : string) : pynum :=
  match kwargs !! k with
  | Some v => v
  | None => PInt 0
  end.

Section Calculadora.
Variable U : unicode_db.
Variable float_pow : float -> float -> res float.

Definition calc_porcentagem (kwargs : gmap string pynum) : res text :=
  let valor := kwargs_get kwargs "valor" in
  let percentual := kwargs_get kwargs "percentual" in
  if num_le0 valor || num_le0 percentual then Ret msg_porcentagem_positivos
  else
    let* centesimo := div100 percentual in
    let* v := to_float valor in
    let resultado := (v * centesimo)%float in
    Ret (py_strip (triple_quoted (porcentagem_lines valor percentual resultado) 16)).

Definition calc_juros_compostos (kwargs : gmap string pynum) : res text :=
  let principal := kwargs_get kwargs "principal" in
  let* taxa := div100 (kwargs_get kwargs "taxa") in
  let periodo := kwargs_get kwargs "periodo" in
  if num_le0 principal || (taxa <=? 0)%float || num_le0 periodo then
    Ret msg_compostos_positivos
  else
    let* n := to_float periodo in
    let* potencia := float_pow (1 + taxa)%float n in
    let* p := to_float principal in
    let montante := (p * potencia)%float in
    let juros := (montante - p)%float in
    let* q := float_div montante p in
    let rendimento := ((q - 1) * 100)%float in
    Ret (py_strip (triple_quoted
           (compostos_lines principal periodo taxa montante juros rendimento) 16)).

Definition calc_juros_simples (kwargs : gmap string pynum) : res text :=
  let principal := kwargs_get kwargs "principal" in
  let* taxa := div100 (kwargs_get kwargs "taxa") in
  let periodo := kwargs_get kwargs "periodo" in
  let* p := to_float principal in
  let* n := to_float periodo in
  let juros := (p * taxa * n)%float in
  let montante := (p + juros)%float in
  Ret (py_strip (triple_quoted (simples_lines principal periodo taxa juros montante) 16)).

Definition calculadora_financeira_geral (tipo : text) (kwargs : gmap string pynum) : text :=
  try_except
    (if text_eqb (py_lower U tipo) (cps "porcentagem") then calc_porcentagem kwargs
     else if text_eqb (py_lower U tipo) (cps "juros_compostos") then calc_juros_compostos kwargs
     else if text_eqb (py_lower U tipo) (cps "juros_simples") then calc_juros_simples kwargs
     else Ret (msg_tipo_nao_suportado tipo))
    (fun e => cps "❌ Erro no cálculo financeiro: " ++ exn_str e).
End Calculadora.


End Ferramenta.

Module FerramentaFacts.

(** A conversion that returns gives the float that the formats print. *)
Lemma to_float_ret v p : Ferramenta.to_float v = Ret p -> p = as_float v.
Proof.
  destruct v as [z|f]; cbn [Ferramenta.to_float as_float]; [|now intros [= <-]].
  unfold Ferramenta.int_to_float, float_of_Z.
  destruct (binary_normalize prec emax z 0 false); intros H; try discriminate;
    now injection H as <-.
Qed.

Lemma to_float_raise v e :
  Ferramenta.to_float v = Raise e -> e = PyExn OverflowError Ferramenta.msg_int_grande.
Proof.
  destruct v as [z|f]; cbn [Ferramenta.to_float]; [|discriminate].
  unfold Ferramenta.int_to_float.
  destruct (binary_normalize prec emax z 0 false); intros H; try discriminate;
    now injection H as <-.
Qed.

Lemma div100_raise v e :
  Ferramenta.div100 v = Raise e -> e = PyExn OverflowError Ferramenta.msg_divisao_grande.
Proof.
  destruct v as [z|f]; cbn [Ferramenta.div100]; [|discriminate].
  destruct (round_ratio (z <? 0) (Z.abs z) 100); intros H; try discriminate;
    now injection H as <-.
Qed.




Section Floats.
Variable U : unicode_db.
Variable float_pow : float -> float -> res float.




(** Simple interest raises exactly when a number does not convert. *)
Lemma calc_juros_simples_num_raise kwargs e :
  Ferramenta.calc_juros_simples kwargs = Raise e <->
  Ferramenta.div100 (Ferramenta.kwargs_get kwargs "taxa") = Raise e \/
  (exists t, Ferramenta.div100 (Ferramenta.kwargs_get kwargs "taxa") = Ret t /\
     (Ferramenta.to_float (Ferramenta.kwargs_get kwargs "principal") = Raise e \/
      exists p, Ferramenta.to_float (Ferramenta.kwargs_get kwargs "principal") = Ret p /\
                Ferramenta.to_float (Ferramenta.kwargs_get kwargs "periodo") = Raise e)).
Proof.
  unfold Ferramenta.calc_juros_simples.
  destruct (Ferramenta.div100 _) as [t|e1]; cbn [bind].
  - destruct (Ferramenta.to_float (Ferramenta.kwargs_get kwargs "principal")) as [p|e2]; cbn [bind].
    + destruct (Ferramenta.to_float (Ferramenta.kwargs_get kwargs "periodo")) as [n|e3]; cbn [bind].
      * split; [discriminate|]. intros [H|(t' & _ & [H|(p' & _ & H)])]; discriminate.
      * split.
        -- intros [= <-]. right. exists t. split; [reflexivity|]. right. now exists p.
        -- intros [H|(t' & _ & [H|(p' & _ & H)])]; try discriminate. congruence.
    + split.
      * intros [= <-]. right. exists t. split; [reflexivity|]. now left.
      * intros [H|(t' & _ & [H|(p' & H & _)])]; try discriminate. congruence.
  - split.
    + intros [= <-]. now left.
    + intros [H|(t' & H & _)]; [congruence|discriminate].
Qed.
End Floats.
End FerramentaFacts.
Export FerramentaFacts.

Module FerramentaTeoremas.
Import FerramentaFacts.

(** A positive mantissa that the format can hold is not rounded to
    zero. *)
Lemma binary_round_aux_not_zero s m e l :
  0 < m -> e <= fexp prec emax (Zdigits2 m + e) -> -1074 < Zdigits2 m + e ->
  match binary_round_aux prec emax s m e l with
  | S754_finite _ _ _ | S754_infinity _ => True
  | _ => False
  end.
Proof.
  intros Hm He Hx. unfold binary_round_aux.
  destruct (shr_fexp prec emax m e l) as [mrs1 e1] eqn:E1.
  destruct (shr_fexp_digits _ _ _ _ _ (Z.lt_le_incl _ _ Hm) He E1) as (He1 & Hm1 & Hd1).
  set (m1 := round_nearest_even (shr_m mrs1) (loc_of_shr_record mrs1)).
  pose proof (round_nearest_even_bounds (shr_m mrs1) (loc_of_shr_record mrs1)) as Hb.
  fold m1 in Hb.
  destruct (shr_fexp prec emax m1 e1 loc_Exact) as [mrs2 e2] eqn:E2.
  assert (Hm1' : 0 <= m1) by lia.
  pose proof (Zdigits2_mono (shr_m mrs1) m1 ltac:(lia)) as Hmono.
  assert (He2 : e1 <= fexp prec emax (Zdigits2 m1 + e1)).
  { rewrite fexp_eq in *. lia. }
  destruct (shr_fexp_digits _ _ _ _ _ Hm1' He2 E2) as (He2' & Hm2 & Hd2).
  assert (Hpos : 0 < Zdigits2 (shr_m mrs2)) by (rewrite fexp_eq in *; lia).
  destruct (shr_m mrs2) as [|p|p]; [cbn in Hpos; lia| |lia].
  destruct (e2 <=? emax - prec); exact I.
Qed.

Lemma binary_round_not_zero s m :
  match binary_round prec emax s m 0 with
  | S754_finite _ _ _ | S754_infinity _ => True
  | _ => False
  end.
Proof.
  unfold binary_round, shl_align.
  pose proof (Pos2Z.is_pos (digits2_pos m)) as Hd.
  destruct (fexp prec emax (Z.pos (digits2_pos m) + 0) - 0) as [|d|d] eqn:Ed;
    apply binary_round_aux_not_zero; try lia; cbn [Zdigits2];
    try rewrite digits2_pos_iter_xO; unfold fexp, emin, prec, emax in *; lia.
Qed.

(** A positive [int] converts to a float that is not zero. *)
Lemma int_to_float_not_zero z p :
  0 < z -> Ferramenta.int_to_float z = Ret p -> (p =? 0)%float = false.
Proof.
  intros Hz. unfold Ferramenta.int_to_float. destruct z as [|m|m]; try lia.
  change (binary_normalize prec emax (Z.pos m) 0 false) with (binary_round prec emax false m 0).
  pose proof (binary_round_not_zero false m) as Hnz.
  pose proof (binary_round_valid false m 0) as Hv.
  destruct (binary_round prec emax false m 0) as [s|s| |s m' e'] eqn:E;
    try contradiction; [discriminate|].
  intros [= <-]. rewrite FloatAxioms.eqb_spec.
  change (SFeqb (Prim2SF (SF2Prim (S754_finite s m' e'))) (Prim2SF 0) = false).
  rewrite (Prim2SF_SF2Prim _ Hv).
  change (Prim2SF 0) with (S754_zero false). destruct s; reflexivity.
Qed.

(** A number that passed the test [v <= 0] converts to no zero. *)
Lemma to_float_not_zero v p :
  num_le0 v = false -> Ferramenta.to_float v = Ret p -> (p =? 0)%float = false.
Proof.
  destruct v as [z|f]; cbn [num_le0 Ferramenta.to_float].
  - intros Hz. apply int_to_float_not_zero. apply Z.leb_gt in Hz. exact Hz.
  - intros Hf [= <-]. now apply not_leb0_not_eqb0.
Qed.

(** The two failures of a conversion. *)
Definition transbordo (e : pyexn) : Prop :=
  e = PyExn OverflowError Ferramenta.msg_int_grande \/
  e = PyExn OverflowError Ferramenta.msg_divisao_grande.

Lemma juros_simples_transbordo kwargs e :
  Ferramenta.calc_juros_simples kwargs = Raise e -> transbordo e.
Proof.
  intros H. apply calc_juros_simples_num_raise in H.
  destruct H as [H|(t & _ & [H|(p & _ & H)])].
  - right. exact (div100_raise _ _ H).
  - left. exact (to_float_raise _ _ H).
  - left. exact (to_float_raise _ _ H).
Qed.

(** X12. [calculadora_financeira_geral], lines 171-236, called with
    [int] or [float] arguments: an exception of the three calculations is
    the [OverflowError] of an [int] that is beyond the floats, or, in
    compound interest, the exception of the power. The division by the
    principal never divides by zero: the principal passed the test of
    being positive, and a positive number converts to no zero. *)
Theorem calculos_so_transbordam (float_pow : float -> float -> res float)
    (kwargs : gmap string pynum) (e : pyexn) :
  (Ferramenta.calc_porcentagem kwargs = Raise e -> transbordo e) /\
  (Ferramenta.calc_juros_simples kwargs = Raise e -> transbordo e) /\
  (Ferramenta.calc_juros_compostos float_pow kwargs = Raise e ->
   transbordo e \/
   exists t n,
     Ferramenta.div100 (Ferramenta.kwargs_get kwargs "taxa") = Ret t /\
     Ferramenta.to_float (Ferramenta.kwargs_get kwargs "periodo") = Ret n /\
     float_pow (1 + t)%float n = Raise e).
Proof.
  split; [|split].
  - unfold Ferramenta.calc_porcentagem. destruct (_ || _); [discriminate|].
    destruct (Ferramenta.div100 _) as [c|e1] eqn:Ec; cbn [bind].
    + destruct (Ferramenta.to_float _) as [v|e2] eqn:Ev; cbn [bind]; [discriminate|].
      intros [= <-]. left. exact (to_float_raise _ _ Ev).
    + intros [= <-]. right. exact (div100_raise _ _ Ec).
  - apply juros_simples_transbordo.
  - unfold Ferramenta.calc_juros_compostos.
    destruct (Ferramenta.div100 _) as [t|e1] eqn:Et; cbn [bind];
      [|intros [= <-]; left; right; exact (div100_raise _ _ Et)].
    destruct (num_le0 (Ferramenta.kwargs_get kwargs "principal")) eqn:Ep; [discriminate|].
    cbn [orb]. destruct (_ || _); [discriminate|].
    destruct (Ferramenta.to_float (Ferramenta.kwargs_get kwargs "periodo")) as [n|e2] eqn:En;
      cbn [bind]; [|intros [= <-]; left; left; exact (to_float_raise _ _ En)].
    destruct (float_pow (1 + t)%float n) as [potencia|e3] eqn:Epow; cbn [bind];
      [|intros [= <-]; right; now exists t, n].
    destruct (Ferramenta.to_float (Ferramenta.kwargs_get kwargs "principal")) as [p|e4] eqn:Ef;
      cbn [bind]; [|intros [= <-]; left; left; exact (to_float_raise _ _ Ef)].
    unfold float_div. rewrite (to_float_not_zero _ _ Ep Ef). discriminate.
Qed.

Lemma calculos_so_transbordam_witness :
  transbordo (PyExn OverflowError Ferramenta.msg_int_grande).
Proof.
  refine (proj1 (proj2 (calculos_so_transbordam pow_referencia
            (<["principal"%string := PFloat 10000]> (<["taxa"%string := PFloat 10]>
               (<["periodo"%string := PInt (10 ^ 400)]> ∅)))
            (PyExn OverflowError Ferramenta.msg_int_grande))) _).
  vm_compute. reflexivity.
Defined.

End FerramentaTeoremas.
Export FerramentaTeoremas.

(* ===================================================================== *)
(** * Simple interest, with the numbers of a tool call *)
(* ===================================================================== *)




